(** * Vesta controller generator: the synthesis engine of [ControllerGen.ts]

    A shallow embedding of [src/src/gen/ControllerGen.ts].  The generator
    assembles TypeScript handler bodies as text; the embedding keeps the text
    functions as they are written (template literals become concatenations),
    threads the mutable generator object through a small state-and-exception
    monad, and models the file system as a finite map from paths to contents. *)

From Stdlib Require Import String Ascii List Bool Arith Lia ZArith.
Import ListNotations.
Open Scope string_scope.

(** ** JavaScript string primitives used by the generator *)

(** The three characters that the source writes as escapes or as line breaks
    inside template literals. *)
Definition dqChar : ascii := Ascii false true false false false true false false.
Definition nlChar : ascii := Ascii false true false true false false false false.
Definition tabChar : ascii := Ascii true false false true false false false false.
Definition dq : string := String dqChar "".
Definition nl : string := String nlChar "".
Definition tab : string := String tabChar "".

Module Js.

Fixpoint startsWith (pat s : string) : bool :=
  match pat, s with
  | EmptyString, _ => true
  | String _ _, EmptyString => false
  | String a p, String b t => Ascii.eqb a b && startsWith p t
  end.

(** Position of the first occurrence of [pat] in [s]. *)
Fixpoint find (pat s : string) : option nat :=
  if startsWith pat s then Some 0
  else match s with
       | EmptyString => None
       | String _ t => option_map S (find pat t)
       end.

(** [String.prototype.indexOf]: the position, or -1. *)
Definition indexOf (s pat : string) : Z :=
  match find pat s with
  | Some i => Z.of_nat i
  | None => (-1)%Z
  end.

(** [String.prototype.search] called with a string: the argument is compiled
    to a regular expression.  The markers searched for are plain text (no
    regular-expression metacharacter), for which the result is the position of
    the first literal occurrence, or -1. *)
Definition search (s pat : string) : Z := indexOf s pat.

(** JavaScript truthiness of a number and of a string. *)
Definition truthyZ (z : Z) : bool := negb (z =? 0)%Z.
Definition truthyS (s : string) : bool :=
  match s with EmptyString => false | _ => true end.

Fixpoint take (n : nat) (s : string) : string :=
  match n, s with
  | S k, String c t => String c (take k t)
  | _, _ => EmptyString
  end.

Fixpoint drop (n : nat) (s : string) : string :=
  match n, s with
  | S k, String _ t => drop k t
  | _, _ => s
  end.

(** Expansion of the replacement text of [String.prototype.replace]: with a
    string pattern there are no capture groups, and the special sequences are
    [$$], [$&], [$`] and [$']; every other character stands for itself. *)
Fixpoint expand (rep before matched after : string) : string :=
  match rep with
  | EmptyString => EmptyString
  | String c rest =>
      if Ascii.eqb c "$" then
        match rest with
        | EmptyString => String c EmptyString
        | String d rest' =>
            if Ascii.eqb d "$" then String "$" (expand rest' before matched after)
            else if Ascii.eqb d "&" then matched ++ expand rest' before matched after
            else if Ascii.eqb d "`" then before ++ expand rest' before matched after
            else if Ascii.eqb d "'" then after ++ expand rest' before matched after
            else String c (expand rest before matched after)
        end
      else String c (expand rest before matched after)
  end.

(** [s.replace(pat, rep)] with a string pattern: only the first occurrence is
    replaced; without an occurrence the string is returned as it is. *)
Definition replace (s pat rep : string) : string :=
  match find pat s with
  | None => s
  | Some i =>
      let before := take i s in
      let after := drop (i + String.length pat) s in
      before ++ expand rep before pat after ++ after
  end.

(** [s.replace(/\/{2,}/g, "/")]: every maximal run of two or more slashes
    becomes one slash. *)
Fixpoint collapseSlashes (s : string) : string :=
  match s with
  | EmptyString => EmptyString
  | String c t =>
      match t with
      | String d _ =>
          if Ascii.eqb c "/" && Ascii.eqb d "/" then collapseSlashes t
          else String c (collapseSlashes t)
      | EmptyString => String c EmptyString
      end
  end.

(** [s.replace(/\/+/g, ".")]: every maximal run of slashes becomes one dot. *)
Fixpoint slashRunsToDot (s : string) : string :=
  match s with
  | EmptyString => EmptyString
  | String c t =>
      if Ascii.eqb c "/" then
        match t with
        | String d _ =>
            if Ascii.eqb d "/" then slashRunsToDot t
            else String "." (slashRunsToDot t)
        | EmptyString => String "." EmptyString
        end
      else String c (slashRunsToDot t)
  end.

(** [s.charAt(0)] and [s[0]] compared with a one-character string. *)
Definition firstCharIs (c : ascii) (s : string) : bool :=
  match s with
  | String d _ => Ascii.eqb c d
  | EmptyString => false
  end.

(** [s.slice(1)]. *)
Definition slice1 (s : string) : string := drop 1 s.

(** [Array.prototype.join]. *)
Definition join (sep : string) (l : list string) : string := String.concat sep l.

(** An array interpolated into a template literal: [Array.prototype.toString],
    the elements joined by commas. *)
Definition arrayToString (l : list string) : string := join "," l.

(** The loop [for (let i = n; i--; ) { ... push ... }]: the body runs for
    [i = n-1], ..., [0] and what it pushes is collected in that order. *)
Fixpoint forDown {A : Type} (n : nat) (body : nat -> list A) : list A :=
  match n with
  | O => []
  | S i => body i ++ forDown i body
  end.

(** [arr[i]] inside a template literal; a missing element prints as
    [undefined]. *)
Definition at_ (l : list string) (i : nat) : string := nth i l "undefined".

Definition isAsciiLetter (c : ascii) : bool :=
  let n := nat_of_ascii c in
  (((65 <=? n) && (n <=? 90)) || ((97 <=? n) && (n <=? 122)))%nat.

Fixpoint allLetters (s : string) : bool :=
  match s with
  | EmptyString => true
  | String c t => isAsciiLetter c && allLetters t
  end.

Definition isLowerLetter (c : ascii) : bool :=
  let n := nat_of_ascii c in ((97 <=? n) && (n <=? 122))%nat.

Fixpoint allLower (s : string) : bool :=
  match s with
  | EmptyString => true
  | String c t => isLowerLetter c && allLower t
  end.

(** [/^[a-z]+$/i.exec(s)] succeeds: without the [u] flag, case-insensitive
    matching never folds a character outside ASCII onto an ASCII letter, so
    the strings accepted are the non-empty strings of ASCII letters. *)
Definition matchesNameRegexI (s : string) : bool :=
  truthyS s && allLetters s.

(** The pattern [^[a-z]+$] read case-sensitively. *)
Definition matchesNameRegex (s : string) : bool :=
  truthyS s && allLower s.

(** [s] does not contain the character [c]. *)
Fixpoint noChar (c : ascii) (s : string) : bool :=
  match s with
  | EmptyString => true
  | String d t => negb (Ascii.eqb c d) && noChar c t
  end.

End Js.

(** ** Schema metadata read by the generator *)

(** Modelled from the spec: the field types of [@vesta/core] that the
    generator distinguishes (File, Relation, List; Text stands for the
    remaining scalar types). *)
Module FieldType.
Inductive t : Type := File | Relation | List | Text.
End FieldType.

(** Modelled from the spec: [meta.relation] of a field's metadata, the target
    model and an optional non-default location of its declaration. *)
Record IRelation : Type := mkRelation {
  relModel : string;
  relPath : option string
}.

(** Modelled from the spec: what [getFieldMeta] returns; [relation] is
    present for Relation-typed fields. *)
Record FieldMeta : Type := mkMeta {
  relation : option IRelation
}.

(** Modelled from the spec: one entry of a model's field set, with the two
    properties the generator reads ([field.fieldName] and
    [field.properties.type]). *)
Record Field : Type := mkField {
  fieldName : string;
  propertiesType : FieldType.t
}.

(** [IModelFields]: an object from field names to fields; [Object.keys]
    enumerates it in insertion order. *)
Definition IModelFields : Type := list (string * Field).

Definition Object_keys (o : IModelFields) : list string := map fst o.

(** ** The source-file builder, as the accumulator the generator fills *)

Inductive Access : Type := Public | Private | Protected.

Record MethodParameter : Type := mkParam {
  paramName : string;
  paramType : string
}.

Record MethodGen : Type := mkMethod {
  methodName : string;
  access : Access;
  isAsync : bool;
  parameters : list MethodParameter;
  content : list string
}.

Record ClassGen : Type := mkClass {
  className : string;
  exported : bool;
  parentClass : option string;
  methods : list MethodGen
}.

(** One [addImport(names, from)] call. *)
Definition ImportCall : Type := (list string * string)%type.

Record TsFileGen : Type := mkFile {
  fileName : string;
  imports : list ImportCall
}.

Definition TsFileGen_addImport (names : list string) (from : string)
  (f : TsFileGen) : TsFileGen :=
  mkFile (fileName f) (imports f ++ [(names, from)]).

(** [addMethod] appends a method without content or parameters and hands back
    a reference to it: its position in the class. *)
Definition ClassGen_addMethod (name : string) (acc : Access) (async : bool)
  (c : ClassGen) : nat * ClassGen :=
  (List.length (methods c),
   mkClass (className c) (exported c) (parentClass c)
     (methods c ++ [mkMethod name acc async [] []])).

Fixpoint updateAt {A : Type} (i : nat) (f : A -> A) (l : list A) : list A :=
  match l, i with
  | [], _ => []
  | x :: t, O => f x :: t
  | x :: t, S j => x :: updateAt j f t
  end.

Definition MethodGen_addParameter (p : MethodParameter) (m : MethodGen) : MethodGen :=
  mkMethod (methodName m) (access m) (isAsync m) (parameters m ++ [p]) (content m).

Definition MethodGen_appendContent (code : string) (m : MethodGen) : MethodGen :=
  mkMethod (methodName m) (access m) (isAsync m) (parameters m) (content m ++ [code]).

Definition ClassGen_updateMethod (ref : nat) (f : MethodGen -> MethodGen)
  (c : ClassGen) : ClassGen :=
  mkClass (className c) (exported c) (parentClass c) (updateAt ref f (methods c)).

(** ** Collaborators outside [ControllerGen.ts] *)

(** The functions and constants imported from lodash, path, the [util]
    directory, [core/Placeholder] and [core/TSFileGen]; the generator is
    parametric in them. *)
Class Externals : Type := {
  camelCase : string -> string;
  pascalCase : string -> string;
  plural : string -> string;
  pathJoin : list string -> string;
  genRelativePath : string -> string -> string;
  getFieldsByType : string -> FieldType.t -> option IModelFields;
  getFieldMeta : string -> string -> FieldMeta;
  getConfidentialFields : string -> list string;
  getOwnerVerifiedFields : string -> list string;
  renderFile : TsFileGen -> ClassGen -> string;
  Placeholder_ExpressController : string;
  Placeholder_Import : string
}.

(** ** The generator object *)

Record IControllerConfig : Type := mkConfig {
  model : string;
  name : string;
  route : string;
  version : string
}.

Record ControllerGen : Type := mkGen {
  config : IControllerConfig;
  apiVersion : string;
  confidentialFields : list string;
  controllerClass : ClassGen;
  controllerFile : TsFileGen;
  filesFields : option IModelFields;
  ownerVerifiedFields : list string;
  path : string;
  rawName : string;
  relationsFields : option IModelFields;
  routeMethod : nat;
  routingPath : string
}.

Definition setControllerFile (f : TsFileGen) (g : ControllerGen) : ControllerGen :=
  mkGen (config g) (apiVersion g) (confidentialFields g) (controllerClass g) f
    (filesFields g) (ownerVerifiedFields g) (path g) (rawName g)
    (relationsFields g) (routeMethod g) (routingPath g).

Definition setControllerClass (c : ClassGen) (g : ControllerGen) : ControllerGen :=
  mkGen (config g) (apiVersion g) (confidentialFields g) c (controllerFile g)
    (filesFields g) (ownerVerifiedFields g) (path g) (rawName g)
    (relationsFields g) (routeMethod g) (routingPath g).

(** The three assignments at the head of [addCRUDOperations]. *)
Definition setSecurity (rel : option IModelFields) (owner conf : list string)
  (g : ControllerGen) : ControllerGen :=
  mkGen (config g) (apiVersion g) conf (controllerClass g) (controllerFile g)
    (filesFields g) owner (path g) (rawName g) rel (routeMethod g) (routingPath g).

(** ** State and exceptions *)

Inductive JsError : Type :=
| TypeError (what : string)
| ENOENT (file : string).

Inductive Result (A : Type) : Type :=
| Ok (a : A)
| Throw (e : JsError).
Arguments Ok {A} a.
Arguments Throw {A} e.

(** A method of the generator: it reads and updates [this] and may throw. *)
Definition GenM (A : Type) : Type := ControllerGen -> Result (A * ControllerGen).

Definition ret {A : Type} (a : A) : GenM A := fun g => Ok (a, g).

Definition bind {A B : Type} (m : GenM A) (k : A -> GenM B) : GenM B :=
  fun g => match m g with
           | Ok (a, g') => k a g'
           | Throw e => Throw e
           end.

Definition throw {A : Type} (e : JsError) : GenM A := fun _ => Throw e.

Definition this : GenM ControllerGen := fun g => Ok (g, g).

Definition modify (f : ControllerGen -> ControllerGen) : GenM unit :=
  fun g => Ok (tt, f g).

Declare Scope gen_scope.
Delimit Scope gen_scope with gen.
Notation "x <- m ;; k" := (bind m (fun x => k))
  (at level 61, m at next level, right associativity) : gen_scope.
Notation "m ;;; k" := (bind m (fun _ => k))
  (at level 61, right associativity) : gen_scope.
Open Scope gen_scope.

(** [this.controllerFile.addImport(names, from)]. *)
Definition addImport (names : list string) (from : string) : GenM unit :=
  modify (fun g => setControllerFile (TsFileGen_addImport names from (controllerFile g)) g).

(** The loop [for (let i = n; i--; )] whose body also acts on [this]. *)
Fixpoint forDownM {A : Type} (n : nat) (body : nat -> GenM (list A)) : GenM (list A) :=
  match n with
  | O => ret []
  | S i => xs <- body i ;; ys <- forDownM i body ;; ret (xs ++ ys)%list
  end.

(** The text a method returns, without the generator object. *)
Definition codeOf {A : Type} (r : Result (A * ControllerGen)) : Result A :=
  match r with
  | Ok (a, _) => Ok a
  | Throw e => Throw e
  end.

Ltac unfold_gen :=
  unfold bind, ret, this, modify, throw, addImport in *.

(** Two concatenations of the same pieces, bracketed differently. *)
Ltac same_text assoc :=
  repeat first [ rewrite !assoc | progress cbn [String.append] ]; reflexivity.

(** Two lists of such texts, line by line. *)
Ltac same_lines assoc :=
  repeat (apply (f_equal2 (@cons string)); [ same_text assoc | ]); reflexivity.

(** ** The handler-body synthesizer *)

Section Generator.

Context {E : Externals}.

(** [arr.length] used as a condition. *)
Definition hasLength {A : Type} (l : list A) : bool :=
  negb (List.length l =? 0)%nat.

(** The loop [for (let i = 0, il = n; i < il; i++)], collecting what the body
    pushes or appends. *)
Definition forUp {A : Type} (n : nat) (body : nat -> list A) : list A :=
  flat_map body (seq 0 n).

(** [meta.relation.path ? `/${meta.relation.path}` : ""]. *)
Definition extPathOf (r : IRelation) : string :=
  match relPath r with
  | Some p => if Js.truthyS p then "/" ++ p else ""
  | None => ""
  end.

Definition getAuthUserCode : GenM string :=
  g <- this ;;
  ret (if hasLength (ownerVerifiedFields g)
       then "const authUser = this.getUserFromSession(req);" ++ nl ++
            "        const isAdmin = this.isAdmin(authUser);" ++ nl ++ tab ++ tab
       else "").

Definition getConfFieldRemovingCode (singleRecord : bool) : GenM string :=
  g <- this ;;
  let index := if singleRecord then "0" else "i" in
  let own :=
    if negb (hasLength (confidentialFields g)) then
      Js.forDown (List.length (confidentialFields g)) (fun i =>
        ["delete result.items[" ++ index ++ "]." ++ Js.at_ (confidentialFields g) i ++ ";"])
    else [] in
  (* checking confidentiality of relations *)
  rel <- match relationsFields g with
         | Some fields =>
             let relationFieldsNames := Object_keys fields in
             forDownM (List.length relationFieldsNames) (fun i =>
               let meta := getFieldMeta (model (config g)) (Js.at_ relationFieldsNames i) in
               match relation meta with
               | None => throw (TypeError "meta.relation is undefined")
               | Some r =>
                   let extPath := extPathOf r in
                   let relConfFields := getConfidentialFields (relModel r) in
                   if hasLength relConfFields then
                     addImport ["I" ++ relModel r]
                       (genRelativePath (path g) ("src/cmn/models" ++ extPath ++ "/" ++ relModel r)) ;;;
                     ret (Js.forDown (List.length relConfFields) (fun j =>
                       ["delete (result.items[" ++ index ++ "]." ++ Js.at_ relationFieldsNames i ++
                        " as I" ++ relModel r ++ ")." ++ Js.at_ relConfFields j ++ ";"]))
                   else ret []
               end)
         | None => ret []
         end ;;
  let confRemovers := (own ++ rel)%list in
  ret (if hasLength confRemovers then
         if singleRecord then
           nl ++ tab ++ tab ++ Js.join (nl ++ tab ++ tab) confRemovers
         else
           nl ++ tab ++ tab ++ "for (let i = result.items.length; i--;) {" ++ nl ++
           "            " ++ Js.join (nl ++ tab ++ tab ++ tab) confRemovers ++ nl ++
           "        }"
       else "").

Definition getQueryCodeForSingleInstance : GenM string :=
  g <- this ;;
  let modelName := pascalCase (model (config g)) in
  ownerChecks <- forDownM (List.length (ownerVerifiedFields g)) (fun i =>
    let meta := getFieldMeta (model (config g)) (Js.at_ (ownerVerifiedFields g) i) in
    match relation meta with
    | Some r =>
        let extPath := extPathOf r in
        addImport ["I" ++ relModel r]
          (genRelativePath (path g) ("src/cmn/models" ++ extPath ++ "/" ++ relModel r)) ;;;
        ret ["(result.items[0]." ++ Js.arrayToString (ownerVerifiedFields g) ++
             " as I" ++ relModel r ++ ").id !== authUser.id"]
    | None =>
        ret ["result.items[0]." ++ Js.arrayToString (ownerVerifiedFields g) ++ " !== authUser.id"]
    end) ;;
  let ownerCheckCode :=
    if hasLength ownerChecks
    then " || (!isAdmin && (" ++ Js.join " || " ownerChecks ++ "))" else "" in
  let relationFields :=
    match relationsFields g with
    | Some fields =>
        ", { relations: [" ++ dq ++ Js.join (dq ++ ", " ++ dq) (Object_keys fields) ++ dq ++ "] }"
    | None => ""
    end in
  authUserCode <- getAuthUserCode ;;
  confCode <- getConfFieldRemovingCode true ;;
  ret (authUserCode ++ "const id = this.retrieveId(req);" ++ nl ++
       "        const result = await " ++ modelName ++ ".find<I" ++ modelName ++ ">(id" ++ relationFields ++ ");" ++ nl ++
       "        if (!result.items.length" ++ ownerCheckCode ++ ") {" ++ nl ++
       "            throw new DatabaseError(Err.Code.DBNoRecord, null);" ++ nl ++
       "        }" ++ confCode ++ nl ++
       "        res.json(result);").

Definition getQueryCodeForMultiInstance : GenM string :=
  g <- this ;;
  let modelName := pascalCase (model (config g)) in
  let ownerQueries := Js.forDown (List.length (ownerVerifiedFields g)) (fun i =>
    [Js.at_ (ownerVerifiedFields g) i ++ ": authUser.id"]) in
  let ownerQueriesCode :=
    if hasLength ownerQueries then
      nl ++ tab ++ tab ++ "if (!isAdmin) {" ++ nl ++
      "            query.filter({" ++ Js.join ", " ownerQueries ++ "});" ++ nl ++
      "        }"
    else "" in
  authUserCode <- getAuthUserCode ;;
  confCode <- getConfFieldRemovingCode false ;;
  ret (authUserCode ++ "const query = this.query2vql(" ++ modelName ++ ", req.query);" ++ ownerQueriesCode ++ nl ++
       "        const result = await " ++ modelName ++ ".find<I" ++ modelName ++ ">(query);" ++ confCode ++ nl ++
       "        res.json(result);").

Definition getCountCode : GenM string :=
  g <- this ;;
  let modelName := pascalCase (model (config g)) in
  ret ("const query = this.query2vql(" ++ modelName ++ ", req.query, true);" ++ nl ++
       "        const result = await " ++ modelName ++ ".count<I" ++ modelName ++ ">(query);" ++ nl ++
       "        res.json(result);").

Definition getQueryCode (isSingle : bool) : GenM string :=
  if isSingle then getQueryCodeForSingleInstance else getQueryCodeForMultiInstance.

Definition getInsertCode : GenM string :=
  g <- this ;;
  let modelName := pascalCase (model (config g)) in
  let modelInstanceName := camelCase modelName in
  let ownerAssigns := Js.forDown (List.length (ownerVerifiedFields g)) (fun i =>
    [modelInstanceName ++ "." ++ Js.at_ (ownerVerifiedFields g) i ++ " = authUser.id;"]) in
  let ownerAssignCode :=
    if hasLength ownerAssigns then
      nl ++ tab ++ tab ++ "if (!isAdmin) {" ++ nl ++
      "            " ++ Js.join (nl ++ tab ++ tab) ownerAssigns ++ nl ++
      "        }"
    else "" in
  authUserCode <- getAuthUserCode ;;
  confCode <- getConfFieldRemovingCode true ;;
  ret (authUserCode ++ "const " ++ modelInstanceName ++ " = new " ++ modelName ++ "(req.body);" ++ ownerAssignCode ++ nl ++
       "        const validationError = " ++ modelInstanceName ++ ".validate();" ++ nl ++
       "        if (validationError) {" ++ nl ++
       "            throw new ValidationError(validationError);" ++ nl ++
       "        }" ++ nl ++
       "        const result = await " ++ modelInstanceName ++ ".insert<I" ++ modelName ++ ">();" ++ confCode ++ nl ++
       "        res.json(result);").

Definition getUpdateCode : GenM string :=
  g <- this ;;
  let modelName := pascalCase (model (config g)) in
  let modelInstanceName := camelCase modelName in
  let ownerChecks := Js.forDown (List.length (ownerVerifiedFields g)) (fun i =>
    [modelInstanceName ++ "." ++ Js.at_ (ownerVerifiedFields g) i ++ " = authUser.id;"]) in
  (* check owner of record after finding the record based on recordId *)
  let ownerInlineChecks := Js.forDown (List.length (ownerVerifiedFields g)) (fun i =>
    [modelInstanceName ++ "." ++ Js.at_ (ownerVerifiedFields g) i ++ " !== authUser.id"]) in
  let ownerCheckCode :=
    if hasLength ownerChecks then
      nl ++ tab ++ tab ++ "if (!isAdmin) {" ++ nl ++
      tab ++ tab ++ tab ++ Js.join (nl ++ tab ++ tab ++ tab) ownerChecks ++ nl ++
      tab ++ tab ++ "}"
    else "" in
  let ownerCheckInlineCode :=
    if hasLength ownerInlineChecks
    then " || (!isAdmin && (" ++ Js.join " || " ownerInlineChecks ++ "))" else "" in
  authUserCode <- getAuthUserCode ;;
  confCode <- getConfFieldRemovingCode true ;;
  ret (authUserCode ++ "const " ++ modelInstanceName ++ " = new " ++ modelName ++ "(req.body);" ++ ownerCheckCode ++ nl ++
       "        const validationError = " ++ modelInstanceName ++ ".validate();" ++ nl ++
       "        if (validationError) {" ++ nl ++
       "            throw new ValidationError(validationError);" ++ nl ++
       "        }" ++ nl ++
       "        const result = await " ++ modelName ++ ".find<I" ++ modelName ++ ">(" ++ modelInstanceName ++ ".id);" ++ nl ++
       "        if (!result.items.length" ++ ownerCheckInlineCode ++ ") {" ++ nl ++
       "            throw new DatabaseError(Err.Code.DBNoRecord, null);" ++ nl ++
       "        }" ++ nl ++
       "        const uResult = await " ++ modelInstanceName ++ ".update<I" ++ modelName ++ ">();" ++ confCode ++ nl ++
       "        res.json(uResult);").

Definition getDeleteCode : GenM string :=
  g <- this ;;
  let modelName := pascalCase (model (config g)) in
  let modelInstanceName := camelCase modelName in
  let ownerChecks :=
    if hasLength (ownerVerifiedFields g) then
      Js.forDown (List.length (ownerVerifiedFields g)) (fun _ =>
        ["result.items[0]." ++ Js.arrayToString (ownerVerifiedFields g) ++ " !== authUser.id"])
    else [] in
  let fieldsOfTypeFile := getFieldsByType modelName FieldType.File in
  deleteFileCode <-
    match fieldsOfTypeFile with
    | Some fields =>
        addImport ["LogLevel"] "@vesta/services" ;;;
        let opening :=
          [nl ++ tab ++ tab ++ "const filesToBeDeleted = [];";
           "const baseDirectory = `${this.config.dir.upload}/" ++ modelInstanceName ++ "`;"] in
        let perField :=
          map (fun entry =>
            let field := snd entry in
            match propertiesType field with
            | FieldType.List =>
                "if (" ++ modelInstanceName ++ "." ++ fieldName field ++ ") {" ++ nl ++
                "            for (let i = " ++ modelInstanceName ++ "." ++ fieldName field ++ ".length; i--; ) {" ++ nl ++
                "                filesToBeDeleted.push('${baseDirectory}/${" ++ modelInstanceName ++ "." ++ fieldName field ++ "[i]}');" ++ nl ++
                "            }" ++ nl ++
                "        }"
            | _ =>
                "filesToBeDeleted.push(`${baseDirectory}/${" ++ modelInstanceName ++ "." ++ fieldName field ++ "}`);"
            end) fields in
        let closing :=
          ["for (let i = filesToBeDeleted.length; i--;) {" ++ nl ++
           "            try {" ++ nl ++
           "                await FileUploader.checkAndDeleteFile(filesToBeDeleted[i]);" ++ nl ++
           "            } catch (error) {" ++ nl ++
           "                req.log(LogLevel.Warning, error.message, " ++ dq ++ "remove" ++ modelName ++ dq ++ ", " ++ dq ++ modelName ++ "Controller" ++ dq ++ ");" ++ nl ++
           "            }" ++ nl ++
           "        }"] in
        ret (opening ++ perField ++ closing)%list
    | None => ret []
    end ;;
  let ownerCheckCode :=
    if hasLength ownerChecks then
      nl ++
      "        if (!isAdmin && (!result.items.length || " ++ Js.join " || " ownerChecks ++ ")) {" ++ nl ++
      "            throw new DatabaseError(Err.Code.DBNoRecord, null);" ++ nl ++
      "        }"
    else "" in
  authUserCode <- getAuthUserCode ;;
  ret (authUserCode ++ "const id = this.retrieveId(req);" ++ nl ++
       "        const result = await " ++ modelName ++ ".find<I" ++ modelName ++ ">(id);" ++ ownerCheckCode ++ nl ++
       "        const " ++ modelInstanceName ++ " = new " ++ modelName ++ "(result.items[0]);" ++ Js.join (nl ++ tab ++ tab) deleteFileCode ++ nl ++
       "        const dResult = await " ++ modelInstanceName ++ ".remove();" ++ nl ++
       "        res.json(dResult);").

Definition getUploadCode : GenM string :=
  (* todo add conf & owner *)
  g <- this ;;
  addImport ["FileUploader"] (genRelativePath (path g) "src/helpers/FileUploader") ;;;
  let modelName := pascalCase (model (config g)) in
  let modelInstanceName := camelCase modelName in
  match filesFields g with
  | None => throw (TypeError "Cannot convert undefined or null to object")
  | Some fields =>
      let fileNames := Object_keys fields in
      let code :=
        if (List.length fileNames =? 1)%nat then
          "const oldFileName = " ++ modelInstanceName ++ "." ++ Js.at_ fileNames 0 ++ ";" ++ nl ++
          "        " ++ modelInstanceName ++ "." ++ Js.at_ fileNames 0 ++ " = upl." ++ Js.at_ fileNames 0 ++ ";" ++ nl ++
          "        if (oldFileName) {" ++ nl ++
          "            await FileUploader.checkAndDeleteFile(`${destDirectory}/${oldFileName}`);" ++ nl ++
          "        }"
        else
          "const delList: Array<Promise<string>> = [];" ++
          String.concat "" (forUp (List.length fileNames) (fun i =>
            let oldName := "old" ++ pascalCase (Js.at_ fileNames i) in
            [nl ++
             "        if (upl." ++ Js.at_ fileNames i ++ ") {" ++ nl ++
             "            const " ++ oldName ++ " = " ++ modelInstanceName ++ "." ++ Js.at_ fileNames i ++ ";" ++ nl ++
             "            delList.push(FileUploader.checkAndDeleteFile(`${destDirectory}/${" ++ oldName ++ "}`)" ++ nl ++
             "                .then(() => " ++ modelInstanceName ++ "." ++ Js.at_ fileNames i ++ " = upl." ++ Js.at_ fileNames i ++ " as string));" ++ nl ++
             "        }"])) ++
          nl ++
          "        await Promise.all(delList);" in
      ret ("const id = this.retrieveId(req);" ++ nl ++
           "        const destDirectory = join(this.config.dir.upload, " ++ dq ++ modelInstanceName ++ dq ++ ");" ++ nl ++
           "        const result = await " ++ modelName ++ ".find<I" ++ modelName ++ ">(id);" ++ nl ++
           "        if (result.items.length !== 1) {" ++ nl ++
           "            throw new Err(Err.Code.DBRecordCount, " ++ dq ++ modelName ++ " not found" ++ dq ++ ");" ++ nl ++
           "        }" ++ nl ++
           "        const " ++ modelInstanceName ++ " = new " ++ modelName ++ "(result.items[0]);" ++ nl ++
           "        const uploader = new FileUploader<I" ++ modelName ++ ">(true);" ++ nl ++
           "        await uploader.parse(req);" ++ nl ++
           "        const upl = await uploader.upload(destDirectory);" ++ nl ++
           "        " ++ code ++ nl ++
           "        const uResult = await " ++ modelInstanceName ++ ".update();" ++ nl ++
           "        res.json(uResult);")
  end.

(** ** The route plan builder and the controller assembler *)

(** [addResponseMethod]: a private async method with the three handler
    parameters; the result refers to the new method. *)
Definition addResponseMethod (name : string) : GenM nat :=
  g <- this ;;
  let (method, c) := ClassGen_addMethod name Private true (controllerClass g) in
  let c := ClassGen_updateMethod method (MethodGen_addParameter (mkParam "req" "IExtRequest")) c in
  let c := ClassGen_updateMethod method (MethodGen_addParameter (mkParam "res" "Response")) c in
  let c := ClassGen_updateMethod method (MethodGen_addParameter (mkParam "next" "NextFunction")) c in
  modify (setControllerClass c) ;;;
  ret method.

(** [method.appendContent(code)] on a method of the controller class. *)
Definition appendContent (method : nat) (code : string) : GenM unit :=
  modify (fun g =>
    setControllerClass
      (ClassGen_updateMethod method (MethodGen_appendContent code) (controllerClass g)) g).

Definition addCRUDOperations : GenM unit :=
  g <- this ;;
  let modelName := pascalCase (model (config g)) in
  let modelInstanceName := camelCase modelName in
  let modelClassName := pascalCase modelInstanceName in
  modify (setSecurity (getFieldsByType (model (config g)) FieldType.Relation)
                      (getOwnerVerifiedFields (model (config g)))
                      (getConfidentialFields (model (config g)))) ;;;
  addImport ["Err"; "DatabaseError"; "ValidationError"] "@vesta/core" ;;;
  addImport [modelClassName; "I" ++ modelClassName]
    (genRelativePath (path g) ("src/cmn/models/" ++ model (config g))) ;;;
  addImport ["AclAction"] "@vesta/services" ;;;
  let acl := Js.slashRunsToDot (routingPath g) in
  let acl := if Js.firstCharIs "." acl then Js.slice1 acl else acl in
  let middleWares := " this.checkAcl(" ++ dq ++ acl ++ dq ++ ", __ACTION__)," in
  (* count operation *)
  let methodName := "get" ++ modelClassName ++ "Count" in
  let methodBasedMiddleWares := Js.replace middleWares "__ACTION__" "AclAction.Read" in
  m <- addResponseMethod methodName ;;
  code <- getCountCode ;;
  appendContent m code ;;;
  appendContent (routeMethod g)
    ("router.get(" ++ dq ++ routingPath g ++ "/count" ++ dq ++ "," ++ methodBasedMiddleWares ++ " this.wrap(this." ++ methodName ++ "));") ;;;
  (* *)
  let methodName := "get" ++ modelClassName in
  let methodBasedMiddleWares := Js.replace middleWares "__ACTION__" "AclAction.Read" in
  m <- addResponseMethod methodName ;;
  code <- getQueryCode true ;;
  appendContent m code ;;;
  appendContent (routeMethod g)
    ("router.get(" ++ dq ++ routingPath g ++ "/:id" ++ dq ++ "," ++ methodBasedMiddleWares ++ " this.wrap(this." ++ methodName ++ "));") ;;;
  (* *)
  let methodName := "get" ++ plural modelClassName in
  m <- addResponseMethod methodName ;;
  code <- getQueryCode false ;;
  appendContent m code ;;;
  appendContent (routeMethod g)
    ("router.get(" ++ dq ++ routingPath g ++ dq ++ "," ++ methodBasedMiddleWares ++ " this.wrap(this." ++ methodName ++ "));") ;;;
  (* *)
  let methodName := "add" ++ modelClassName in
  let methodBasedMiddleWares := Js.replace middleWares "__ACTION__" "AclAction.Add" in
  m <- addResponseMethod methodName ;;
  code <- getInsertCode ;;
  appendContent m code ;;;
  appendContent (routeMethod g)
    ("router.post(" ++ dq ++ routingPath g ++ dq ++ "," ++ methodBasedMiddleWares ++ " this.wrap(this." ++ methodName ++ "));") ;;;
  (* *)
  let methodName := "update" ++ modelClassName in
  let methodBasedMiddleWares := Js.replace middleWares "__ACTION__" "AclAction.Edit" in
  m <- addResponseMethod methodName ;;
  code <- getUpdateCode ;;
  appendContent m code ;;;
  appendContent (routeMethod g)
    ("router.put(" ++ dq ++ routingPath g ++ dq ++ "," ++ methodBasedMiddleWares ++ " this.wrap(this." ++ methodName ++ "));") ;;;
  (* *)
  let methodName := "remove" ++ modelClassName in
  let methodBasedMiddleWares := Js.replace middleWares "__ACTION__" "AclAction.Delete" in
  m <- addResponseMethod methodName ;;
  code <- getDeleteCode ;;
  appendContent m code ;;;
  appendContent (routeMethod g)
    ("router.delete(" ++ dq ++ routingPath g ++ "/:id" ++ dq ++ "," ++ methodBasedMiddleWares ++ " this.wrap(this." ++ methodName ++ "));") ;;;
  (* file upload *)
  match filesFields g with
  | Some _ =>
      let methodName := "upload" in
      let methodBasedMiddleWares := Js.replace middleWares "__ACTION__" "AclAction.Edit" in
      m <- addResponseMethod methodName ;;
      code <- getUploadCode ;;
      appendContent m code ;;;
      appendContent (routeMethod g)
        ("router.post(" ++ dq ++ routingPath g ++ "/file/:id" ++ dq ++ "," ++ methodBasedMiddleWares ++ " this.wrap(this." ++ methodName ++ "));")
  | None => ret tt
  end.

(** [normalizeRoutingPath]: the value it assigns to [this.routingPath]. *)
Definition normalizeRoutingPath (cfg : IControllerConfig) : string :=
  let edge := camelCase (name cfg) in
  let routingPath := route cfg in
  let routingPath :=
    if negb (Js.firstCharIs "/" routingPath) then "/" ++ routingPath else routingPath in
  let routingPath := routingPath ++ "/" ++ edge in
  Js.collapseSlashes routingPath.

End Generator.

(** ** What a method leaves untouched *)

Section Frames.

Context {E : Externals}.

(** [g'] is [g] with another import list: the handler-body methods change
    nothing else. *)
Definition keepsAllButFile (g g' : ControllerGen) : Prop :=
  g' = setControllerFile (controllerFile g') g.

(** A method that returns, whatever the imports so far, and only adds
    imports. *)
Definition fileOnly {A : Type} (m : GenM A) (g : ControllerGen) : Prop :=
  forall f, exists a f', m (setControllerFile f g) = Ok (a, setControllerFile f' g).

(** Everything of the generator object but its class and its file. *)
Definition base (g : ControllerGen) :=
  (config g, apiVersion g, confidentialFields g, filesFields g, ownerVerifiedFields g,
   path g, rawName g, relationsFields g, routeMethod g, routingPath g).

(** While the handlers are added, the generator object [s] agrees with [g]
    on its base, the [route] method exists and holds the statements
    [lines]. *)
Definition atStage (g : ControllerGen) (lines : list string) (s : ControllerGen) : Prop :=
  base s = base g /\
  exists m : MethodGen,
    nth_error (methods (controllerClass s)) (routeMethod g) = Some m /\
    content m = lines.

(** The schema provider's promise about relation fields: [getFieldMeta]
    knows the relation of every field that [getFieldsByType] lists as one. *)
Definition relationsKnown (m : string) (rel : option IModelFields) : bool :=
  match rel with
  | Some fields =>
      forallb (fun k => match relation (getFieldMeta m k) with Some _ => true | None => false end)
        (Object_keys fields)
  | None => true
  end.

End Frames.

(** ** Generator objects that differ in their confidential fields only *)

(** The generator object with its list of confidential fields emptied. *)
Definition withoutConfidential (g : ControllerGen) : ControllerGen :=
  setSecurity (relationsFields g) (ownerVerifiedFields g) [] g.

Definition sameButConfidential (g1 g2 : ControllerGen) : Prop :=
  withoutConfidential g1 = withoutConfidential g2.

(** Two runs end alike: with the same exception, or with the same value and
    generator objects that still differ in their confidential fields only. *)
Definition endAlike {A : Type} (r1 r2 : Result (A * ControllerGen)) : Prop :=
  match r1, r2 with
  | Ok (a1, g1), Ok (a2, g2) => a1 = a2 /\ sameButConfidential g1 g2
  | Throw e1, Throw e2 => e1 = e2
  | _, _ => False
  end.

(** Two methods that cannot tell such generator objects apart. *)
Definition blindToConfidential {A : Type} (m1 m2 : GenM A) : Prop :=
  forall g1 g2, sameButConfidential g1 g2 -> endAlike (m1 g1) (m2 g2).

(** ** The route table, as the design document lists it *)

Inductive HttpVerb : Type := GET | POST | PUT | DELETE.

Inductive AclAction : Type := AclRead | AclAdd | AclEdit | AclDelete.

Record RouteEntry : Type := mkRoute {
  httpVerb : HttpVerb;
  urlPath : string;
  aclAction : AclAction;
  handler : string
}.

(** The route table as section 4.2 of the design document states it, for the
    base path [p], in its order; [M] and [Ms] are the model's class name and
    its plural, after which the handlers are named. *)
Definition routeTable (p M Ms : string) (hasFileFields : bool) : list RouteEntry :=
  [ mkRoute GET (p ++ "/count") AclRead ("get" ++ M ++ "Count");
    mkRoute GET (p ++ "/:id") AclRead ("get" ++ M);
    mkRoute GET p AclRead ("get" ++ Ms);
    mkRoute POST p AclAdd ("add" ++ M);
    mkRoute PUT p AclEdit ("update" ++ M);
    mkRoute DELETE (p ++ "/:id") AclDelete ("remove" ++ M) ]
  ++ (if hasFileFields then [mkRoute POST (p ++ "/file/:id") AclEdit "upload"] else []).

Definition verbName (v : HttpVerb) : string :=
  match v with GET => "get" | POST => "post" | PUT => "put" | DELETE => "delete" end.

Definition actionName (a : AclAction) : string :=
  match a with
  | AclRead => "AclAction.Read"
  | AclAdd => "AclAction.Add"
  | AclEdit => "AclAction.Edit"
  | AclDelete => "AclAction.Delete"
  end.

(** The statement that registers a route entry on the router, behind the
    access-control middleware of the dotted identifier [acl]. *)
Definition registration (acl : string) (r : RouteEntry) : string :=
  "router." ++ verbName (httpVerb r) ++ "(" ++ dq ++ urlPath r ++ dq ++ "," ++
  " this.checkAcl(" ++ dq ++ acl ++ dq ++ ", " ++ actionName (aclAction r) ++ ")," ++
  " this.wrap(this." ++ handler r ++ "));".

(** The dotted access-control identifier that [addCRUDOperations] derives
    from the routing path. *)
Definition aclOf (routingPath : string) : string :=
  let acl := Js.slashRunsToDot routingPath in
  if Js.firstCharIs "." acl then Js.slice1 acl else acl.

(** The statements appended so far to the [route] method. *)
Definition routeContent (g : ControllerGen) : list string :=
  match nth_error (methods (controllerClass g)) (routeMethod g) with
  | Some m => content m
  | None => []
  end.

(** The route base with its leading slash. *)
Definition withLeadingSlash (route : string) : string :=
  if Js.firstCharIs "/" route then route else "/" ++ route.

(** ** The emitted update handler, clause by clause *)

(** The statements that [getUpdateCode] emits, in the order of its template:
    the view of the handler body as a sequence of clauses. *)
Inductive Clause : Type :=
| AuthBinding
| Construct
| ForceOwner (fields : list string)
| Validate
| Lookup
| RecordGuard (fields : list string)
| Persist
| Redact (code : string)
| Respond.

(** The text of a clause in the update handler of model class [M], whose
    instance variable is [inst]. *)
Definition clauseText (M inst : string) (c : Clause) : string :=
  match c with
  | AuthBinding =>
      "const authUser = this.getUserFromSession(req);" ++ nl ++
      "        const isAdmin = this.isAdmin(authUser);" ++ nl ++ tab ++ tab
  | Construct =>
      "const " ++ inst ++ " = new " ++ M ++ "(req.body);"
  | ForceOwner fields =>
      nl ++ tab ++ tab ++ "if (!isAdmin) {" ++ nl ++
      tab ++ tab ++ tab ++
      Js.join (nl ++ tab ++ tab ++ tab)
        (map (fun f => inst ++ "." ++ f ++ " = authUser.id;") fields) ++ nl ++
      tab ++ tab ++ "}"
  | Validate =>
      nl ++
      "        const validationError = " ++ inst ++ ".validate();" ++ nl ++
      "        if (validationError) {" ++ nl ++
      "            throw new ValidationError(validationError);" ++ nl ++
      "        }"
  | Lookup =>
      nl ++
      "        const result = await " ++ M ++ ".find<I" ++ M ++ ">(" ++ inst ++ ".id);"
  | RecordGuard fields =>
      nl ++
      "        if (!result.items.length" ++
      match fields with
      | [] => ""
      | _ => " || (!isAdmin && (" ++
             Js.join " || " (map (fun f => inst ++ "." ++ f ++ " !== authUser.id") fields) ++ "))"
      end ++ ") {" ++ nl ++
      "            throw new DatabaseError(Err.Code.DBNoRecord, null);" ++ nl ++
      "        }"
  | Persist =>
      nl ++
      "        const uResult = await " ++ inst ++ ".update<I" ++ M ++ ">();"
  | Redact code => code
  | Respond =>
      nl ++
      "        res.json(uResult);"
  end.

Definition renderClauses (M inst : string) (cs : list Clause) : string :=
  String.concat "" (map (clauseText M inst) cs).

(** The clauses of the update handler for the owner-verified fields [owner]
    (as declared) and the redaction text; the loops of the generator run from
    the last field to the first. *)
Definition updateClauses (owner : list string) (redaction : string) : list Clause :=
  match owner with
  | [] => [Construct; Validate; Lookup; RecordGuard []; Persist; Redact redaction; Respond]
  | _ => [AuthBinding; Construct; ForceOwner (rev owner); Validate; Lookup;
          RecordGuard (rev owner); Persist; Redact redaction; Respond]
  end.

(** *** What the clauses do *)

(** A request as the update handler sees it: who asks, the owner-verified
    fields of the body, whether the model accepts an instance, and whether the
    record looked up by the instance's id exists. *)
Record UpdateRequest : Type := mkRequest {
  isAdmin : bool;
  authUserId : nat;
  body : string -> nat;
  accepts : (string -> nat) -> bool;
  recordExists : bool
}.

Inductive UpdateOutcome : Type :=
| ThrowsValidationError
| ThrowsNoRecord
| Updated (instance : string -> nat)
| Returned.

Definition assign (f : string) (v : nat) (inst : string -> nat) : string -> nat :=
  fun k => if String.eqb k f then v else inst k.

(** One clause after the other, on the instance built from the body: a
    [throw] ends the handler, the other statements go on to the next one. *)
Fixpoint runClauses (rq : UpdateRequest) (cs : list Clause) (inst : string -> nat)
  : UpdateOutcome :=
  match cs with
  | [] => Returned
  | Persist :: _ => Updated inst
  | ForceOwner fields :: rest =>
      runClauses rq rest
        (if isAdmin rq then inst
         else fold_left (fun i f => assign f (authUserId rq) i) fields inst)
  | Validate :: rest =>
      if accepts rq inst then runClauses rq rest inst else ThrowsValidationError
  | RecordGuard fields :: rest =>
      if negb (recordExists rq)
         || (negb (isAdmin rq)
             && existsb (fun f => negb (inst f =? authUserId rq)%nat) fields)
      then ThrowsNoRecord
      else runClauses rq rest inst
  | _ :: rest => runClauses rq rest inst
  end.

Definition runUpdate (rq : UpdateRequest) (owner : list string) (redaction : string)
  : UpdateOutcome :=
  runClauses rq (updateClauses owner redaction) (body rq).

(** The instance on which validation runs: the body, with the owner-verified
    fields overwritten for a request that is not an administrator's. *)
Definition instanceValidated (rq : UpdateRequest) (owner : list string) : string -> nat :=
  if isAdmin rq then body rq
  else fold_left (fun i f => assign f (authUserId rq) i) (rev owner) (body rq).

(** ** The file system and the console *)

Record World : Type := mkWorld {
  files : string -> option string;
  dirs : list string;
  errors : list string
}.

Definition writeFile (p text : string) (w : World) : World :=
  mkWorld (fun q => if String.eqb q p then Some text else files w q) (dirs w) (errors w).

Definition mkdir (p : string) (w : World) : World :=
  mkWorld (files w) (dirs w ++ [p]) (errors w).

Definition readFileSync (p : string) (w : World) : option string := files w p.

Definition Log_error (msg : string) (w : World) : World :=
  mkWorld (files w) (dirs w) (errors w ++ [msg]).

(** ** Construction, generation and the registration patcher *)

Section Driver.

Context {E : Externals}.

(** The constructor followed by the private [init]: the generator object it
    leaves behind, and the directory it creates. *)
Definition ControllerGen_new (cfg : IControllerConfig) (w : World) : ControllerGen * World :=
  let apiVersion := version cfg in
  let path := pathJoin ["src/api"; apiVersion; "controller"; route cfg] in
  let rawName := camelCase (name cfg) in
  let controllerName := pascalCase rawName ++ "Controller" in
  let routingPath := normalizeRoutingPath cfg in
  let controllerFile := mkFile controllerName [] in
  (* addClass() names the class after the file; shouldExport(true) *)
  let controllerClass := mkClass controllerName true None [] in
  let filesFields :=
    if Js.truthyS (model cfg) then getFieldsByType (model cfg) FieldType.File else None in
  let controllerFile :=
    match filesFields with
    | Some _ => TsFileGen_addImport ["join"] "path" controllerFile
    | None => controllerFile
    end in
  let controllerFile := TsFileGen_addImport ["NextFunction"; "Response"; "Router"] "express" controllerFile in
  let controllerFile :=
    TsFileGen_addImport ["BaseController"; "IExtRequest"]
      (genRelativePath path "src/api/BaseController") controllerFile in
  let controllerClass :=
    mkClass (className controllerClass) (exported controllerClass) (Some "BaseController")
      (methods controllerClass) in
  let (routeMethod, controllerClass) := ClassGen_addMethod "route" Public false controllerClass in
  let controllerClass :=
    ClassGen_updateMethod routeMethod (MethodGen_addParameter (mkParam "router" "Router")) controllerClass in
  (mkGen cfg apiVersion [] controllerClass controllerFile filesFields [] path rawName None
     routeMethod routingPath,
   mkdir path w).

(** What the registration step of [generate] does with the registry text. *)
Inductive PatchOutcome : Type :=
| PatchSkipped
| PatchAlreadyImported
| PatchWritten (code : string).

Definition importCodeOf (g : ControllerGen) : string :=
  let relPath := genRelativePath ("src/api/" ++ apiVersion g) (path g) in
  "import {" ++ className (controllerClass g) ++ "} from " ++ dq ++ relPath ++ "/" ++
  className (controllerClass g) ++ dq ++ ";".

Definition embedCodeOf (g : ControllerGen) : string :=
  camelCase (name (config g)) ++ ": " ++ className (controllerClass g) ++ ",".

(** The block guarded by [if (code.search(Placeholder.ExpressController))]. *)
Definition registryPatch (g : ControllerGen) (code : string) : PatchOutcome :=
  if Js.truthyZ (Js.search code Placeholder_ExpressController) then
    let importCode := importCodeOf g in
    if (0 <=? Js.indexOf code importCode)%Z then PatchAlreadyImported
    else
      let embedCode := embedCodeOf g in
      let code := Js.replace code Placeholder_Import (importCode ++ nl ++ Placeholder_Import) in
      let code := Js.replace code Placeholder_ExpressController
                    (embedCode ++ nl ++ tab ++ tab ++ Placeholder_ExpressController) in
      PatchWritten code
  else PatchSkipped.

(** The texts inserted into the registry are plain: none holds a [$], which
    [replace] would expand, and the controller marker is a single line that
    the import statement does not contain. *)
Definition plainInsertions (g : ControllerGen) : bool :=
  Js.noChar "$" (importCodeOf g ++ nl ++ Placeholder_Import) &&
  Js.noChar "$" (embedCodeOf g ++ nl ++ tab ++ tab ++ Placeholder_ExpressController) &&
  Js.noChar nlChar Placeholder_ExpressController &&
  match Js.find Placeholder_ExpressController (importCodeOf g) with
  | None => true
  | Some _ => false
  end.

(** The file that [generate] writes the controller to. *)
Definition controllerPath (g : ControllerGen) : string :=
  pathJoin [path g; className (controllerClass g) ++ ".ts"].

Definition registryFile (g : ControllerGen) : string :=
  "src/api/" ++ apiVersion g ++ "/import.ts".

Definition generate (g : ControllerGen) (w : World) : World * Result ControllerGen :=
  match (if Js.truthyS (model (config g)) then addCRUDOperations g else Ok (tt, g)) with
  | Throw e => (w, Throw e)
  | Ok (_, g) =>
      let w := writeFile (pathJoin [path g; className (controllerClass g) ++ ".ts"])
                 (renderFile (controllerFile g) (controllerClass g)) w in
      let filePath := registryFile g in
      match readFileSync filePath w with
      | None => (w, Throw (ENOENT filePath))
      | Some code =>
          match registryPatch g code with
          | PatchWritten code => (writeFile filePath code w, Ok g)
          | PatchAlreadyImported => (w, Ok g)
          | PatchSkipped => (w, Ok g)
          end
      end
  end.

(** A value handed back by the argument parser for [--model]: the default
    [null], [true] for a flag given without [=], or the text after [=]. *)
Inductive ArgVal : Type :=
| ANull
| ATrue
| AStr (s : string).

(** The parsed command line, as far as [init] reads it; an absent flag is
    [None] and takes the default passed to [get]. *)
Record ArgParser : Type := mkArgs {
  argName : option string;
  argModel : option ArgVal;
  argRoute : option string;
  argVersion : option string
}.

Definition getOr {A : Type} (v : option A) (default : A) : A :=
  match v with Some a => a | None => default end.

Inductive InitOutcome : Type :=
| Aborted
| Threw (e : JsError)
| Generated (g : ControllerGen).

Definition nameError : string :=
  "Missing/Invalid controller name" ++ nl ++ "See 'vesta gen controller --help' for more information" ++ nl.

Definition modelError : string :=
  "Missing/Invalid model name" ++ nl ++ "See 'vesta gen controller --help' for more information" ++ nl.

(** The static [ControllerGen.init]. *)
Definition init (argParser : ArgParser) (w : World) : World * InitOutcome :=
  let cfgModel := getOr (argModel argParser) ANull in
  let cfgName := argName argParser in
  let cfgRoute := getOr (argRoute argParser) "/" in
  let cfgVersion := getOr (argVersion argParser) "v1" in
  match cfgName with
  | None => (Log_error nameError w, Aborted)
  | Some nm =>
      if negb (Js.truthyS nm) || negb (Js.matchesNameRegexI nm) then
        (Log_error nameError w, Aborted)
      else
        (* this happens in case of `vesta gen controller name --model User` without = *)
        match cfgModel with
        | ANull => (w, Threw (TypeError "Cannot read property 'toString' of null"))
        | ATrue => (Log_error modelError w, Aborted)
        | AStr m =>
            if String.eqb m "true" then (Log_error modelError w, Aborted)
            else
              let cfg := mkConfig m nm cfgRoute cfgVersion in
              let (controller, w) := ControllerGen_new cfg w in
              match generate controller w with
              | (w, Ok g) => (w, Generated g)
              | (w, Throw e) => (w, Threw e)
              end
        end
  end.

(** The text printed by [ControllerGen.help]. *)
Definition helpText : string :=
  nl ++ "Usage: vesta gen controller <NAME> [options...]" ++ nl ++ nl ++
  "Creating a server side (Vesta API) controller" ++ nl ++ nl ++
  "    NAME        The name of the controller" ++ nl ++ nl ++
  "Options:" ++ nl ++
  "    --model     Generates CRUD controller for specified model" ++ nl ++
  "    --route     Routing path" ++ nl ++
  "    --version   api version [v1]" ++ nl ++ nl ++
  "Examples:" ++ nl ++
  "    vesta gen controller simple" ++ nl ++
  "    vesta gen controller profile --model=User --route=account" ++ nl.

End Driver.

(** ** A concrete schema provider, for running the generator *)

Module Sample.

(** Modelled from the spec: a declared field with its per-field security
    metadata (confidential, owner-verified), its type, whether it is a list
    of that type, and its relation target. *)
Record Decl : Type := mkDecl {
  declName : string;
  declType : FieldType.t;
  declIsList : bool;
  declRelation : option IRelation;
  declConfidential : bool;
  declVerifyOwner : bool
}.

Definition Schema : Type := list (string * list Decl).

Fixpoint declsOf (s : Schema) (m : string) : list Decl :=
  match s with
  | [] => []
  | (n, ds) :: rest => if String.eqb n m then ds else declsOf rest m
  end.

Definition toField (d : Decl) : string * Field :=
  (declName d,
   mkField (declName d) (if declIsList d then FieldType.List else declType d)).

Definition sameType (a b : FieldType.t) : bool :=
  match a, b with
  | FieldType.File, FieldType.File => true
  | FieldType.Relation, FieldType.Relation => true
  | FieldType.List, FieldType.List => true
  | FieldType.Text, FieldType.Text => true
  | _, _ => false
  end.

(** Modelled from the spec: [fieldsByType(model, type)], the fields of that
    type in declaration order, and null when no field of that type exists. *)
Definition fieldsByType (s : Schema) (m : string) (t : FieldType.t) : option IModelFields :=
  match filter (fun d => sameType (declType d) t) (declsOf s m) with
  | [] => None
  | ds => Some (map toField ds)
  end.

(** Modelled from the spec: [fieldMeta(model, fieldName)]. *)
Definition fieldMeta (s : Schema) (m f : string) : FieldMeta :=
  match filter (fun d => String.eqb (declName d) f) (declsOf s m) with
  | d :: _ => mkMeta (declRelation d)
  | [] => mkMeta None
  end.

(** Modelled from the spec: the ordered sequences of confidential and of
    owner-verified field names of a model. *)
Definition confidentialOf (s : Schema) (m : string) : list string :=
  map declName (filter declConfidential (declsOf s m)).

Definition ownerVerifiedOf (s : Schema) (m : string) : list string :=
  map declName (filter declVerifyOwner (declsOf s m)).

Definition lowerChar (c : ascii) : ascii :=
  let n := nat_of_ascii c in
  if ((65 <=? n) && (n <=? 90))%nat then ascii_of_nat (n + 32) else c.

Definition upperChar (c : ascii) : ascii :=
  let n := nat_of_ascii c in
  if ((97 <=? n) && (n <=? 122))%nat then ascii_of_nat (n - 32) else c.

(** On a single word (letters only, no inner capital run) lodash's
    [camelCase] lowers the first letter, and [pascalCase] raises it. *)
Definition lowerFirst (s : string) : string :=
  match s with String c t => String (lowerChar c) t | EmptyString => EmptyString end.

Definition upperFirst (s : string) : string :=
  match s with String c t => String (upperChar c) t | EmptyString => EmptyString end.

(** [path.join] on relative segments: joined by slashes, repeated slashes
    collapsed. *)
Definition joinPath (segs : list string) : string :=
  Js.collapseSlashes (Js.join "/" segs).

Fixpoint segments (s : string) : list string :=
  match s with
  | EmptyString => [EmptyString]
  | String c t =>
      if Ascii.eqb c "/" then EmptyString :: segments t
      else match segments t with
           | h :: r => String c h :: r
           | [] => [String c EmptyString]
           end
  end.

Fixpoint dropCommon (a b : list string) : list string * list string :=
  match a, b with
  | x :: a', y :: b' => if String.eqb x y then dropCommon a' b' else (a, b)
  | _, _ => (a, b)
  end.

(** The relative path from one directory to another: one [..] for every
    segment left of the first after the common prefix, then the rest of the
    second; a path that does not climb starts with [.]. *)
Definition relativePath (from to : string) : string :=
  let (up, down) := dropCommon (segments from) (segments to) in
  match up with
  | [] => Js.join "/" ("." :: down)
  | _ => Js.join "/" (map (fun _ => "..") up ++ down)
  end.

Definition renderSample (f : TsFileGen) (c : ClassGen) : string :=
  "class " ++ className c ++ " {" ++ nl ++
  Js.join nl (flat_map content (methods c)) ++ nl ++ "}".

Definition externals (s : Schema) : Externals := {|
  camelCase := lowerFirst;
  pascalCase := upperFirst;
  plural := fun w => w ++ "s";
  pathJoin := joinPath;
  genRelativePath := relativePath;
  getFieldsByType := fieldsByType s;
  getFieldMeta := fieldMeta s;
  getConfidentialFields := confidentialOf s;
  getOwnerVerifiedFields := ownerVerifiedOf s;
  renderFile := renderSample;
  Placeholder_ExpressController := "///<vesta:expressController/>";
  Placeholder_Import := "///<vesta:import/>"
|}.

Definition text (n : string) : Decl := mkDecl n FieldType.Text false None false false.
Definition secret (n : string) : Decl := mkDecl n FieldType.Text false None true false.
Definition owner (n : string) : Decl := mkDecl n FieldType.Text false None false true.
Definition file (n : string) : Decl := mkDecl n FieldType.File false None false false.
Definition fileList (n : string) : Decl := mkDecl n FieldType.File true None false false.
Definition relationTo (n m : string) : Decl :=
  mkDecl n FieldType.Relation false (Some (mkRelation m None)) false false.
Definition ownerRelation (n m : string) : Decl :=
  mkDecl n FieldType.Relation false (Some (mkRelation m None)) false true.

(** A small schema: [User] keeps a password; [Post] belongs to a user and
    carries one image; [Note] is owned through two scalar fields; [Album]
    holds two files; [Plain] has no metadata at all. *)
Definition schema : Schema :=
  [ ("User", [text "name"; secret "password"]);
    ("Post", [text "title"; ownerRelation "author" "User"; file "image"]);
    ("Note", [owner "userId"; owner "editorId"; text "body"]);
    ("Account", [owner "userId"; secret "password"; text "email"]);
    ("Album", [text "title"; file "cover"; file "back"; fileList "photos"]);
    ("Plain", [text "title"]) ].

Definition lib : Externals := externals schema.

(** The generator object right after construction and after the three
    assignments at the head of [addCRUDOperations]. *)
Definition ready (m nm rt : string) : ControllerGen :=
  let g := fst (@ControllerGen_new lib (mkConfig m nm rt "v1") (mkWorld (fun _ => None) [] [])) in
  setSecurity (fieldsByType schema m FieldType.Relation) (ownerVerifiedOf schema m)
    (confidentialOf schema m) g.

Definition textOf (r : Result (string * ControllerGen)) : string :=
  match r with Ok (s, _) => s | Throw _ => "<throws>" end.

(** A registry file with both insertion markers, and a project whose only
    file it is. *)
Definition registry : string :=
  "import {IndexController} from " ++ dq ++ "./controller/IndexController" ++ dq ++ ";" ++ nl ++
  "///<vesta:import/>" ++ nl ++ nl ++
  "export const controllers = {" ++ nl ++
  tab ++ tab ++ "index: IndexController," ++ nl ++
  tab ++ tab ++ "///<vesta:expressController/>" ++ nl ++
  "};" ++ nl.


Definition projectWith (registryText : string) : World :=
  mkWorld (fun p => if String.eqb p "src/api/v1/import.ts" then Some registryText else None) [] [].

Definition project : World := projectWith registry.

Definition commandLine (nm : option string) (m : option ArgVal) (rt : option string) : ArgParser :=
  mkArgs nm m rt None.

(** The controller that a run generated. *)
Definition generatedBy (r : World * InitOutcome) : ControllerGen :=
  match snd r with
  | Generated g => g
  | _ => fst (@ControllerGen_new lib (mkConfig "" "" "" "") (fst r))
  end.

(** [vesta gen controller NAME --model=M --route=R] run against a world. *)
Definition run (nm m rt : string) (w : World) : World * InitOutcome :=
  @init lib (commandLine (Some nm) (Some (AStr m)) (Some rt)) w.

End Sample.

(** ** What generation keeps of the generator object *)

(** A method of the class after further generation: the same name, access
    and asynchrony, with parameters and statements added behind the ones it
    had. *)
Definition methodGrows (m m' : MethodGen) : Prop :=
  methodName m' = methodName m /\ access m' = access m /\ isAsync m' = isAsync m /\
  (exists ps, parameters m' = parameters m ++ ps)%list /\
  (exists cs, content m' = content m ++ cs)%list.

(** The methods of the class after further generation: the former ones,
    grown, followed by new ones. *)
Definition methodsGrow (ms ms' : list MethodGen) : Prop :=
  exists olds news, ms' = (olds ++ news)%list /\ Forall2 methodGrows ms olds.

(** [g'] is [g] after further generation: the configuration, the paths, the
    names and the file fields are the same, the class has the same name,
    export flag and parent, and imports and methods were only added. *)
Definition extends (g g' : ControllerGen) : Prop :=
  config g' = config g /\ apiVersion g' = apiVersion g /\ path g' = path g /\
  rawName g' = rawName g /\ routeMethod g' = routeMethod g /\
  routingPath g' = routingPath g /\ filesFields g' = filesFields g /\
  className (controllerClass g') = className (controllerClass g) /\
  exported (controllerClass g') = exported (controllerClass g) /\
  parentClass (controllerClass g') = parentClass (controllerClass g) /\
  fileName (controllerFile g') = fileName (controllerFile g) /\
  (exists more, imports (controllerFile g') = imports (controllerFile g) ++ more)%list /\
  methodsGrow (methods (controllerClass g)) (methods (controllerClass g')).

(** A method of the generator that, when it returns, has only extended the
    generator object. *)
Definition onlyExtends {A : Type} (m : GenM A) : Prop :=
  forall g a g', m g = Ok (a, g') -> extends g g'.

(** ** Runs of the sample project *)

Module Runs.

(** The generator object after [addCRUDOperations], for the sample schema. *)
Definition crud (m nm rt : string) : ControllerGen :=
  let g0 := fst (@ControllerGen_new Sample.lib (mkConfig m nm rt "v1") Sample.project) in
  match @addCRUDOperations Sample.lib g0 with
  | Ok (_, g') => g'
  | Throw _ => g0
  end.

(** A project directory without any file. *)
Definition emptyProject : World := mkWorld (fun _ => None) [] [].

End Runs.

(** ** What a handler-body method returns and imports *)

(** The generator object with further imports requested. *)
Definition addImports (l : list ImportCall) (g : ControllerGen) : ControllerGen :=
  setControllerFile
    (mkFile (fileName (controllerFile g)) (imports (controllerFile g) ++ l)) g.

(** On every generator object with the base of [g] the method returns [a]
    and requests the imports [l], and does nothing else. *)
Definition emits {A : Type} (m : GenM A) (g : ControllerGen) (a : A) (l : list ImportCall)
  : Prop :=
  forall s, base s = base g -> m s = Ok (a, addImports l s).

Definition requests {A : Type} (m : GenM A) (g : ControllerGen) (l : list ImportCall) : Prop :=
  exists a, emits m g a l.

(** ** The redaction clause, read as a list of statements *)

Section Redactions.

Context {E : Externals}.

(** The names of the relation fields, as [Object.keys] lists them. *)
Definition relationKeys (g : ControllerGen) : list string :=
  match relationsFields g with
  | Some fields => Object_keys fields
  | None => []
  end.

(** The import of the interface of a related model. *)
Definition interfaceImport (path : string) (r : IRelation) : ImportCall :=
  (["I" ++ relModel r],
   genRelativePath path ("src/cmn/models" ++ extPathOf r ++ "/" ++ relModel r)).

(** One [delete] statement for every confidential field of every model that
    a relation field of [M] refers to, on the result item [index]; relation
    fields and confidential fields are visited from the last to the first. *)
Definition relationRemovers (M index : string) (keys : list string) : list string :=
  flat_map (fun k =>
    match relation (getFieldMeta M k) with
    | Some r =>
        map (fun c => "delete (result.items[" ++ index ++ "]." ++ k ++ " as I" ++
                      relModel r ++ ")." ++ c ++ ";")
            (rev (getConfidentialFields (relModel r)))
    | None => []
    end) (rev keys).

(** The interfaces imported for these statements. *)
Definition relationImports (M path : string) (keys : list string) : list ImportCall :=
  flat_map (fun k =>
    match relation (getFieldMeta M k) with
    | Some r => if hasLength (getConfidentialFields (relModel r))
                then [interfaceImport path r] else []
    | None => []
    end) (rev keys).

(** The clause made of the statements: in a row for a single record, in a
    loop over the items for a collection, and nothing without statements. *)
Definition redaction (singleRecord : bool) (removers : list string) : string :=
  match removers with
  | [] => ""
  | _ =>
      if singleRecord then
        nl ++ tab ++ tab ++ Js.join (nl ++ tab ++ tab) removers
      else
        nl ++ tab ++ tab ++ "for (let i = result.items.length; i--;) {" ++ nl ++
        "            " ++ Js.join (nl ++ tab ++ tab ++ tab) removers ++ nl ++
        "        }"
  end.

End Redactions.

(** ** The assembled controller *)

(** The [route] method with the statements [lines]. *)
Definition routeMethodOf (lines : list string) : MethodGen :=
  mkMethod "route" Public false [mkParam "router" "Router"] lines.

(** A handler method as [addResponseMethod] declares it, with the
    statements [body]. *)
Definition handlerMethod (name : string) (body : list string) : MethodGen :=
  mkMethod name Private true
    [mkParam "req" "IExtRequest"; mkParam "res" "Response"; mkParam "next" "NextFunction"]
    body.

(** The generator object [g] with the imports [imps] requested, the
    statements [lines] in its [route] method and the handler methods [hs]
    behind it. *)
Definition assembled (g : ControllerGen) (imps : list ImportCall) (lines : list string)
  (hs : list MethodGen) : ControllerGen :=
  setControllerClass
    (mkClass (className (controllerClass g)) (exported (controllerClass g))
       (parentClass (controllerClass g)) (routeMethodOf lines :: hs))
    (addImports imps g).

Section Assembly.

Context {E : Externals}.

(** The interfaces imported for the owner-verified fields that are
    relations. *)
Definition ownerImports (M path : string) (owner : list string) : list ImportCall :=
  flat_map (fun f =>
    match relation (getFieldMeta M f) with
    | Some r => [interfaceImport path r]
    | None => []
    end) (rev owner).

(** The imports that [addCRUDOperations] requests, in their order: the
    three at its head, then those of the detail, list, create, update, delete
    and upload handlers. *)
Definition crudImports (g : ControllerGen) : list ImportCall :=
  let M := pascalCase (camelCase (pascalCase (model (config g)))) in
  let related := relationImports (model (config g)) (path g) (relationKeys g) in
  let head : list ImportCall :=
    [ (["Err"; "DatabaseError"; "ValidationError"], "@vesta/core");
      ([M; "I" ++ M], genRelativePath (path g) ("src/cmn/models/" ++ model (config g)));
      (["AclAction"], "@vesta/services") ] in
  let detail := (ownerImports (model (config g)) (path g) (ownerVerifiedFields g) ++ related)%list in
  let remove : list ImportCall :=
    match getFieldsByType (pascalCase (model (config g))) FieldType.File with
    | Some _ => [(["LogLevel"], "@vesta/services")]
    | None => []
    end in
  let upload : list ImportCall :=
    match filesFields g with
    | Some _ => [(["FileUploader"], genRelativePath (path g) "src/helpers/FileUploader")]
    | None => []
    end in
  (head ++ detail ++ related ++ related ++ related ++ remove ++ upload)%list.

(** The handlers that [addCRUDOperations] adds, in their order: the name of
    each method and the method of the generator that synthesizes its body. *)
Definition handlerTable (g : ControllerGen) : list (string * GenM string) :=
  let M := pascalCase (camelCase (pascalCase (model (config g)))) in
  let six : list (string * GenM string) :=
    [ ("get" ++ M ++ "Count", getCountCode);
      ("get" ++ M, getQueryCode true);
      ("get" ++ plural M, getQueryCode false);
      ("add" ++ M, getInsertCode);
      ("update" ++ M, getUpdateCode);
      ("remove" ++ M, getDeleteCode) ] in
  let upload : list (string * GenM string) :=
    match filesFields g with
    | Some _ => [("upload", getUploadCode)]
    | None => []
    end in
  (six ++ upload)%list.

End Assembly.

(** ** Texts inside texts *)

(** The text [p] stands somewhere in the text [s]. *)
Definition occursIn (p s : string) : Prop := exists a b, s = a ++ p ++ b.

(** * The command-line entry point, [bin/index.js] *)

Module Cli.

Definition isDigit (c : ascii) : bool :=
  let n := nat_of_ascii c in ((48 <=? n) && (n <=? 57))%nat.

(** A character of the class [[a-z0-9\-_]] under the [i] flag. *)
Definition isNameChar (c : ascii) : bool :=
  Js.isAsciiLetter c || isDigit c || Ascii.eqb c "-" || Ascii.eqb c "_".

(** The longest prefix of [s] whose characters are in the class: what a
    greedy repetition of the class consumes. *)
Fixpoint spanWhile (p : ascii -> bool) (s : string) : string :=
  match s with
  | String c t => if p c then String c (spanWhile p t) else EmptyString
  | EmptyString => EmptyString
  end.

(** [s.match(/^[a-z][a-z0-9\-_]+/i)]: the text matched, or null.  The
    pattern is anchored at the start only. *)
Definition matchName (s : string) : option string :=
  match s with
  | String a t =>
      if Js.isAsciiLetter a then
        match spanWhile isNameChar t with
        | EmptyString => None
        | m => Some (String a m)
        end
      else None
  | EmptyString => None
  end.

(** [s.split("/")]. *)
Fixpoint split (s : string) : list string :=
  match s with
  | EmptyString => [EmptyString]
  | String c t =>
      if Ascii.eqb c "/" then EmptyString :: split t
      else match split t with
           | h :: r => String c h :: r
           | [] => [String c EmptyString]
           end
  end.

(** The generators that [generateCode] starts, with what it hands them. *)
Inductive Generator : Type :=
| NGControllerGen (name : string)
| ExpressControllerGen (name : string)
| ModelGen (args : list string)
| NGDirectiveGen (name : string)
| NGFilterGen (name : string)
| NGServiceGen (name : string)
| NGFormGen (name : string) (writeToFile : bool)
| SassGen (first : option string) (second : string).

Inductive Outcome : Type :=
| ThrowsTypeError
| LogsError (message : string)
| Generates (generator : Generator)
| RequestsProject (name category : string).

Section Commands.

(** [String.prototype.toLowerCase] and lodash's [camelCase]. *)
Variable toLowerCase : string -> string.
Variable camelCase : string -> string.

(** [generateCode(args)]; [clientSide] is the outcome of
    [projectConfig.type == ProjectGen.Type.ClientSide]. *)
Definition generateCode (args : list string) (clientSide : bool) : Outcome :=
  match args with
  | [] => ThrowsTypeError
  | first :: args =>
      let type := toLowerCase first in
      match nth_error args 0 with
      | None => LogsError "Please enter a valid name"
      | Some name =>
          if negb (Js.truthyS name) || match matchName name with None => true | Some _ => false end
          then LogsError "Please enter a valid name"
          else if String.eqb type "controller" then
                 if clientSide then Generates (NGControllerGen name)
                 else Generates (ExpressControllerGen name)
          else if String.eqb type "model" then Generates (ModelGen args)
          else if String.eqb type "directive" then Generates (NGDirectiveGen name)
          else if String.eqb type "filter" then Generates (NGFilterGen name)
          else if String.eqb type "service" then Generates (NGServiceGen name)
          else if String.eqb type "form" then Generates (NGFormGen name true)
          else if String.eqb type "sass" then Generates (SassGen (nth_error args 1) name)
          else LogsError ("Invalid generator option " ++ type)
      end
  end.

(** [createProject()], for the text [create] that [program['create']]
    holds. *)
Definition createProject (create : string) : Outcome :=
  let parts := split create in
  let projectCategory := nth 0 parts EmptyString in
  let projectName := nth_error parts 1 in
  let (projectName, projectCategory) :=
    match projectName with
    | Some n => if Js.truthyS n then (n, projectCategory) else (projectCategory, EmptyString)
    | None => (projectCategory, EmptyString)
    end in
  match matchName projectName with
  | None => LogsError "projectName may only contains [letters, numbers, dash, underscore]"
  | Some _ => RequestsProject (camelCase projectName) projectCategory
  end.

End Commands.

End Cli.


(** * Handler texts as templates *)

(** A template literal of the generator is fixed text with names put in.
    This view of a handler text allows to decide that a text does not occur
    in it, whatever the names are, as long as they are identifiers. *)
Module Template.

Inductive Piece : Type :=
| Lit (text : string)
| Name (name : string).

Definition pieceText (p : Piece) : string :=
  match p with
  | Lit s => s
  | Name s => s
  end.

Fixpoint render (ps : list Piece) : string :=
  match ps with
  | [] => EmptyString
  | p :: rest => pieceText p ++ render rest
  end.

(** A character of an identifier: a letter, a digit, [_] or [$]. *)
Definition isIdentifierChar (c : ascii) : bool :=
  let n := nat_of_ascii c in
  Js.isAsciiLetter c || ((48 <=? n) && (n <=? 57))%nat || Ascii.eqb c "_" || Ascii.eqb c "$".

Fixpoint isIdentifier (s : string) : bool :=
  match s with
  | EmptyString => true
  | String c t => isIdentifierChar c && isIdentifier t
  end.

(** Every name put into the template is an identifier. *)
Definition plainNames (ps : list Piece) : Prop :=
  Forall (fun p => match p with Name s => isIdentifier s = true | Lit _ => True end) ps.

Section Matcher.

(** The text looked for. *)
Variable pat : string.

(** While a text is read from left to right, a state [k] says that the last
    [k] characters read are the first [k] characters of [pat]; the state
    [length pat], once reached, stays. *)
Definition advance (c : ascii) (states : list nat) : list nat :=
  nodup Nat.eq_dec
    (0 :: (if existsb (Nat.eqb (String.length pat)) states then [String.length pat] else []) ++
     map S (filter (fun k => match String.get k pat with
                             | Some d => Ascii.eqb d c
                             | None => false
                             end) states)).

Fixpoint advanceText (s : string) (states : list nat) : list nat :=
  match s with
  | EmptyString => states
  | String c t => advanceText t (advance c states)
  end.

(** The number of identifier characters in front of [s]. *)
Fixpoint identRun (s : string) : nat :=
  match s with
  | String c t => if isIdentifierChar c then S (identRun t) else 0
  | EmptyString => 0
  end.

(** The states possible after a name, which is any run of identifier
    characters: from a state [j], every state up to the end of the
    identifier characters that follow position [j] in [pat]. *)
Definition skipName (states : list nat) : list nat :=
  nodup Nat.eq_dec
    (flat_map (fun j => seq j (S (identRun (Js.drop j pat)))) states).

Fixpoint run (ps : list Piece) (states : list nat) : list nat :=
  match ps with
  | [] => states
  | Lit s :: rest => run rest (advanceText s states)
  | Name _ :: rest => run rest (skipName states)
  end.

Definition reached (states : list nat) : bool :=
  existsb (Nat.eqb (String.length pat)) states.

Definition within (small large : list nat) : bool :=
  forallb (fun k => existsb (Nat.eqb k) large) small.

(** The states in which [pat] has not been read entirely. *)
Definition partial : list nat := seq 0 (String.length pat).

(** What a set of states has to hold once the text [w] has been read: every
    length at which [w] ends with the beginning of [pat], and the last state
    if [pat] stands in [w]. *)
Definition covers (states : list nat) (w : string) : Prop :=
  (forall (k : nat) (a : string),
      k <= String.length pat -> w = a ++ Js.take k pat -> In k states) /\
  (occursIn pat w -> In (String.length pat) states).

End Matcher.

End Template.

(** ** The upload handler as a template *)

Section UploadTemplate.

Context {E : Externals}.

(** The block of the upload handler for the File-typed field [f], when
    there are several. *)
Definition uploadBlock (inst f : string) : list Template.Piece :=
  [ Template.Lit (nl ++ "        if (upl."); Template.Name f;
    Template.Lit (") {" ++ nl ++ "            const old"); Template.Name (pascalCase f);
    Template.Lit " = "; Template.Name inst; Template.Lit "."; Template.Name f;
    Template.Lit (";" ++ nl ++
                  "            delList.push(FileUploader.checkAndDeleteFile(`${destDirectory}/${old");
    Template.Name (pascalCase f);
    Template.Lit ("}`)" ++ nl ++ "                .then(() => ");
    Template.Name inst; Template.Lit "."; Template.Name f;
    Template.Lit " = upl."; Template.Name f;
    Template.Lit (" as string));" ++ nl ++ "        }") ].

Definition uploadHead (M inst : string) : list Template.Piece :=
  [ Template.Lit ("const id = this.retrieveId(req);" ++ nl ++
                  "        const destDirectory = join(this.config.dir.upload, " ++ dq);
    Template.Name inst;
    Template.Lit (dq ++ ");" ++ nl ++ "        const result = await ");
    Template.Name M; Template.Lit ".find<I"; Template.Name M;
    Template.Lit (">(id);" ++ nl ++
                  "        if (result.items.length !== 1) {" ++ nl ++
                  "            throw new Err(Err.Code.DBRecordCount, " ++ dq);
    Template.Name M;
    Template.Lit (" not found" ++ dq ++ ");" ++ nl ++
                  "        }" ++ nl ++
                  "        const ");
    Template.Name inst; Template.Lit " = new "; Template.Name M;
    Template.Lit ("(result.items[0]);" ++ nl ++ "        const uploader = new FileUploader<I");
    Template.Name M;
    Template.Lit (">(true);" ++ nl ++
                  "        await uploader.parse(req);" ++ nl ++
                  "        const upl = await uploader.upload(destDirectory);" ++ nl ++
                  "        ") ].

Definition uploadFiles (inst : string) (fileNames : list string) : list Template.Piece :=
  match fileNames with
  | [f] =>
      [ Template.Lit "const oldFileName = "; Template.Name inst; Template.Lit "."; Template.Name f;
        Template.Lit (";" ++ nl ++ "        "); Template.Name inst; Template.Lit "."; Template.Name f;
        Template.Lit " = upl."; Template.Name f;
        Template.Lit (";" ++ nl ++
                      "        if (oldFileName) {" ++ nl ++
                      "            await FileUploader.checkAndDeleteFile(`${destDirectory}/${oldFileName}`);" ++ nl ++
                      "        }") ]
  | _ =>
      (Template.Lit "const delList: Array<Promise<string>> = [];" ::
       flat_map (uploadBlock inst) fileNames ++
       [ Template.Lit (nl ++ "        await Promise.all(delList);") ])%list
  end.

Definition uploadTail (inst : string) : list Template.Piece :=
  [ Template.Lit (nl ++ "        const uResult = await "); Template.Name inst;
    Template.Lit (".update();" ++ nl ++ "        res.json(uResult);") ].

(** The template of [getUploadCode] for the model class [M], its instance
    variable [inst] and the names of the File-typed fields. *)
Definition uploadPieces (M inst : string) (fileNames : list string) : list Template.Piece :=
  (uploadHead M inst ++ uploadFiles inst fileNames ++ uploadTail inst)%list.

End UploadTemplate.

(** The texts of which the security clauses of the other handlers are made:
    the binding of the authenticated user and the test for an administrator
    ([getAuthUserCode]), the use of that test and the comparison with the
    user's id in the guards, and the two forms of a redaction statement
    ([getConfFieldRemovingCode]). *)
Definition securityClauses : list string :=
  [ "this.getUserFromSession(";
    "this.isAdmin(";
    "!isAdmin";
    "!== authUser.id";
    "delete result.items[";
    "delete (result.items[" ].
(** * Properties *)

(** ** Strings *)

Module StrFacts.

Lemma app_assoc (a b c : string) : (a ++ b) ++ c = a ++ b ++ c.
Proof. induction a as [|x a IH]; simpl; [reflexivity | now rewrite IH]. Qed.

Lemma app_nil_r (a : string) : a ++ "" = a.
Proof. induction a as [|x a IH]; simpl; [reflexivity | now rewrite IH]. Qed.

Lemma length_app (a b : string) :
  String.length (a ++ b) = String.length a + String.length b.
Proof. induction a as [|x a IH]; simpl; [reflexivity | now rewrite IH]. Qed.

Lemma take_app (a b : string) : Js.take (String.length a) (a ++ b) = a.
Proof. induction a as [|x a IH]; simpl; [now destruct b | now rewrite IH]. Qed.

Lemma drop_app (a b : string) : Js.drop (String.length a) (a ++ b) = b.
Proof. induction a as [|x a IH]; simpl; [now destruct b | exact IH]. Qed.

Lemma take_drop (n : nat) (s : string) : Js.take n s ++ Js.drop n s = s.
Proof.
  revert s; induction n as [|n IH]; intros [|c s]; simpl; try reflexivity.
  now rewrite IH.
Qed.

Lemma startsWith_app (p s : string) : Js.startsWith p (p ++ s) = true.
Proof.
  induction p as [|x p IH]; simpl; [reflexivity|].
  now rewrite Ascii.eqb_refl, IH.
Qed.

Lemma startsWith_split (p s : string) :
  Js.startsWith p s = true -> s = p ++ Js.drop (String.length p) s.
Proof.
  revert s; induction p as [|x p IH]; intros s H; simpl in *.
  - now destruct s.
  - destruct s as [|y s]; [discriminate|].
    apply andb_true_iff in H as [Hxy Hp].
    apply Ascii.eqb_eq in Hxy; subst y. simpl.
    f_equal. now apply IH.
Qed.

Lemma startsWith_iff (p s : string) :
  Js.startsWith p s = true <-> exists r, s = p ++ r.
Proof.
  split.
  - intros H; eexists; now apply startsWith_split.
  - intros [r ->]; apply startsWith_app.
Qed.

(** The first occurrence cuts the text into what precedes it, the pattern
    and what follows. *)
Lemma find_Some (p s : string) (i : nat) :
  Js.find p s = Some i ->
  s = Js.take i s ++ p ++ Js.drop (i + String.length p) s /\
  String.length (Js.take i s) = i.
Proof.
  revert i; induction s as [|c s IH]; intros i H.
  - simpl in H. destruct p; simpl in H; [|discriminate].
    injection H as <-. now split.
  - cbn [Js.find] in H.
    destruct (Js.startsWith p (String c s)) eqn:Hp.
    + injection H as <-. split; [|reflexivity].
      cbn [Js.take]. simpl. now apply startsWith_split.
    + destruct (Js.find p s) as [j|] eqn:Hj; [|discriminate].
      injection H as <-. destruct (IH j eq_refl) as [Hs Hl].
      split; simpl; [|now rewrite Hl].
      f_equal. exact Hs.
Qed.

(** Any occurrence makes [find] succeed, at that position or earlier. *)
Lemma find_occurs (p b a : string) :
  exists i, Js.find p (b ++ p ++ a) = Some i /\ i <= String.length b.
Proof.
  induction b as [|c b IH].
  - simpl. exists 0. split; [|lia].
    destruct (p ++ a) eqn:Hpa; cbn [Js.find].
    + destruct p; [reflexivity | discriminate].
    + rewrite <- Hpa, startsWith_app. reflexivity.
  - cbn [String.append Js.find].
    destruct (Js.startsWith p (String c (b ++ p ++ a))).
    + exists 0. split; [reflexivity | lia].
    + destruct IH as [i [Hi Hle]]. rewrite Hi. exists (S i).
      split; [reflexivity | simpl; lia].
Qed.

Lemma find_None (p s : string) :
  Js.find p s = None -> forall b a, s <> b ++ p ++ a.
Proof.
  intros H b a ->. destruct (find_occurs p b a) as [i [Hi _]]. congruence.
Qed.

(** No occurrence starts before the position that [find] returns. *)
Lemma find_first (p s : string) (i : nat) :
  Js.find p s = Some i ->
  forall b a, s = b ++ p ++ a -> i <= String.length b.
Proof.
  intros H b a ->. destruct (find_occurs p b a) as [j [Hj Hle]].
  rewrite H in Hj. injection Hj as ->. exact Hle.
Qed.

Lemma noChar_app (c : ascii) (a b : string) :
  Js.noChar c (a ++ b) = Js.noChar c a && Js.noChar c b.
Proof.
  induction a as [|x a IH]; simpl; [reflexivity|].
  now rewrite IH, andb_assoc.
Qed.

(** A replacement text without [$] is inserted as it is. *)
Lemma expand_plain (rep b m a : string) :
  Js.noChar "$" rep = true -> Js.expand rep b m a = rep.
Proof.
  induction rep as [|c rep IH]; intros H; [reflexivity|].
  cbn [Js.noChar] in H. apply andb_true_iff in H as [Hc Hrep].
  apply negb_true_iff in Hc. rewrite Ascii.eqb_sym in Hc.
  cbn [Js.expand]. rewrite Hc. now rewrite IH.
Qed.

Lemma replace_absent (s p r : string) :
  Js.find p s = None -> Js.replace s p r = s.
Proof. unfold Js.replace; now intros ->. Qed.

(** With a plain replacement text that ends in the pattern itself, [replace]
    inserts the rest of the replacement in front of the first occurrence. *)
Lemma replace_inserts (s p ins : string) (i : nat) :
  Js.noChar "$" (ins ++ p) = true ->
  Js.find p s = Some i ->
  Js.replace s p (ins ++ p) = Js.take i s ++ ins ++ Js.drop i s.
Proof.
  intros Hplain Hi. unfold Js.replace. rewrite Hi.
  rewrite expand_plain by exact Hplain.
  destruct (find_Some _ _ _ Hi) as [Hs Hl].
  rewrite app_assoc. f_equal. f_equal.
  rewrite <- (take_drop i s) in Hs at 1.
  assert (forall x y z : string, x ++ y = x ++ z -> y = z) as cancel.
  { induction x; simpl; intros y z E; [exact E | injection E; auto]. }
  apply cancel in Hs. symmetry. exact Hs.
Qed.

End StrFacts.

(** ** The monad *)

(** ** Confidentiality redaction (C1) *)

Section Redaction.

Context {E : Externals}.

Lemma forDown_nil {A : Type} (n : nat) (body : nat -> list A) :
  (forall i, body i = []) -> Js.forDown n body = [].
Proof.
  intros H; induction n as [|n IH]; simpl; [reflexivity|].
  now rewrite H, IH.
Qed.

(** The loop over the model's own confidential fields is guarded by
    [!this.confidentialFields.length]: it pushes nothing, whatever the
    fields are. *)
Lemma own_removers_empty (conf : list string) (index : string) :
  (if negb (hasLength conf)
   then Js.forDown (List.length conf) (fun i =>
          ["delete result.items[" ++ index ++ "]." ++ Js.at_ conf i ++ ";"])
   else []) = [].
Proof. destruct conf; reflexivity. Qed.

(** ** Methods that cannot see the confidential fields *)

Lemma sameButConfidential_fields (g1 g2 : ControllerGen) :
  sameButConfidential g1 g2 ->
  config g1 = config g2 /\ ownerVerifiedFields g1 = ownerVerifiedFields g2 /\
  relationsFields g1 = relationsFields g2 /\ path g1 = path g2 /\
  filesFields g1 = filesFields g2.
Proof.
  intros H. repeat split.
  - exact (f_equal config H).
  - exact (f_equal ownerVerifiedFields H).
  - exact (f_equal relationsFields H).
  - exact (f_equal path H).
  - exact (f_equal filesFields H).
Qed.

Lemma blind_ret {A : Type} (a : A) : blindToConfidential (ret a) (ret a).
Proof. intros g1 g2 H. now split. Qed.

Lemma blind_throw {A : Type} (e : JsError) : blindToConfidential (@throw A e) (throw e).
Proof. intros g1 g2 H. reflexivity. Qed.

Lemma blind_addImport (names : list string) (from : string) :
  blindToConfidential (addImport names from) (addImport names from).
Proof.
  intros g1 g2 H. split; [reflexivity|].
  unfold sameButConfidential, withoutConfidential in *.
  cbn [setControllerFile relationsFields ownerVerifiedFields controllerFile].
  apply (f_equal (fun g => setControllerFile
                             (TsFileGen_addImport names from (controllerFile g)) g)) in H.
  exact H.
Qed.

Lemma blind_bind {A B : Type} (m1 m2 : GenM A) (k1 k2 : A -> GenM B) :
  blindToConfidential m1 m2 ->
  (forall a, blindToConfidential (k1 a) (k2 a)) ->
  blindToConfidential (bind m1 k1) (bind m2 k2).
Proof.
  intros Hm Hk g1 g2 H. unfold bind. specialize (Hm g1 g2 H).
  destruct (m1 g1) as [[a1 t1]|e1], (m2 g2) as [[a2 t2]|e2]; cbn in Hm; try contradiction.
  - destruct Hm as [<- Ht]. now apply Hk.
  - exact Hm.
Qed.

Lemma blind_this {A : Type} (k1 k2 : ControllerGen -> GenM A) :
  (forall g1 g2, sameButConfidential g1 g2 -> blindToConfidential (k1 g1) (k2 g2)) ->
  blindToConfidential (bind this k1) (bind this k2).
Proof. intros Hk g1 g2 H. unfold bind, this. now apply Hk. Qed.

Lemma blind_forDownM {A : Type} (n : nat) (b1 b2 : nat -> GenM (list A)) :
  (forall i, blindToConfidential (b1 i) (b2 i)) ->
  blindToConfidential (forDownM n b1) (forDownM n b2).
Proof.
  intros Hb. induction n as [|n IH]; [apply blind_ret|].
  cbn [forDownM]. apply blind_bind; [apply Hb|]. intros xs.
  apply blind_bind; [exact IH|]. intros ys. apply blind_ret.
Qed.

Lemma blind_code {A : Type} (r1 r2 : Result (A * ControllerGen)) :
  endAlike r1 r2 -> codeOf r1 = codeOf r2.
Proof.
  destruct r1 as [[a1 t1]|e1], r2 as [[a2 t2]|e2]; cbn; try contradiction.
  - now intros [-> _].
  - now intros ->.
Qed.

Lemma blind_getAuthUserCode : blindToConfidential getAuthUserCode getAuthUserCode.
Proof.
  apply blind_this. intros g1 g2 H.
  destruct (sameButConfidential_fields g1 g2 H) as [_ [-> _]]. apply blind_ret.
Qed.

(** The redaction clause does not depend on the model's own confidential
    fields. *)
Lemma blind_getConfFieldRemovingCode (singleRecord : bool) :
  blindToConfidential (getConfFieldRemovingCode singleRecord)
    (getConfFieldRemovingCode singleRecord).
Proof.
  apply blind_this. intros g1 g2 H. cbv zeta.
  rewrite !own_removers_empty.
  destruct (sameButConfidential_fields g1 g2 H) as [-> [_ [-> [-> _]]]].
  apply blind_bind; [|intros rel; apply blind_ret].
  destruct (relationsFields g2) as [fields|]; [|apply blind_ret].
  apply blind_forDownM. intros i.
  destruct (relation (getFieldMeta (model (config g2)) (Js.at_ (Object_keys fields) i)));
    [|apply blind_throw].
  destruct (hasLength (getConfidentialFields (relModel i0))); [|apply blind_ret].
  apply blind_bind; [apply blind_addImport | intros _; apply blind_ret].
Qed.

Lemma blind_getQueryCodeForSingleInstance :
  blindToConfidential getQueryCodeForSingleInstance getQueryCodeForSingleInstance.
Proof.
  apply blind_this. intros g1 g2 H. cbv zeta.
  destruct (sameButConfidential_fields g1 g2 H) as [-> [-> [-> [-> _]]]].
  apply blind_bind.
  - apply blind_forDownM. intros i.
    destruct (relation (getFieldMeta (model (config g2)) (Js.at_ (ownerVerifiedFields g2) i)));
      [|apply blind_ret].
    apply blind_bind; [apply blind_addImport | intros _; apply blind_ret].
  - intros checks. apply blind_bind; [apply blind_getAuthUserCode|]. intros auth.
    apply blind_bind; [apply blind_getConfFieldRemovingCode|]. intros conf.
    apply blind_ret.
Qed.

Lemma blind_getQueryCodeForMultiInstance :
  blindToConfidential getQueryCodeForMultiInstance getQueryCodeForMultiInstance.
Proof.
  apply blind_this. intros g1 g2 H. cbv zeta.
  destruct (sameButConfidential_fields g1 g2 H) as [-> [-> _]].
  apply blind_bind; [apply blind_getAuthUserCode|]. intros auth.
  apply blind_bind; [apply blind_getConfFieldRemovingCode|]. intros conf.
  apply blind_ret.
Qed.

Lemma blind_getInsertCode : blindToConfidential getInsertCode getInsertCode.
Proof.
  apply blind_this. intros g1 g2 H. cbv zeta.
  destruct (sameButConfidential_fields g1 g2 H) as [-> [-> _]].
  apply blind_bind; [apply blind_getAuthUserCode|]. intros auth.
  apply blind_bind; [apply blind_getConfFieldRemovingCode|]. intros conf.
  apply blind_ret.
Qed.

Lemma blind_getUpdateCode : blindToConfidential getUpdateCode getUpdateCode.
Proof.
  apply blind_this. intros g1 g2 H. cbv zeta.
  destruct (sameButConfidential_fields g1 g2 H) as [-> [-> _]].
  apply blind_bind; [apply blind_getAuthUserCode|]. intros auth.
  apply blind_bind; [apply blind_getConfFieldRemovingCode|]. intros conf.
  apply blind_ret.
Qed.

(** C1 (the code departs from it): whatever confidential fields a model
    lists, the redaction clause and the four response-producing handlers
    (detail read, list read, create, update) synthesized for it are the ones
    synthesized for the same model with no confidential field at all; and
    without relation fields the redaction clause is empty. So no handler
    deletes the model's own confidential fields, neither from item 0 nor
    from the items of a collection. *)
Theorem C1_own_confidential_fields_are_never_deleted :
  forall (g : ControllerGen) (rel : option IModelFields) (owner conf : list string),
    (forall singleRecord : bool,
        codeOf (getConfFieldRemovingCode singleRecord (setSecurity rel owner conf g))
        = codeOf (getConfFieldRemovingCode singleRecord (setSecurity rel owner [] g))) /\
    codeOf (getQueryCodeForSingleInstance (setSecurity rel owner conf g))
    = codeOf (getQueryCodeForSingleInstance (setSecurity rel owner [] g)) /\
    codeOf (getQueryCodeForMultiInstance (setSecurity rel owner conf g))
    = codeOf (getQueryCodeForMultiInstance (setSecurity rel owner [] g)) /\
    codeOf (getInsertCode (setSecurity rel owner conf g))
    = codeOf (getInsertCode (setSecurity rel owner [] g)) /\
    codeOf (getUpdateCode (setSecurity rel owner conf g))
    = codeOf (getUpdateCode (setSecurity rel owner [] g)) /\
    (forall singleRecord : bool,
        getConfFieldRemovingCode singleRecord (setSecurity None owner conf g)
        = Ok ("", setSecurity None owner conf g)).
Proof.
  intros g rel owner conf.
  assert (Hsame : sameButConfidential (setSecurity rel owner conf g)
                    (setSecurity rel owner [] g)) by reflexivity.
  repeat split.
  - intros singleRecord.
    apply blind_code, (blind_getConfFieldRemovingCode singleRecord _ _ Hsame).
  - apply blind_code, (blind_getQueryCodeForSingleInstance _ _ Hsame).
  - apply blind_code, (blind_getQueryCodeForMultiInstance _ _ Hsame).
  - apply blind_code, (blind_getInsertCode _ _ Hsame).
  - apply blind_code, (blind_getUpdateCode _ _ Hsame).
  - intros singleRecord.
    unfold getConfFieldRemovingCode. unfold_gen.
    cbn [relationsFields confidentialFields setSecurity].
    rewrite own_removers_empty. reflexivity.
Qed.

End Redaction.

(** The four response-producing handlers synthesized for [Account], whose
    [password] is confidential: none of them contains a [delete]. *)
Example account_handlers_keep_password :
  confidentialFields (Sample.ready "Account" "account" "/") = ["password"] /\
  Js.find "delete" (Sample.textOf (@getQueryCodeForSingleInstance Sample.lib (Sample.ready "Account" "account" "/"))) = None /\
  Js.find "delete" (Sample.textOf (@getQueryCodeForMultiInstance Sample.lib (Sample.ready "Account" "account" "/"))) = None /\
  Js.find "delete" (Sample.textOf (@getInsertCode Sample.lib (Sample.ready "Account" "account" "/"))) = None /\
  Js.find "delete" (Sample.textOf (@getUpdateCode Sample.lib (Sample.ready "Account" "account" "/"))) = None /\
  Js.find "<throws>" (Sample.textOf (@getUpdateCode Sample.lib (Sample.ready "Account" "account" "/"))) = None.
Proof. vm_compute. repeat split. Qed.

(** The same clause does delete the confidential fields of a related model,
    which shows what was meant for the model's own fields. *)
Example post_detail_redacts_related_user :
  codeOf (@getConfFieldRemovingCode Sample.lib true (Sample.ready "Post" "post" "/"))
  = Ok (nl ++ tab ++ tab ++ "delete (result.items[0].author as IUser).password;").
Proof. vm_compute. reflexivity. Qed.

(** ** Command-line validation (C7, C8) *)

Section Validation.

Context {E : Externals}.

(** C7, amended: the name is matched against [^[a-z]+$] without regard to
    case (the pattern carries the [i] flag); a missing name, or a name with
    any character that is not an ASCII letter, aborts with the user-facing
    error, and the files and directories are left as they were. *)
Theorem C7_invalid_name_aborts :
  forall (argParser : ArgParser) (w : World),
    match argName argParser with
    | Some nm => Js.matchesNameRegexI nm = false
    | None => True
    end ->
    init argParser w = (Log_error nameError w, Aborted) /\
    files (fst (init argParser w)) = files w /\
    dirs (fst (init argParser w)) = dirs w /\
    errors (fst (init argParser w)) = (errors w ++ [nameError])%list.
Proof.
  intros argParser w H.
  assert (init argParser w = (Log_error nameError w, Aborted)) as Hinit.
  { unfold init. destruct (argName argParser) as [nm|]; [|reflexivity].
    rewrite H. now rewrite orb_true_r. }
  rewrite Hinit. repeat split.
Qed.

(** C8: with a valid name and no [--model] flag the parsed model is [null],
    and [init] throws a TypeError at [config.model.toString()] before any
    generator is constructed: nothing is created, written or logged, and no
    controller comes out, although the help text shows that very usage. *)
Theorem C8_missing_model_flag_throws :
  forall (argParser : ArgParser) (w : World) (nm : string),
    argName argParser = Some nm ->
    Js.matchesNameRegexI nm = true ->
    argModel argParser = None ->
    init argParser w = (w, Threw (TypeError "Cannot read property 'toString' of null")) /\
    (forall g, snd (init argParser w) <> Generated g) /\
    Js.find "vesta gen controller simple" helpText <> None.
Proof.
  intros argParser w nm Hname Hok Hmodel.
  assert (init argParser w = (w, Threw (TypeError "Cannot read property 'toString' of null"))) as Hinit.
  { unfold init. rewrite Hname, Hmodel, Hok. simpl.
    destruct nm; [discriminate | reflexivity]. }
  rewrite Hinit. repeat split; [intros g; discriminate | vm_compute; discriminate].
Qed.

(** Without a model no invocation ends with a generated controller. *)
Lemma no_model_no_controller (argParser : ArgParser) (w : World) :
  argModel argParser = None -> forall g, snd (init argParser w) <> Generated g.
Proof.
  intros Hmodel g. unfold init. rewrite Hmodel. simpl.
  destruct (argName argParser) as [nm|]; [|discriminate].
  destruct (negb (Js.truthyS nm) || negb (Js.matchesNameRegexI nm)); discriminate.
Qed.

End Validation.

(** The names accepted under the case-sensitive reading are accepted. *)
Lemma lower_names_are_accepted (s : string) :
  Js.matchesNameRegex s = true -> Js.matchesNameRegexI s = true.
Proof.
  unfold Js.matchesNameRegex, Js.matchesNameRegexI.
  intros H. apply andb_true_iff in H as [Hne Hlow]. rewrite Hne. simpl.
  clear Hne. induction s as [|c s IH]; [reflexivity|].
  simpl in *. apply andb_true_iff in Hlow as [Hc Hs].
  rewrite (IH Hs), andb_true_r.
  unfold Js.isAsciiLetter. unfold Js.isLowerLetter in Hc. rewrite Hc. apply orb_true_r.
Qed.

(** C7 as stated fails: [Profile] does not match [^[a-z]+$], yet generation
    goes through and writes the controller file. *)
Lemma C7_uppercase_name_is_accepted :
  Js.matchesNameRegex "Profile" = false /\
  (exists g, snd (Sample.run "Profile" "Plain" "account" Sample.project) = Generated g) /\
  files (fst (Sample.run "Profile" "Plain" "account" Sample.project))
    "src/api/v1/controller/account/ProfileController.ts" <> None /\
  errors (fst (Sample.run "Profile" "Plain" "account" Sample.project)) = [].
Proof.
  split; [reflexivity|]. split; [|split].
  - vm_compute. eexists. reflexivity.
  - vm_compute. discriminate.
  - vm_compute. reflexivity.
Qed.

Lemma C7_invalid_name_aborts_witness :
  @init Sample.lib (Sample.commandLine (Some "profile2") (Some (AStr "User")) None) Sample.project
  = (Log_error nameError Sample.project, Aborted) /\
  files (fst (@init Sample.lib (Sample.commandLine (Some "profile2") (Some (AStr "User")) None) Sample.project))
  = files Sample.project.
Proof.
  destruct (@C7_invalid_name_aborts Sample.lib
              (Sample.commandLine (Some "profile2") (Some (AStr "User")) None)
              Sample.project eq_refl) as [H1 [H2 _]].
  split; [exact H1 | exact H2].
Defined.

Lemma C8_missing_model_flag_throws_witness :
  @init Sample.lib (Sample.commandLine (Some "simple") None None) Sample.project
  = (Sample.project, Threw (TypeError "Cannot read property 'toString' of null")).
Proof.
  exact (proj1 (@C8_missing_model_flag_throws Sample.lib
                  (Sample.commandLine (Some "simple") None None) Sample.project
                  "simple" eq_refl eq_refl eq_refl)).
Defined.

(** ** The upload handler of a model with a security profile *)

(** The upload handler of [Post], whose [author] is owner-verified and whose
    related [User] has a confidential field: neither shows in the text. *)
Example post_upload_has_no_security_clause :
  Js.find "authUser" (Sample.textOf (@getUploadCode Sample.lib (Sample.ready "Post" "post" "/"))) = None /\
  Js.find "isAdmin" (Sample.textOf (@getUploadCode Sample.lib (Sample.ready "Post" "post" "/"))) = None /\
  Js.find "delete " (Sample.textOf (@getUploadCode Sample.lib (Sample.ready "Post" "post" "/"))) = None.
Proof. vm_compute. repeat split. Qed.

(** ** The registration patcher: when it runs (C10) *)

Section PatchGate.

Context {E : Externals}.

Lemma search_values (code pat : string) :
  (Js.search code pat = -1)%Z \/ (0 <= Js.search code pat)%Z.
Proof.
  unfold Js.search, Js.indexOf. destruct (Js.find pat code); [right; lia | now left].
Qed.

(** C10, amended: the registry is patched exactly when
    [code.search(Placeholder.ExpressController)] is not zero.  With the marker
    at index 0 nothing happens, not even the look for the import.  With the
    marker absent the branch still runs: an import that is already there ends
    it, and otherwise the file is rewritten; the text written is the old text
    when the import marker is absent too. *)
Theorem C10_patch_gate :
  forall (g : ControllerGen) (code : string),
    (Js.search code Placeholder_ExpressController = 0%Z <->
     registryPatch g code = PatchSkipped) /\
    (Js.search code Placeholder_ExpressController = (-1)%Z ->
       (0 <= Js.indexOf code (importCodeOf g))%Z ->
       registryPatch g code = PatchAlreadyImported) /\
    (Js.search code Placeholder_ExpressController = (-1)%Z ->
       (Js.indexOf code (importCodeOf g) < 0)%Z ->
       registryPatch g code =
       PatchWritten (Js.replace
                       (Js.replace code Placeholder_Import
                          (importCodeOf g ++ nl ++ Placeholder_Import))
                       Placeholder_ExpressController
                       (embedCodeOf g ++ nl ++ tab ++ tab ++ Placeholder_ExpressController))) /\
    (Js.search code Placeholder_ExpressController = (-1)%Z ->
       (Js.indexOf code (importCodeOf g) < 0)%Z ->
       Js.find Placeholder_Import code = None ->
       registryPatch g code = PatchWritten code).
Proof.
  intros g code. unfold registryPatch.
  split; [|split; [|split]].
  - unfold Js.truthyZ. split.
    + intros ->. reflexivity.
    + destruct (Js.search code Placeholder_ExpressController =? 0)%Z eqn:Hz.
      * intros _. now apply Z.eqb_eq.
      * simpl. destruct (0 <=? Js.indexOf code (importCodeOf g))%Z; discriminate.
  - intros -> Himp. simpl.
    apply Z.leb_le in Himp. now rewrite Himp.
  - intros -> Himp. simpl.
    apply Z.leb_gt in Himp. now rewrite Himp.
  - intros Hs Himp Hmark. rewrite Hs. simpl.
    apply Z.leb_gt in Himp. rewrite Himp.
    rewrite (StrFacts.replace_absent code Placeholder_Import) by exact Hmark.
    rewrite StrFacts.replace_absent; [reflexivity|].
    unfold Js.search, Js.indexOf in Hs.
    destruct (Js.find Placeholder_ExpressController code); [lia | reflexivity].
Qed.

(** [generate] writes the registry file exactly when the patch produced a
    text. *)
Lemma generate_registry (g g' : ControllerGen) (w : World) (code : string) :
  (if Js.truthyS (model (config g)) then addCRUDOperations g else Ok (tt, g)) = Ok (tt, g') ->
  readFileSync (registryFile g')
    (writeFile (pathJoin [path g'; className (controllerClass g') ++ ".ts"])
       (renderFile (controllerFile g') (controllerClass g')) w) = Some code ->
  files (fst (generate g w)) (registryFile g') =
  match registryPatch g' code with
  | PatchWritten code' => Some code'
  | _ => Some code
  end.
Proof.
  intros Hcrud Hread. unfold generate. rewrite Hcrud, Hread.
  destruct (registryPatch g' code); simpl; try exact Hread.
  now rewrite String.eqb_refl.
Qed.

End PatchGate.

(** C10 as stated fails: a registry with the import marker and without the
    controller marker is rewritten with the import statement added. *)
Lemma C10_import_marker_alone_changes_registry :
  let g := Sample.ready "Plain" "profile" "account" in
  let code := "///<vesta:import/>" ++ nl in
  Js.search code (@Placeholder_ExpressController Sample.lib) = (-1)%Z /\
  @registryPatch Sample.lib g code =
    PatchWritten ("import {ProfileController} from " ++ dq ++ "./controller/account/ProfileController" ++ dq ++ ";" ++ nl ++
                  "///<vesta:import/>" ++ nl) /\
  @registryPatch Sample.lib g code <> PatchWritten code.
Proof.
  split; [reflexivity|]. split; [vm_compute; reflexivity | vm_compute; discriminate].
Qed.

(** The three cases of the gate, run: marker at index 0, marker absent with
    and without the import marker. *)
Example patch_gate_runs :
  let g := Sample.ready "Plain" "profile" "account" in
  @registryPatch Sample.lib g ("///<vesta:expressController/>" ++ nl ++ "///<vesta:import/>") = PatchSkipped /\
  @registryPatch Sample.lib g ("export {};" ++ nl) = PatchWritten ("export {};" ++ nl) /\
  (exists code, @registryPatch Sample.lib g Sample.registry = PatchWritten code /\ code <> Sample.registry).
Proof.
  split; [vm_compute; reflexivity|]. split; [vm_compute; reflexivity|].
  eexists. split; [vm_compute; reflexivity | vm_compute; discriminate].
Qed.

(** ** Loops over arrays *)

Lemma forDown_ext {A : Type} (n : nat) (f g : nat -> list A) :
  (forall i, i < n -> f i = g i) -> Js.forDown n f = Js.forDown n g.
Proof.
  induction n as [|n IH]; intros H; simpl; [reflexivity|].
  rewrite H by lia. rewrite IH; [reflexivity|]. intros i Hi. apply H. lia.
Qed.

(** Counting down over the indices of an array visits its elements from the
    last to the first. *)
Lemma forDown_at {A : Type} (l : list string) (f : string -> A) :
  Js.forDown (List.length l) (fun i => [f (Js.at_ l i)]) = map f (rev l).
Proof.
  induction l as [|x l IH] using rev_ind; [reflexivity|].
  rewrite length_app, Nat.add_comm. cbn [List.length Nat.add Js.forDown].
  rewrite rev_app_distr. cbn [rev List.app map].
  unfold Js.at_ at 1. rewrite nth_middle. cbn [List.app]. f_equal.
  rewrite <- IH. apply forDown_ext. intros i Hi.
  unfold Js.at_. now rewrite app_nth1.
Qed.

Lemma forDown_const {A : Type} (n : nat) (x : A) :
  Js.forDown n (fun _ => [x]) = repeat x n.
Proof. induction n as [|n IH]; simpl; [reflexivity | now rewrite IH]. Qed.

Lemma hasLength_map {A B : Type} (f : A -> B) (l : list A) :
  hasLength (map f l) = hasLength l.
Proof. unfold hasLength. now rewrite length_map. Qed.

Lemma hasLength_rev {A : Type} (l : list A) : hasLength (rev l) = hasLength l.
Proof. unfold hasLength. now rewrite length_rev. Qed.

(** ** Ownership checks of the single-record handlers (C3) *)

(** C3 (the code departs from it): with two owner-verified fields the guard
    of the detail handler, and that of the delete handler, names the whole
    array where one field was meant; every comparison reads
    [result.items[0].userId,editorId], and neither field is compared with
    [authUser.id] on its own. *)
Theorem C3_owner_guard_names_the_whole_array :
  ownerVerifiedFields (Sample.ready "Note" "note" "/") = ["userId"; "editorId"] /\
  codeOf (@getQueryCodeForSingleInstance Sample.lib (Sample.ready "Note" "note" "/")) =
    Ok ("const authUser = this.getUserFromSession(req);" ++ nl ++
        "        const isAdmin = this.isAdmin(authUser);" ++ nl ++ tab ++ tab ++
        "const id = this.retrieveId(req);" ++ nl ++
        "        const result = await Note.find<INote>(id);" ++ nl ++
        "        if (!result.items.length || (!isAdmin && (result.items[0].userId,editorId !== authUser.id || result.items[0].userId,editorId !== authUser.id))) {" ++ nl ++
        "            throw new DatabaseError(Err.Code.DBNoRecord, null);" ++ nl ++
        "        }" ++ nl ++
        "        res.json(result);") /\
  Js.find "result.items[0].editorId" (Sample.textOf (@getQueryCodeForSingleInstance Sample.lib (Sample.ready "Note" "note" "/"))) = None /\
  Js.find "result.items[0].userId !==" (Sample.textOf (@getQueryCodeForSingleInstance Sample.lib (Sample.ready "Note" "note" "/"))) = None /\
  Js.find "(!isAdmin && (!result.items.length || result.items[0].userId,editorId !== authUser.id || result.items[0].userId,editorId !== authUser.id))"
    (Sample.textOf (@getDeleteCode Sample.lib (Sample.ready "Note" "note" "/"))) = Some 192.
Proof. vm_compute. repeat split. Qed.

Section OwnerGuard.

Context {E : Externals}.

(** The comparisons pushed by the loop of [getDeleteCode]: as many as there
    are owner-verified fields, all of them the same text. *)
Lemma delete_owner_checks (owner : list string) :
  (if hasLength owner
   then Js.forDown (List.length owner) (fun _ =>
          ["result.items[0]." ++ Js.arrayToString owner ++ " !== authUser.id"])
   else [])
  = repeat ("result.items[0]." ++ Js.join "," owner ++ " !== authUser.id") (List.length owner).
Proof.
  destruct owner as [|x l]; [reflexivity|].
  cbn [hasLength]. unfold hasLength. cbn [List.length Nat.eqb negb].
  apply forDown_const.
Qed.

End OwnerGuard.

(** With a single owner-verified field the array prints as that field, and
    the guard is the one intended; the sibling list handler indexes the array
    and filters on each field. *)
Example single_owner_field_guard :
  Js.find "(!isAdmin && ((result.items[0].author as IUser).id !== authUser.id))"
    (Sample.textOf (@getQueryCodeForSingleInstance Sample.lib (Sample.ready "Post" "post" "/"))) = Some 244 /\
  Js.find "query.filter({editorId: authUser.id, userId: authUser.id});"
    (Sample.textOf (@getQueryCodeForMultiInstance Sample.lib (Sample.ready "Note" "note" "/"))) = Some 174.
Proof. vm_compute. split; reflexivity. Qed.

(** ** Prior-file deletion in the upload handler (C4) *)

(** C4 (the code departs from it): the upload handler awaits the deletion of
    the prior file outside any [try]; for several File fields the deletions
    are collected and awaited by one [Promise.all], none of them with a
    rejection handler.  The delete handler of the same model wraps each
    deletion in [try]/[catch] and logs the failure. *)
Theorem C4_upload_deletions_are_unguarded :
  codeOf (@getUploadCode Sample.lib (Sample.ready "Post" "post" "/")) =
    Ok ("const id = this.retrieveId(req);" ++ nl ++
        "        const destDirectory = join(this.config.dir.upload, " ++ dq ++ "post" ++ dq ++ ");" ++ nl ++
        "        const result = await Post.find<IPost>(id);" ++ nl ++
        "        if (result.items.length !== 1) {" ++ nl ++
        "            throw new Err(Err.Code.DBRecordCount, " ++ dq ++ "Post not found" ++ dq ++ ");" ++ nl ++
        "        }" ++ nl ++
        "        const post = new Post(result.items[0]);" ++ nl ++
        "        const uploader = new FileUploader<IPost>(true);" ++ nl ++
        "        await uploader.parse(req);" ++ nl ++
        "        const upl = await uploader.upload(destDirectory);" ++ nl ++
        "        const oldFileName = post.image;" ++ nl ++
        "        post.image = upl.image;" ++ nl ++
        "        if (oldFileName) {" ++ nl ++
        "            await FileUploader.checkAndDeleteFile(`${destDirectory}/${oldFileName}`);" ++ nl ++
        "        }" ++ nl ++
        "        const uResult = await post.update();" ++ nl ++
        "        res.json(uResult);") /\
  Js.find "catch" (Sample.textOf (@getUploadCode Sample.lib (Sample.ready "Post" "post" "/"))) = None /\
  Js.find "req.log" (Sample.textOf (@getUploadCode Sample.lib (Sample.ready "Post" "post" "/"))) = None /\
  Js.find "catch" (Sample.textOf (@getUploadCode Sample.lib (Sample.ready "Album" "album" "/"))) = None /\
  Js.find "req.log" (Sample.textOf (@getUploadCode Sample.lib (Sample.ready "Album" "album" "/"))) = None /\
  Js.find "await Promise.all(delList);" (Sample.textOf (@getUploadCode Sample.lib (Sample.ready "Album" "album" "/"))) = Some 1229 /\
  Js.find "} catch (error) {" (Sample.textOf (@getDeleteCode Sample.lib (Sample.ready "Post" "post" "/"))) = Some 697.
Proof. vm_compute. repeat split. Qed.

(** ** The order of the checks in the update handler (C5) *)

Section UpdateOrder.

Context {E : Externals}.

(** The text that [getUpdateCode] returns is its clauses, rendered one after
    the other; it returns whenever the redaction clause can be synthesized. *)
Lemma getUpdateCode_clauses (g g' : ControllerGen) (conf : string) :
  getConfFieldRemovingCode true g = Ok (conf, g') ->
  getUpdateCode g =
  Ok (renderClauses (pascalCase (model (config g)))
        (camelCase (pascalCase (model (config g))))
        (updateClauses (ownerVerifiedFields g) conf), g').
Proof.
  intros Hconf. unfold getUpdateCode, getAuthUserCode, bind, ret, this.
  rewrite Hconf. do 2 f_equal. cbv zeta.
  rewrite (forDown_at (ownerVerifiedFields g)
             (fun f => camelCase (pascalCase (model (config g))) ++ "." ++ f ++ " = authUser.id;")).
  rewrite (forDown_at (ownerVerifiedFields g)
             (fun f => camelCase (pascalCase (model (config g))) ++ "." ++ f ++ " !== authUser.id")).
  rewrite !hasLength_map, !hasLength_rev.
  destruct (ownerVerifiedFields g) as [|x l] eqn:Howner.
  - unfold renderClauses. cbn [hasLength List.length Nat.eqb negb rev updateClauses map String.concat clauseText].
    same_text StrFacts.app_assoc.
  - assert (hasLength (x :: l) = true) as -> by reflexivity.
    cbn [updateClauses].
    destruct (rev (x :: l)) as [|y r] eqn:Hrev.
    { apply (f_equal (@List.length string)) in Hrev.
      rewrite length_rev in Hrev. discriminate. }
    unfold renderClauses.
    cbn [map String.concat clauseText].
    same_text StrFacts.app_assoc.
Qed.

Lemma runUpdate_unfold (rq : UpdateRequest) (owner : list string) (conf : string) :
  owner <> [] ->
  runUpdate rq owner conf =
  if accepts rq (instanceValidated rq owner) then
    if negb (recordExists rq)
       || (negb (isAdmin rq)
           && existsb (fun f => negb (instanceValidated rq owner f =? authUserId rq)%nat)
                (rev owner))
    then ThrowsNoRecord
    else Updated (instanceValidated rq owner)
  else ThrowsValidationError.
Proof.
  intros Hne. destruct owner as [|x l]; [congruence|].
  unfold runUpdate, instanceValidated. cbn [updateClauses runClauses]. reflexivity.
Qed.

(** C5, amended: the update handler of a model with owner-verified fields is
    made of these clauses, in this order: the binding of the authenticated
    user, the instance built from the body, the assignment of the owner
    fields for a request that is not an administrator's, validation, the
    lookup of the stored record, the no-record guard that carries the
    ownership comparison, the update, redaction, the response.  Validation
    therefore comes before the guard: a request that fails validation gets the
    ValidationError, whatever the record and its owner are. *)
Theorem C5_update_validates_before_the_record_guard :
  forall (g g' : ControllerGen) (conf : string) (rq : UpdateRequest),
    ownerVerifiedFields g <> [] ->
    getConfFieldRemovingCode true g = Ok (conf, g') ->
    getUpdateCode g =
      Ok (renderClauses (pascalCase (model (config g)))
            (camelCase (pascalCase (model (config g))))
            [AuthBinding; Construct; ForceOwner (rev (ownerVerifiedFields g)); Validate;
             Lookup; RecordGuard (rev (ownerVerifiedFields g)); Persist; Redact conf;
             Respond], g') /\
    (accepts rq (instanceValidated rq (ownerVerifiedFields g)) = false ->
     runUpdate rq (ownerVerifiedFields g) conf = ThrowsValidationError) /\
    (accepts rq (instanceValidated rq (ownerVerifiedFields g)) = true ->
     recordExists rq = false ->
     runUpdate rq (ownerVerifiedFields g) conf = ThrowsNoRecord).
Proof.
  intros g g' conf rq Hne Hconf. split; [|split].
  - rewrite (getUpdateCode_clauses g g' conf Hconf).
    destruct (ownerVerifiedFields g); [congruence | reflexivity].
  - intros Hrej. rewrite runUpdate_unfold by exact Hne. now rewrite Hrej.
  - intros Hacc Hrec. rewrite runUpdate_unfold by exact Hne.
    now rewrite Hacc, Hrec.
Qed.

Lemma fold_assign (v : nat) (fields : list string) (inst : string -> nat) (f : string) :
  fold_left (fun i k => assign k v i) fields inst f =
  if existsb (String.eqb f) fields then v else inst f.
Proof.
  revert inst. induction fields as [|k fields IH]; intros inst; [reflexivity|].
  cbn [fold_left existsb]. rewrite IH. unfold assign.
  destruct (String.eqb f k), (existsb (String.eqb f) fields); reflexivity.
Qed.

(** After the forced assignment every owner-verified field of the instance
    holds the authenticated user's id. *)
Lemma forced_fields (rq : UpdateRequest) (fields : list string) (inst : string -> nat) (f : string) :
  In f fields ->
  fold_left (fun i k => assign k (authUserId rq) i) fields inst f = authUserId rq.
Proof.
  intros Hin. rewrite fold_assign.
  assert (existsb (String.eqb f) fields = true) as ->; [|reflexivity].
  apply existsb_exists. exists f. split; [exact Hin | apply String.eqb_refl].
Qed.

(** X1: the guard that [getUpdateCode] emits compares the fields of the
    instance built from the body, [<instance>.<field> !== authUser.id], not
    those of the record found; by then the handler has assigned the
    authenticated user's id to these very fields.  So for a request that is
    not an administrator's and whose body validates, the comparison never
    decides: the record is updated whenever it exists. *)
Theorem update_guard_never_rejects_an_owner :
  forall (g g' : ControllerGen) (conf : string) (rq : UpdateRequest),
    ownerVerifiedFields g <> [] ->
    getConfFieldRemovingCode true g = Ok (conf, g') ->
    isAdmin rq = false ->
    accepts rq (instanceValidated rq (ownerVerifiedFields g)) = true ->
    let M := pascalCase (model (config g)) in
    let inst := camelCase M in
    let clauses :=
      [AuthBinding; Construct; ForceOwner (rev (ownerVerifiedFields g)); Validate;
       Lookup; RecordGuard (rev (ownerVerifiedFields g)); Persist; Redact conf; Respond] in
    getUpdateCode g = Ok (renderClauses M inst clauses, g') /\
    (exists before after : string,
        renderClauses M inst clauses =
        before ++
        "if (!result.items.length || (!isAdmin && (" ++
        Js.join " || "
          (map (fun f => inst ++ "." ++ f ++ " !== authUser.id") (rev (ownerVerifiedFields g))) ++
        "))) {" ++ after) /\
    runClauses rq clauses (body rq) =
      if recordExists rq then Updated (instanceValidated rq (ownerVerifiedFields g))
      else ThrowsNoRecord.
Proof.
  intros g g' conf rq Hne Hconf Hadmin Hacc M inst clauses.
  destruct (ownerVerifiedFields g) as [|x l] eqn:Howner; [congruence|].
  split; [|split].
  - rewrite (getUpdateCode_clauses g g' conf Hconf), Howner. reflexivity.
  - destruct (rev (x :: l)) as [|y r] eqn:Hrev.
    { apply (f_equal (@List.length string)) in Hrev.
      rewrite length_rev in Hrev. discriminate. }
    exists (clauseText M inst AuthBinding ++ clauseText M inst Construct ++
            clauseText M inst (ForceOwner (y :: r)) ++ clauseText M inst Validate ++
            clauseText M inst Lookup ++ nl ++ "        "),
           (nl ++
            "            throw new DatabaseError(Err.Code.DBNoRecord, null);" ++ nl ++
            "        }" ++ clauseText M inst Persist ++ conf ++ clauseText M inst Respond).
    subst clauses. unfold renderClauses.
    cbn [map String.concat]. cbn [clauseText].
    same_text StrFacts.app_assoc.
  - change (runClauses rq clauses (body rq)) with (runUpdate rq (x :: l) conf).
    rewrite runUpdate_unfold by discriminate.
    rewrite Hacc, Hadmin. cbn [negb andb].
    assert (existsb (fun f => negb (instanceValidated rq (x :: l) f =? authUserId rq)%nat)
              (rev (x :: l)) = false) as ->.
    { apply not_true_is_false. intros H. apply existsb_exists in H as [f [Hin Hf]].
      unfold instanceValidated in Hf. rewrite Hadmin in Hf.
      rewrite (forced_fields rq (rev (x :: l)) (body rq) f Hin), Nat.eqb_refl in Hf.
      discriminate. }
    rewrite orb_false_r. now destruct (recordExists rq).
Qed.

End UpdateOrder.

(** C5 as stated fails: in the update handler synthesized for [Account]
    (owner-verified [userId]) the ValidationError is thrown at position 286
    of the text and the DatabaseError at position 503, and a request of a
    non-administrator whose body names another owner and does not validate
    gets the ValidationError. *)
Lemma C5_validation_error_comes_first :
  let text := Sample.textOf (@getUpdateCode Sample.lib (Sample.ready "Account" "account" "/")) in
  ownerVerifiedFields (Sample.ready "Account" "account" "/") = ["userId"] /\
  Js.find "throw new ValidationError" text = Some 286 /\
  Js.find "throw new DatabaseError" text = Some 503 /\
  Js.find "account.userId !== authUser.id" text = Some 455 /\
  runUpdate (mkRequest false 1 (fun _ => 2) (fun _ => false) true) ["userId"] "" =
    ThrowsValidationError.
Proof. vm_compute. repeat split. Qed.

Lemma C5_update_validates_before_the_record_guard_witness :
  exists text : string,
    codeOf (@getUpdateCode Sample.lib (Sample.ready "Account" "account" "/")) = Ok text /\
    Js.find "validate()" text = Some 231.
Proof.
  destruct (@C5_update_validates_before_the_record_guard Sample.lib
              (Sample.ready "Account" "account" "/") (Sample.ready "Account" "account" "/") ""
              (mkRequest false 1 (fun _ => 2) (fun _ => false) true)
              ltac:(discriminate) eq_refl) as [Htext _].
  rewrite Htext. eexists. split; [reflexivity | vm_compute; reflexivity].
Defined.
(** ** The route table (C2) *)

Module ReplaceFacts.

Lemma startsWith_before_foreign (pat a s : string) (d : ascii) :
  Js.noChar d pat = true ->
  Js.startsWith pat (a ++ String d s) = true ->
  Js.startsWith pat a = true.
Proof.
  revert a. induction pat as [|x pat IH]; intros a Hd H; [reflexivity|].
  cbn [Js.noChar] in Hd. apply andb_true_iff in Hd as [Hx Hpat].
  destruct a as [|y a].
  - cbn in H. apply andb_true_iff in H as [Hxd _].
    apply Ascii.eqb_eq in Hxd. subst x.
    rewrite Ascii.eqb_refl in Hx. discriminate.
  - cbn in H |- *. apply andb_true_iff in H as [Hxy H].
    rewrite Hxy. cbn. now apply IH.
Qed.

(** A pattern that does not occur in [a] does not start inside [a] either,
    when [a] is followed by a character foreign to the pattern. *)
Lemma find_past_clean (pat a s : string) (d : ascii) :
  Js.noChar d pat = true ->
  Js.find pat a = None ->
  Js.find pat (a ++ String d s) =
  option_map (Nat.add (String.length a)) (Js.find pat (String d s)).
Proof.
  intros Hd. remember (Js.find pat (String d s)) as r eqn:Hr.
  induction a as [|y a IH]; intros Hnone.
  - cbn [String.append String.length]. rewrite <- Hr. now destruct r.
  - cbn [Js.find] in Hnone.
    destruct (Js.startsWith pat (String y a)) eqn:Hstart; [discriminate|].
    destruct (Js.find pat a) as [i|] eqn:Hfind; [discriminate|].
    cbn [String.append Js.find].
    destruct (Js.startsWith pat (String y (a ++ String d s))) eqn:Hstart'.
    + apply (startsWith_before_foreign pat (String y a) s d Hd) in Hstart'. congruence.
    + rewrite IH by reflexivity. now destruct r.
Qed.

(** Replacing at a known first occurrence, with a plain replacement. *)
Lemma replace_at (b pat a rep : string) :
  Js.find pat (b ++ pat ++ a) = Some (String.length b) ->
  Js.noChar "$" rep = true ->
  Js.replace (b ++ pat ++ a) pat rep = b ++ rep ++ a.
Proof.
  intros Hfind Hplain. unfold Js.replace. rewrite Hfind.
  rewrite StrFacts.expand_plain by exact Hplain.
  rewrite StrFacts.take_app.
  replace (String.length b + String.length pat) with (String.length (b ++ pat))
    by apply StrFacts.length_app.
  rewrite <- (StrFacts.app_assoc b pat a), StrFacts.drop_app. reflexivity.
Qed.

(** The placeholder of the middleware text is its first [__ACTION__] when the
    access-control identifier holds none. *)
Lemma middleWares_replace (acl action : string) :
  Js.find "__ACTION__" acl = None ->
  Js.noChar "$" action = true ->
  Js.replace (" this.checkAcl(" ++ dq ++ acl ++ dq ++ ", __ACTION__),") "__ACTION__" action
  = " this.checkAcl(" ++ dq ++ acl ++ dq ++ ", " ++ action ++ "),".
Proof.
  intros Hacl Hplain.
  assert ((" this.checkAcl(" ++ dq ++ acl ++ dq ++ ", __ACTION__),")
          = (" this.checkAcl(" ++ dq ++ acl ++ dq ++ ", ") ++ "__ACTION__" ++ "),") as ->.
  { same_text StrFacts.app_assoc. }
  rewrite replace_at.
  - same_text StrFacts.app_assoc.
  - assert ((" this.checkAcl(" ++ dq ++ acl ++ dq ++ ", ") ++ "__ACTION__" ++ "),"
            = " this.checkAcl(" ++ String dqChar (acl ++ String dqChar ", __ACTION__),")) as ->.
    { same_text StrFacts.app_assoc. }
    rewrite (find_past_clean "__ACTION__" " this.checkAcl(" _ dqChar) by reflexivity.
    assert (forall s, Js.find "__ACTION__" (String dqChar s)
                      = option_map S (Js.find "__ACTION__" s)) as Hskip by reflexivity.
    rewrite Hskip.
    rewrite (find_past_clean "__ACTION__" acl _ dqChar) by (reflexivity || exact Hacl).
    rewrite !StrFacts.length_app. cbn. f_equal; lia.
  - exact Hplain.
Qed.

End ReplaceFacts.

Section HandlerFrames.

Context {E : Externals}.

Lemma setControllerFile_twice (f f' : TsFileGen) (g : ControllerGen) :
  setControllerFile f (setControllerFile f' g) = setControllerFile f g.
Proof. reflexivity. Qed.

Lemma setControllerFile_self (g : ControllerGen) :
  setControllerFile (controllerFile g) g = g.
Proof. now destruct g. Qed.

Lemma fileOnly_run {A : Type} (m : GenM A) (g : ControllerGen) :
  fileOnly m g -> exists a f', m g = Ok (a, setControllerFile f' g).
Proof.
  intros H. destruct (H (controllerFile g)) as [a [f' Hm]].
  rewrite setControllerFile_self in Hm. eauto.
Qed.

Lemma fileOnly_ret {A : Type} (a : A) (g : ControllerGen) : fileOnly (ret a) g.
Proof. intros f. exists a, f. reflexivity. Qed.

Lemma fileOnly_addImport (names : list string) (from : string) (g : ControllerGen) :
  fileOnly (addImport names from) g.
Proof. intros f. eexists tt, _. reflexivity. Qed.

Lemma fileOnly_bind {A B : Type} (m : GenM A) (k : A -> GenM B) (g : ControllerGen) :
  fileOnly m g -> (forall a, fileOnly (k a) g) -> fileOnly (bind m k) g.
Proof.
  intros Hm Hk f. destruct (Hm f) as [a [f1 H1]].
  destruct (Hk a f1) as [b [f2 H2]].
  exists b, f2. unfold bind. now rewrite H1.
Qed.

Lemma fileOnly_forDownM {A : Type} (n : nat) (body : nat -> GenM (list A)) (g : ControllerGen) :
  (forall i, i < n -> fileOnly (body i) g) -> fileOnly (forDownM n body) g.
Proof.
  induction n as [|n IH]; intros H.
  - apply fileOnly_ret.
  - cbn [forDownM]. apply fileOnly_bind; [apply H; lia|].
    intros xs. apply fileOnly_bind; [apply IH; intros i Hi; apply H; lia|].
    intros ys. apply fileOnly_ret.
Qed.

(** A method that starts by reading [this] and does not look at the
    imports. *)
Lemma fileOnly_this {A : Type} (k : ControllerGen -> GenM A) (g : ControllerGen) :
  (forall f, fileOnly (k (setControllerFile f g)) g) -> fileOnly (bind this k) g.
Proof. intros H f. unfold bind, this. apply H. Qed.

Lemma at_in (l : list string) (i : nat) : i < List.length l -> In (Js.at_ l i) l.
Proof. intros Hi. unfold Js.at_. now apply nth_In. Qed.

Lemma fileOnly_getAuthUserCode (g : ControllerGen) : fileOnly getAuthUserCode g.
Proof. apply fileOnly_this. intros f. apply fileOnly_ret. Qed.

Lemma fileOnly_getCountCode (g : ControllerGen) : fileOnly getCountCode g.
Proof. apply fileOnly_this. intros f. apply fileOnly_ret. Qed.

Lemma fileOnly_getConfFieldRemovingCode (singleRecord : bool) (g : ControllerGen) :
  relationsKnown (model (config g)) (relationsFields g) = true ->
  fileOnly (getConfFieldRemovingCode singleRecord) g.
Proof.
  intros Hknown. apply fileOnly_this. intros f.
  cbn [relationsFields setControllerFile confidentialFields config path].
  apply fileOnly_bind; [|intros rel; apply fileOnly_ret].
  unfold relationsKnown in Hknown.
  destruct (relationsFields g) as [fields|]; [|apply fileOnly_ret].
  apply fileOnly_forDownM. intros i Hi.
  rewrite forallb_forall in Hknown.
  specialize (Hknown _ (at_in _ _ Hi)).
  destruct (relation (getFieldMeta (model (config g)) (Js.at_ (Object_keys fields) i))) as [r|];
    [|discriminate].
  destruct (hasLength (getConfidentialFields (relModel r))); [|apply fileOnly_ret].
  apply fileOnly_bind; [apply fileOnly_addImport | intros _; apply fileOnly_ret].
Qed.

Lemma fileOnly_getQueryCodeForSingleInstance (g : ControllerGen) :
  relationsKnown (model (config g)) (relationsFields g) = true ->
  fileOnly getQueryCodeForSingleInstance g.
Proof.
  intros Hknown. apply fileOnly_this. intros f.
  cbn [relationsFields setControllerFile ownerVerifiedFields config path].
  apply fileOnly_bind.
  - apply fileOnly_forDownM. intros i Hi.
    destruct (relation (getFieldMeta (model (config g)) (Js.at_ (ownerVerifiedFields g) i))) as [r|];
      [|apply fileOnly_ret].
    apply fileOnly_bind; [apply fileOnly_addImport | intros _; apply fileOnly_ret].
  - intros ownerChecks. apply fileOnly_bind; [apply fileOnly_getAuthUserCode|].
    intros auth. apply fileOnly_bind; [now apply fileOnly_getConfFieldRemovingCode|].
    intros conf. apply fileOnly_ret.
Qed.

Lemma fileOnly_getQueryCodeForMultiInstance (g : ControllerGen) :
  relationsKnown (model (config g)) (relationsFields g) = true ->
  fileOnly getQueryCodeForMultiInstance g.
Proof.
  intros Hknown. apply fileOnly_this. intros f.
  apply fileOnly_bind; [apply fileOnly_getAuthUserCode|].
  intros auth. apply fileOnly_bind; [now apply fileOnly_getConfFieldRemovingCode|].
  intros conf. apply fileOnly_ret.
Qed.

Lemma fileOnly_getInsertCode (g : ControllerGen) :
  relationsKnown (model (config g)) (relationsFields g) = true ->
  fileOnly getInsertCode g.
Proof.
  intros Hknown. apply fileOnly_this. intros f.
  apply fileOnly_bind; [apply fileOnly_getAuthUserCode|].
  intros auth. apply fileOnly_bind; [now apply fileOnly_getConfFieldRemovingCode|].
  intros conf. apply fileOnly_ret.
Qed.

Lemma fileOnly_getUpdateCode (g : ControllerGen) :
  relationsKnown (model (config g)) (relationsFields g) = true ->
  fileOnly getUpdateCode g.
Proof.
  intros Hknown. apply fileOnly_this. intros f.
  apply fileOnly_bind; [apply fileOnly_getAuthUserCode|].
  intros auth. apply fileOnly_bind; [now apply fileOnly_getConfFieldRemovingCode|].
  intros conf. apply fileOnly_ret.
Qed.

Lemma fileOnly_getDeleteCode (g : ControllerGen) : fileOnly getDeleteCode g.
Proof.
  apply fileOnly_this. intros f.
  cbn [setControllerFile ownerVerifiedFields config].
  apply fileOnly_bind.
  - destruct (getFieldsByType (pascalCase (model (config g))) FieldType.File);
      [|apply fileOnly_ret].
    apply fileOnly_bind; [apply fileOnly_addImport | intros _; apply fileOnly_ret].
  - intros code. apply fileOnly_bind; [apply fileOnly_getAuthUserCode|].
    intros auth. apply fileOnly_ret.
Qed.

Lemma fileOnly_getUploadCode (g : ControllerGen) :
  filesFields g <> None -> fileOnly getUploadCode g.
Proof.
  intros Hfiles. apply fileOnly_this. intros f.
  cbn [setControllerFile filesFields config path].
  apply fileOnly_bind; [apply fileOnly_addImport|]. intros _.
  destruct (filesFields g); [apply fileOnly_ret | congruence].
Qed.

End HandlerFrames.

Section RouteRegistration.

Context {E : Externals}.

Lemma nth_error_updateAt_other {A : Type} (f : A -> A) (l : list A) (i j : nat) :
  i <> j -> nth_error (updateAt i f l) j = nth_error l j.
Proof.
  revert i j. induction l as [|x l IH]; intros i j Hij; [now destruct i|].
  destruct i as [|i], j as [|j]; cbn; try reflexivity; try congruence.
  apply IH. congruence.
Qed.

Lemma nth_error_updateAt_same {A : Type} (f : A -> A) (l : list A) (i : nat) :
  nth_error (updateAt i f l) i = option_map f (nth_error l i).
Proof.
  revert i. induction l as [|x l IH]; intros i; [now destruct i|].
  destruct i as [|i]; cbn; [reflexivity | apply IH].
Qed.

Lemma base_setControllerFile (f : TsFileGen) (s : ControllerGen) :
  base (setControllerFile f s) = base s.
Proof. reflexivity. Qed.

Lemma base_setControllerClass (c : ClassGen) (s : ControllerGen) :
  base (setControllerClass c s) = base s.
Proof. reflexivity. Qed.

Lemma base_fields (g s : ControllerGen) :
  base s = base g ->
  config s = config g /\ relationsFields s = relationsFields g /\
  filesFields s = filesFields g /\ routeMethod s = routeMethod g.
Proof. unfold base. intros H. injection H. intros. repeat split; assumption. Qed.

(** Importing leaves the stage alone. *)
Lemma atStage_file (g s : ControllerGen) (lines : list string) (f : TsFileGen) :
  atStage g lines s -> atStage g lines (setControllerFile f s).
Proof. intros [Hb Hm]. split; [exact Hb | exact Hm]. Qed.

(** A new handler method goes to the end of the class: the [route] method
    stays where it is. *)
Lemma addResponseMethod_stage (g s : ControllerGen) (lines : list string) (name : string) :
  atStage g lines s ->
  exists c,
    addResponseMethod name s = Ok (List.length (methods (controllerClass s)), setControllerClass c s) /\
    atStage g lines (setControllerClass c s) /\
    routeMethod g <> List.length (methods (controllerClass s)).
Proof.
  intros [Hb [m [Hm Hc]]].
  assert (routeMethod g < List.length (methods (controllerClass s))) as Hlt.
  { apply nth_error_Some. congruence. }
  unfold addResponseMethod, bind, this, modify, ret, ClassGen_addMethod.
  cbv beta iota zeta.
  eexists. split; [reflexivity|]. split; [|lia].
  split; [exact Hb|]. exists m. split; [|exact Hc].
  cbn [controllerClass setControllerClass ClassGen_updateMethod methods].
  rewrite !nth_error_updateAt_other by lia.
  rewrite nth_error_app1 by exact Hlt. exact Hm.
Qed.

Lemma appendContent_other (g s : ControllerGen) (lines : list string) (i : nat) (code : string) :
  atStage g lines s -> routeMethod g <> i ->
  exists c, appendContent i code s = Ok (tt, setControllerClass c s) /\
            atStage g lines (setControllerClass c s).
Proof.
  intros [Hb [m [Hm Hc]]] Hi.
  unfold appendContent, modify. eexists. split; [reflexivity|].
  split; [exact Hb|]. exists m. split; [|exact Hc].
  cbn [controllerClass setControllerClass ClassGen_updateMethod methods].
  rewrite nth_error_updateAt_other by congruence. exact Hm.
Qed.

Lemma appendContent_route (g s : ControllerGen) (lines : list string) (line : string) :
  atStage g lines s ->
  exists c, appendContent (routeMethod g) line s = Ok (tt, setControllerClass c s) /\
            atStage g (lines ++ [line])%list (setControllerClass c s).
Proof.
  intros [Hb [m [Hm Hc]]].
  unfold appendContent, modify. eexists. split; [reflexivity|].
  split; [exact Hb|]. exists (MethodGen_appendContent line m). split.
  - cbn [controllerClass setControllerClass ClassGen_updateMethod methods].
    rewrite nth_error_updateAt_same, Hm. reflexivity.
  - cbn. now rewrite Hc.
Qed.

Lemma bind_run {A B : Type} (m : GenM A) (k : A -> GenM B) (s s' : ControllerGen) (a : A) :
  m s = Ok (a, s') -> bind m k s = k a s'.
Proof. intros H. unfold bind. now rewrite H. Qed.

Lemma bind_this {B : Type} (k : ControllerGen -> GenM B) (s : ControllerGen) :
  bind this k s = k s s.
Proof. reflexivity. Qed.

Lemma bind_modify {B : Type} (f : ControllerGen -> ControllerGen) (k : unit -> GenM B)
  (s : ControllerGen) :
  bind (modify f) k s = k tt (f s).
Proof. reflexivity. Qed.

Lemma bind_addImport {B : Type} (names : list string) (from : string) (k : unit -> GenM B)
  (s : ControllerGen) :
  bind (addImport names from) k s
  = k tt (setControllerFile (TsFileGen_addImport names from (controllerFile s)) s).
Proof. reflexivity. Qed.

(** The handler bodies return at every stage, given the schema provider's
    promise, and only add imports. *)
Lemma handlers_fileOnly (g s : ControllerGen) :
  base s = base g ->
  relationsKnown (model (config g)) (relationsFields g) = true ->
  fileOnly getCountCode s /\
  fileOnly (getQueryCode true) s /\
  fileOnly (getQueryCode false) s /\
  fileOnly getInsertCode s /\
  fileOnly getUpdateCode s /\
  fileOnly getDeleteCode s /\
  (filesFields g <> None -> fileOnly getUploadCode s).
Proof.
  intros Hb Hknown. destruct (base_fields g s Hb) as [Hc [Hr [Hf _]]].
  rewrite <- Hc, <- Hr in Hknown.
  repeat split.
  - apply fileOnly_getCountCode.
  - now apply fileOnly_getQueryCodeForSingleInstance.
  - now apply fileOnly_getQueryCodeForMultiInstance.
  - now apply fileOnly_getInsertCode.
  - now apply fileOnly_getUpdateCode.
  - apply fileOnly_getDeleteCode.
  - intros H. apply fileOnly_getUploadCode. now rewrite Hf.
Qed.

End RouteRegistration.

(** One step of [addCRUDOperations] at the head of the goal, with the stage
    hypothesis [Hst] carried along. *)
Ltac crud_step g Hknown :=
  lazymatch goal with
  | Hst : atStage g ?lines ?s |- context [bind (addResponseMethod ?n) ?k ?s] =>
      let c := fresh "c" in let H := fresh "H" in
      let Hst' := fresh "Hst" in let Hne := fresh "Hne" in
      destruct (addResponseMethod_stage g s lines n Hst) as [c [H [Hst' Hne]]];
      rewrite (bind_run _ k _ _ _ H); clear H Hst; cbv beta
  | Hst : atStage g ?lines ?s, Hne : routeMethod g <> ?i
    |- context [bind (appendContent ?i ?code) ?k ?s] =>
      let c := fresh "c" in let H := fresh "H" in let Hst' := fresh "Hst" in
      destruct (appendContent_other g s lines i code Hst Hne) as [c [H Hst']];
      rewrite (bind_run _ k _ _ _ H); clear H Hst Hne; cbv beta
  | Hst : atStage g ?lines ?s |- context [bind (appendContent (routeMethod g) ?line) ?k ?s] =>
      let c := fresh "c" in let H := fresh "H" in let Hst' := fresh "Hst" in
      destruct (appendContent_route g s lines line Hst) as [c [H Hst']];
      rewrite (bind_run _ k _ _ _ H); clear H Hst; cbv beta
  | Hst : atStage g ?lines ?s |- context [bind ?body ?k ?s] =>
      let a := fresh "code" in let f := fresh "f" in let H := fresh "H" in
      let Hf := fresh "Hf" in
      assert (fileOnly body s) as Hf
        by (let Hup := fresh "Hup" in
            destruct (handlers_fileOnly g s (proj1 Hst) Hknown)
              as [? [? [? [? [? [? Hup]]]]]];
            first [ assumption | apply Hup; congruence ]);
      destruct (fileOnly_run body s Hf) as [a [f H]];
      rewrite (bind_run _ k _ _ _ H); clear H Hf;
      apply (atStage_file g s lines f) in Hst; cbv beta
  end.

(** *** The routing path *)

Lemma firstChar_collapse (c : ascii) (s : string) :
  Js.firstCharIs c (Js.collapseSlashes s) = Js.firstCharIs c s.
Proof.
  induction s as [|a s IH]; [reflexivity|].
  cbn [Js.collapseSlashes]. destruct s as [|d s']; [reflexivity|].
  destruct (Ascii.eqb a "/" && Ascii.eqb d "/") eqn:Hboth; [|reflexivity].
  rewrite IH. apply andb_true_iff in Hboth as [Ha Hd].
  apply Ascii.eqb_eq in Ha, Hd. subst. reflexivity.
Qed.

(** After [normalizeRoutingPath] no two slashes stand side by side. *)
Lemma collapse_no_double_slash (s : string) :
  Js.find "//" (Js.collapseSlashes s) = None.
Proof.
  induction s as [|a s IH]; [reflexivity|].
  cbn [Js.collapseSlashes]. destruct s as [|d s'].
  { cbn [Js.find Js.startsWith]. now rewrite andb_false_r. }
  destruct (Ascii.eqb a "/" && Ascii.eqb d "/") eqn:Hboth; [exact IH|].
  cbn [Js.find]. rewrite IH. cbn [option_map].
  assert (Js.startsWith "//" (String a (Js.collapseSlashes (String d s'))) = false) as ->;
    [|reflexivity].
  cbn [Js.startsWith].
  destruct (Ascii.eqb "/" a) eqn:Ha; [|reflexivity]. cbn [andb].
  pose proof (firstChar_collapse "/" (String d s')) as Hfirst.
  destruct (Js.collapseSlashes (String d s')) as [|x r]; [reflexivity|].
  cbn [Js.firstCharIs] in Hfirst. rewrite Hfirst.
  rewrite Ascii.eqb_sym in Ha. rewrite Ha in Hboth. cbn in Hboth.
  rewrite Ascii.eqb_sym, Hboth. reflexivity.
Qed.

Lemma collapse_cons (a d : ascii) (t : string) :
  Js.collapseSlashes (String a (String d t)) =
  if Ascii.eqb a "/" && Ascii.eqb d "/" then Js.collapseSlashes (String d t)
  else String a (Js.collapseSlashes (String d t)).
Proof. reflexivity. Qed.

Lemma collapse_plain (e : string) :
  Js.noChar "/" e = true -> Js.collapseSlashes e = e.
Proof.
  induction e as [|c e IH]; intros H; [reflexivity|].
  cbn [Js.noChar] in H. apply andb_true_iff in H as [Hc He].
  cbn [Js.collapseSlashes]. destruct e as [|d e']; [reflexivity|].
  apply negb_true_iff in Hc. rewrite Ascii.eqb_sym in Hc. rewrite Hc. cbn [andb].
  now rewrite IH.
Qed.

(** A slash-free name appended after a slash is the last segment of the
    normalized path. *)
Lemma collapse_last_segment (x e : string) :
  Js.noChar "/" e = true -> e <> "" ->
  exists b, Js.collapseSlashes (x ++ "/" ++ e) = b ++ "/" ++ e.
Proof.
  intros He Hne. destruct e as [|c e']; [congruence|].
  assert (Ascii.eqb c "/" = false) as Hc.
  { cbn [Js.noChar] in He. apply andb_true_iff in He as [Hc _].
    apply negb_true_iff in Hc. now rewrite Ascii.eqb_sym. }
  induction x as [|a x IH].
  - exists "". cbn [String.append]. rewrite collapse_cons, Hc, andb_false_r.
    now rewrite (collapse_plain (String c e')).
  - destruct IH as [b Hb]. cbn [String.append] in *.
    destruct (x ++ String "/" (String c e')) as [|d t] eqn:Ht.
    { destruct x; discriminate. }
    rewrite collapse_cons.
    destruct (Ascii.eqb a "/" && Ascii.eqb d "/").
    + exists b. exact Hb.
    + exists (String a b). cbn [String.append]. now rewrite Hb.
Qed.

Section RoutingPath.

Context {E : Externals}.

Lemma normalizeRoutingPath_spec (cfg : IControllerConfig) :
  normalizeRoutingPath cfg
  = Js.collapseSlashes (withLeadingSlash (route cfg) ++ "/" ++ camelCase (name cfg)).
Proof.
  unfold normalizeRoutingPath, withLeadingSlash.
  destruct (Js.firstCharIs "/" (route cfg)); reflexivity.
Qed.

Lemma normalizeRoutingPath_leading_slash (cfg : IControllerConfig) :
  Js.firstCharIs "/" (normalizeRoutingPath cfg) = true.
Proof.
  rewrite normalizeRoutingPath_spec, firstChar_collapse. unfold withLeadingSlash.
  destruct (Js.firstCharIs "/" (route cfg)) eqn:H; [|reflexivity].
  destruct (route cfg); [discriminate | exact H].
Qed.

End RoutingPath.

(** *** The table *)

Section RouteTable.

Context {E : Externals}.

Lemma atStage_content (g s : ControllerGen) (lines : list string) :
  atStage g lines s -> routeContent s = lines.
Proof.
  intros [Hb [m [Hm Hc]]]. unfold routeContent.
  destruct (base_fields g s Hb) as [_ [_ [_ Hr]]]. now rewrite Hr, Hm.
Qed.

(** The generator object as the constructor leaves it. *)
Lemma ControllerGen_new_fields (cfg : IControllerConfig) (w : World) :
  let g := fst (ControllerGen_new cfg w) in
  config g = cfg /\
  routingPath g = normalizeRoutingPath cfg /\
  routeMethod g = 0 /\
  filesFields g =
    (if Js.truthyS (model cfg) then getFieldsByType (model cfg) FieldType.File else None) /\
  (exists m, nth_error (methods (controllerClass g)) 0 = Some m /\ content m = []) /\
  className (controllerClass g) = pascalCase (camelCase (name cfg)) ++ "Controller" /\
  apiVersion g = version cfg /\
  path g = pathJoin ["src/api"; version cfg; "controller"; route cfg].
Proof.
  unfold ControllerGen_new, ClassGen_addMethod. cbv beta iota zeta.
  cbn [fst config routingPath routeMethod filesFields controllerClass methods className
       apiVersion path ClassGen_updateMethod List.length List.app updateAt nth_error].
  repeat split. eexists. split; reflexivity.
Qed.

(** C2, amended: for a named model whose relation fields the schema provider
    knows, and a routing path whose dotted access-control identifier does not
    contain the text [__ACTION__], [addCRUDOperations] returns and the [route]
    method holds exactly the registrations of the six routes of the table, in
    its order, followed by the upload route exactly when [getFieldsByType]
    finds File-typed fields; the base path is the route with a leading slash,
    a slash and the camel-cased name appended, and runs of slashes collapsed:
    it starts with a slash, has no two slashes side by side, and ends in the
    name as its last segment when the name is a non-empty slash-free word. *)
Theorem C2_route_table :
  forall (cfg : IControllerConfig) (w : World),
    model cfg <> "" ->
    relationsKnown (model cfg) (getFieldsByType (model cfg) FieldType.Relation) = true ->
    Js.find "__ACTION__" (aclOf (normalizeRoutingPath cfg)) = None ->
    exists g' : ControllerGen,
      addCRUDOperations (fst (ControllerGen_new cfg w)) = Ok (tt, g') /\
      routeContent g' =
        map (registration (aclOf (normalizeRoutingPath cfg)))
          (routeTable (normalizeRoutingPath cfg)
             (pascalCase (camelCase (pascalCase (model cfg))))
             (plural (pascalCase (camelCase (pascalCase (model cfg)))))
             (match getFieldsByType (model cfg) FieldType.File with
              | Some _ => true
              | None => false
              end)) /\
      List.length (routeContent g') =
        (match getFieldsByType (model cfg) FieldType.File with Some _ => 7 | None => 6 end) /\
      normalizeRoutingPath cfg =
        Js.collapseSlashes (withLeadingSlash (route cfg) ++ "/" ++ camelCase (name cfg)) /\
      Js.firstCharIs "/" (normalizeRoutingPath cfg) = true /\
      Js.find "//" (normalizeRoutingPath cfg) = None /\
      (Js.noChar "/" (camelCase (name cfg)) = true -> camelCase (name cfg) <> "" ->
       exists b, normalizeRoutingPath cfg = b ++ "/" ++ camelCase (name cfg)).
Proof.
  intros cfg w Hmodel Hknown Hacl.
  assert (exists g' : ControllerGen,
            addCRUDOperations (fst (ControllerGen_new cfg w)) = Ok (tt, g') /\
            routeContent g' =
              map (registration (aclOf (normalizeRoutingPath cfg)))
                (routeTable (normalizeRoutingPath cfg)
                   (pascalCase (camelCase (pascalCase (model cfg))))
                   (plural (pascalCase (camelCase (pascalCase (model cfg)))))
                   (match getFieldsByType (model cfg) FieldType.File with
                    | Some _ => true
                    | None => false
                    end))) as [g' [Hrun Hcontent]].
  { destruct (ControllerGen_new_fields cfg w) as [Hc [Hrp [Hrm [Hff [Hm0 _]]]]].
    remember (fst (ControllerGen_new cfg w)) as g0 eqn:Hg0. clear Hg0.
    assert (Js.truthyS (model cfg) = true) as Htruthy
      by (destruct (model cfg) eqn:Hm; [congruence | reflexivity]).
    rewrite Htruthy in Hff.
    unfold addCRUDOperations.
    rewrite bind_this. cbv zeta.
    rewrite bind_modify, !bind_addImport.
    rewrite Hc, Hrp, Hff.
    change (if Js.firstCharIs "." (Js.slashRunsToDot (normalizeRoutingPath cfg))
            then Js.slice1 (Js.slashRunsToDot (normalizeRoutingPath cfg))
            else Js.slashRunsToDot (normalizeRoutingPath cfg))
      with (aclOf (normalizeRoutingPath cfg)).
    rewrite !(ReplaceFacts.middleWares_replace (aclOf (normalizeRoutingPath cfg)))
      by (exact Hacl || reflexivity).
    match goal with
    | |- context [bind (addResponseMethod _) _ ?s] =>
        assert (atStage s [] s) as Hst
          by (split; [reflexivity | cbn; rewrite Hrm; exact Hm0]);
        assert (relationsKnown (model (config s)) (relationsFields s) = true) as Hk
          by (cbn; rewrite Hc; exact Hknown);
        assert (routeMethod g0 = routeMethod s) as Hroute by reflexivity;
        assert (filesFields s = getFieldsByType (model cfg) FieldType.File) as Hfiles
          by exact Hff;
        rewrite Hroute;
        remember s as g eqn:Hg in *
    end.
    clear Hg Hroute.
    do 24 (crud_step g Hk).
    destruct (getFieldsByType (model cfg) FieldType.File) as [files|] eqn:Hfound.
    - do 3 (crud_step g Hk).
      { match goal with
        | Hst : atStage g ?lines ?s |- _ =>
            destruct (appendContent_route g s lines
                        ("router.post(" ++ dq ++ normalizeRoutingPath cfg ++ "/file/:id" ++ dq ++ "," ++
                         (" this.checkAcl(" ++ dq ++ aclOf (normalizeRoutingPath cfg) ++ dq ++ ", " ++ "AclAction.Edit" ++ "),") ++
                         " this.wrap(this." ++ "upload" ++ "));") Hst) as [c' [H' Hst']]
        end.
        eexists. split; [exact H'|].
        rewrite (atStage_content _ _ _ Hst').
        unfold routeTable, registration.
        cbn [map List.app httpVerb urlPath aclAction handler verbName actionName].
        same_lines StrFacts.app_assoc. }
    - eexists. split; [reflexivity|].
      match goal with Hst : atStage g _ _ |- _ => rewrite (atStage_content _ _ _ Hst) end.
      unfold routeTable, registration.
      cbn [map List.app httpVerb urlPath aclAction handler verbName actionName].
      same_lines StrFacts.app_assoc. }
  exists g'. split; [exact Hrun|]. split; [exact Hcontent|].
  split; [|split; [|split; [|split]]].
  - rewrite Hcontent, length_map. unfold routeTable. rewrite length_app.
    now destruct (getFieldsByType (model cfg) FieldType.File).
  - apply normalizeRoutingPath_spec.
  - apply normalizeRoutingPath_leading_slash.
  - rewrite normalizeRoutingPath_spec. apply collapse_no_double_slash.
  - intros Hplain Hne. rewrite normalizeRoutingPath_spec.
    now apply collapse_last_segment.
Qed.

End RouteTable.

Lemma C2_route_table_witness :
  exists g' : ControllerGen,
    @addCRUDOperations Sample.lib
      (fst (@ControllerGen_new Sample.lib (mkConfig "Post" "profile" "account" "v1") Sample.project))
    = Ok (tt, g') /\
    routeContent g' =
      [ "router.get(" ++ dq ++ "/account/profile/count" ++ dq ++ ", this.checkAcl(" ++ dq ++ "account.profile" ++ dq ++ ", AclAction.Read), this.wrap(this.getPostCount));";
        "router.get(" ++ dq ++ "/account/profile/:id" ++ dq ++ ", this.checkAcl(" ++ dq ++ "account.profile" ++ dq ++ ", AclAction.Read), this.wrap(this.getPost));";
        "router.get(" ++ dq ++ "/account/profile" ++ dq ++ ", this.checkAcl(" ++ dq ++ "account.profile" ++ dq ++ ", AclAction.Read), this.wrap(this.getPosts));";
        "router.post(" ++ dq ++ "/account/profile" ++ dq ++ ", this.checkAcl(" ++ dq ++ "account.profile" ++ dq ++ ", AclAction.Add), this.wrap(this.addPost));";
        "router.put(" ++ dq ++ "/account/profile" ++ dq ++ ", this.checkAcl(" ++ dq ++ "account.profile" ++ dq ++ ", AclAction.Edit), this.wrap(this.updatePost));";
        "router.delete(" ++ dq ++ "/account/profile/:id" ++ dq ++ ", this.checkAcl(" ++ dq ++ "account.profile" ++ dq ++ ", AclAction.Delete), this.wrap(this.removePost));";
        "router.post(" ++ dq ++ "/account/profile/file/:id" ++ dq ++ ", this.checkAcl(" ++ dq ++ "account.profile" ++ dq ++ ", AclAction.Edit), this.wrap(this.upload));" ].
Proof.
  destruct (@C2_route_table Sample.lib (mkConfig "Post" "profile" "account" "v1") Sample.project
              ltac:(discriminate) eq_refl eq_refl) as [g' [Hrun [Hcontent _]]].
  exists g'. split; [exact Hrun|]. rewrite Hcontent. vm_compute. reflexivity.
Defined.

(** The scenario of the design document: model without File fields, route
    [account], name [profile]: six routes, no upload route. *)
Example six_routes_without_files :
  exists g' : ControllerGen,
    @addCRUDOperations Sample.lib
      (fst (@ControllerGen_new Sample.lib (mkConfig "Plain" "profile" "account" "v1") Sample.project))
    = Ok (tt, g') /\
    routeContent g' =
      [ "router.get(" ++ dq ++ "/account/profile/count" ++ dq ++ ", this.checkAcl(" ++ dq ++ "account.profile" ++ dq ++ ", AclAction.Read), this.wrap(this.getPlainCount));";
        "router.get(" ++ dq ++ "/account/profile/:id" ++ dq ++ ", this.checkAcl(" ++ dq ++ "account.profile" ++ dq ++ ", AclAction.Read), this.wrap(this.getPlain));";
        "router.get(" ++ dq ++ "/account/profile" ++ dq ++ ", this.checkAcl(" ++ dq ++ "account.profile" ++ dq ++ ", AclAction.Read), this.wrap(this.getPlains));";
        "router.post(" ++ dq ++ "/account/profile" ++ dq ++ ", this.checkAcl(" ++ dq ++ "account.profile" ++ dq ++ ", AclAction.Add), this.wrap(this.addPlain));";
        "router.put(" ++ dq ++ "/account/profile" ++ dq ++ ", this.checkAcl(" ++ dq ++ "account.profile" ++ dq ++ ", AclAction.Edit), this.wrap(this.updatePlain));";
        "router.delete(" ++ dq ++ "/account/profile/:id" ++ dq ++ ", this.checkAcl(" ++ dq ++ "account.profile" ++ dq ++ ", AclAction.Delete), this.wrap(this.removePlain));" ].
Proof. eexists. split; vm_compute; reflexivity. Qed.

(** C2 as stated fails: with the route base [__ACTION__] the text replaced
    in the middleware is the one inside the access-control identifier, and
    every route is registered with the literal [__ACTION__] where its action
    should stand. *)
Lemma C2_placeholder_in_route_base :
  exists g' : ControllerGen,
    @addCRUDOperations Sample.lib
      (fst (@ControllerGen_new Sample.lib (mkConfig "Plain" "profile" "__ACTION__" "v1") Sample.project))
    = Ok (tt, g') /\
    nth 0 (routeContent g') "" =
      "router.get(" ++ dq ++ "/__ACTION__/profile/count" ++ dq ++ ", this.checkAcl(" ++ dq ++
      "AclAction.Read.profile" ++ dq ++ ", __ACTION__), this.wrap(this.getPlainCount));" /\
    registration (aclOf "/__ACTION__/profile")
      (mkRoute GET "/__ACTION__/profile/count" AclRead "getPlainCount") =
      "router.get(" ++ dq ++ "/__ACTION__/profile/count" ++ dq ++ ", this.checkAcl(" ++ dq ++
      "__ACTION__.profile" ++ dq ++ ", AclAction.Read), this.wrap(this.getPlainCount));" /\
    Js.find "AclAction.Read)" (nth 0 (routeContent g') "") = None.
Proof. eexists. repeat split; vm_compute; reflexivity. Qed.

(** *** File fields in the sample schema provider *)

(** Modelled from the spec: the schema provider answers null exactly for a
    model without a field of the type asked for. *)
Lemma fieldsByType_None (s : Sample.Schema) (m : string) (t : FieldType.t) :
  Sample.fieldsByType s m t = None <->
  forall d, In d (Sample.declsOf s m) -> Sample.sameType (Sample.declType d) t = false.
Proof.
  unfold Sample.fieldsByType.
  destruct (filter (fun d => Sample.sameType (Sample.declType d) t) (Sample.declsOf s m))
    as [|d ds] eqn:Hf.
  - split; [|reflexivity]. intros _ d Hin.
    destruct (Sample.sameType (Sample.declType d) t) eqn:Hd; [|reflexivity].
    assert (In d []) as []. rewrite <- Hf. apply filter_In. now split.
  - split; [discriminate|]. intros H.
    assert (In d (d :: ds)) as Hin by now left.
    rewrite <- Hf in Hin. apply filter_In in Hin as [Hin Hd].
    rewrite (H d Hin) in Hd. discriminate.
Qed.

(** ** The registration patcher: running it twice (C6) *)

Module PatchFacts.

Lemma drop_app_le (n : nat) (a x : string) :
  n <= String.length a -> Js.drop n (a ++ x) = Js.drop n a ++ x.
Proof.
  revert a. induction n as [|n IH]; intros a Hn.
  - now destruct a.
  - destruct a as [|c a]; [simpl in Hn; lia|]. simpl. apply IH. simpl in Hn. lia.
Qed.

Lemma take_app_ge (n : nat) (a x : string) :
  String.length a <= n -> Js.take n (a ++ x) = a ++ Js.take (n - String.length a) x.
Proof.
  revert n. induction a as [|c a IH]; intros n Hn.
  - simpl. now rewrite Nat.sub_0_r.
  - destruct n as [|n]; [simpl in Hn; lia|]. simpl. f_equal. apply IH. simpl in Hn. lia.
Qed.

Lemma drop_app_ge (n : nat) (a x : string) :
  String.length a <= n -> Js.drop n (a ++ x) = Js.drop (n - String.length a) x.
Proof.
  revert n. induction a as [|c a IH]; intros n Hn.
  - simpl. now rewrite Nat.sub_0_r.
  - destruct n as [|n]; [simpl in Hn; lia|]. simpl. apply IH. simpl in Hn. lia.
Qed.

Lemma length_drop (n : nat) (s : string) :
  String.length (Js.drop n s) = String.length s - n.
Proof.
  revert s. induction n as [|n IH]; intros s.
  - simpl. destruct s; simpl; lia.
  - destruct s as [|c s]; [reflexivity|]. simpl. apply IH.
Qed.

(** A text that holds [p] somewhere is one in which [indexOf] finds it. *)
Lemma indexOf_occurs (p b a : string) : (0 <= Js.indexOf (b ++ p ++ a) p)%Z.
Proof.
  unfold Js.indexOf. destruct (StrFacts.find_occurs p b a) as [i [Hi _]].
  rewrite Hi. lia.
Qed.

(** Inserting [ins] at position [j] of [b ++ p ++ a] keeps [p] in the text,
    unless [j] falls strictly inside [p]. *)
Lemma insert_keeps (p b a ins : string) (j : nat) :
  j <= String.length b \/ String.length b + String.length p <= j ->
  (0 <= Js.indexOf (Js.take j (b ++ p ++ a) ++ ins ++ Js.drop j (b ++ p ++ a)) p)%Z.
Proof.
  intros [Hj|Hj].
  - rewrite drop_app_le by exact Hj.
    rewrite <- !StrFacts.app_assoc.
    rewrite (StrFacts.app_assoc _ p a).
    apply indexOf_occurs.
  - rewrite <- (StrFacts.app_assoc b p a).
    rewrite take_app_ge by (rewrite StrFacts.length_app; exact Hj).
    rewrite !StrFacts.app_assoc. apply indexOf_occurs.
Qed.

(** The first occurrence of a one-line marker [e] cannot start strictly
    inside a text [p] that does not hold the marker and is followed by a line
    break. *)
Lemma marker_not_inside (e p b rest : string) (j : nat) :
  Js.noChar nlChar e = true ->
  Js.find e p = None ->
  Js.find e (b ++ p ++ String nlChar rest) = Some j ->
  j <= String.length b \/ String.length b + String.length p <= j.
Proof.
  intros Hline Habsent Hfind.
  destruct (Nat.le_gt_cases j (String.length b)) as [Hle|Hgt]; [now left|].
  destruct (Nat.le_gt_cases (String.length b + String.length p) j) as [Hge|Hlt]; [now right|].
  exfalso.
  destruct (StrFacts.find_Some _ _ _ Hfind) as [Hsplit Hlen].
  assert (Js.startsWith e (Js.drop j (b ++ p ++ String nlChar rest)) = true) as Hstart.
  { rewrite <- (StrFacts.take_drop j (b ++ p ++ String nlChar rest)) in Hsplit at 1.
    assert (forall x y z : string, x ++ y = x ++ z -> y = z) as cancel.
    { induction x; simpl; intros y z Heq; [exact Heq | injection Heq; auto]. }
    apply cancel in Hsplit. rewrite Hsplit. apply StrFacts.startsWith_app. }
  rewrite drop_app_ge in Hstart by lia.
  rewrite drop_app_le in Hstart by lia.
  apply ReplaceFacts.startsWith_before_foreign in Hstart; [|exact Hline].
  apply StrFacts.startsWith_split in Hstart.
  apply (StrFacts.find_None e p Habsent (Js.take (j - String.length b) p)
           (Js.drop (String.length e) (Js.drop (j - String.length b) p))).
  rewrite <- Hstart. symmetry. apply StrFacts.take_drop.
Qed.

End PatchFacts.

Section PatchTwice.

Context {E : Externals}.

Lemma registryPatch_written (g : ControllerGen) (code code1 : string) :
  registryPatch g code = PatchWritten code1 ->
  (Js.indexOf code (importCodeOf g) < 0)%Z /\
  code1 = Js.replace
            (Js.replace code Placeholder_Import (importCodeOf g ++ nl ++ Placeholder_Import))
            Placeholder_ExpressController
            (embedCodeOf g ++ nl ++ tab ++ tab ++ Placeholder_ExpressController).
Proof.
  unfold registryPatch.
  destruct (Js.truthyZ (Js.search code Placeholder_ExpressController)); [|discriminate].
  destruct (0 <=? Js.indexOf code (importCodeOf g))%Z eqn:Hle; [discriminate|].
  intros H. injection H as <-. split; [now apply Z.leb_gt | reflexivity].
Qed.

(** With the import statement in the text, the patch writes nothing. *)
Lemma registryPatch_present (g : ControllerGen) (code : string) :
  (0 <= Js.indexOf code (importCodeOf g))%Z ->
  registryPatch g code = PatchAlreadyImported \/ registryPatch g code = PatchSkipped.
Proof.
  intros H. unfold registryPatch.
  destruct (Js.truthyZ (Js.search code Placeholder_ExpressController)); [|now right].
  apply Z.leb_le in H. rewrite H. now left.
Qed.

(** A patch that found the import marker leaves the import statement in the
    text it writes. *)
Lemma registryPatch_inserts_import (g : ControllerGen) (code code1 : string) (i : nat) :
  plainInsertions g = true ->
  Js.find Placeholder_Import code = Some i ->
  registryPatch g code = PatchWritten code1 ->
  (0 <= Js.indexOf code1 (importCodeOf g))%Z.
Proof.
  intros Hplain Hmark Hpatch.
  unfold plainInsertions in Hplain.
  apply andb_true_iff in Hplain as [Hplain Habsent].
  apply andb_true_iff in Hplain as [Hplain Hline].
  apply andb_true_iff in Hplain as [Hp1 Hp2].
  destruct (Js.find Placeholder_ExpressController (importCodeOf g)) eqn:Hin; [discriminate|].
  destruct (registryPatch_written g code code1 Hpatch) as [_ ->].
  rewrite <- (StrFacts.app_assoc (importCodeOf g) nl Placeholder_Import) in Hp1 |- *.
  rewrite (StrFacts.replace_inserts code Placeholder_Import (importCodeOf g ++ nl) i Hp1 Hmark).
  assert (Js.take i code ++ (importCodeOf g ++ nl) ++ Js.drop i code
          = Js.take i code ++ importCodeOf g ++ String nlChar (Js.drop i code)) as ->.
  { rewrite StrFacts.app_assoc. reflexivity. }
  assert (embedCodeOf g ++ nl ++ tab ++ tab ++ Placeholder_ExpressController
          = (embedCodeOf g ++ nl ++ tab ++ tab) ++ Placeholder_ExpressController) as Hassoc.
  { now rewrite !StrFacts.app_assoc. }
  rewrite Hassoc in Hp2 |- *.
  destruct (Js.find Placeholder_ExpressController
              (Js.take i code ++ importCodeOf g ++ String nlChar (Js.drop i code)))
    as [j|] eqn:Hj.
  - rewrite (StrFacts.replace_inserts _ _ _ j Hp2 Hj).
    apply PatchFacts.insert_keeps.
    exact (PatchFacts.marker_not_inside _ _ _ _ j Hline Hin Hj).
  - rewrite StrFacts.replace_absent by exact Hj.
    apply PatchFacts.indexOf_occurs.
Qed.




End PatchTwice.

Section GenerateTwice.

Context {E : Externals}.

Lemma files_writeFile_other (p q text : string) (w : World) :
  q <> p -> files (writeFile p text w) q = files w q.
Proof.
  intros Hne. cbn. destruct (String.eqb q p) eqn:Heq; [|reflexivity].
  apply String.eqb_eq in Heq. congruence.
Qed.

Lemma files_writeFile_same (p text : string) (w : World) :
  files (writeFile p text w) p = Some text.
Proof. cbn. now rewrite String.eqb_refl. Qed.

(** What [generate] does when the handlers can be synthesized: it writes the
    controller, reads the registry and writes what the patch produced. *)
Lemma generate_run (g g1 : ControllerGen) (w : World) (code : string) :
  (if Js.truthyS (model (config g)) then addCRUDOperations g else Ok (tt, g)) = Ok (tt, g1) ->
  files (writeFile (controllerPath g1) (renderFile (controllerFile g1) (controllerClass g1)) w)
    (registryFile g1) = Some code ->
  generate g w =
  (match registryPatch g1 code with
   | PatchWritten code' =>
       writeFile (registryFile g1) code'
         (writeFile (controllerPath g1) (renderFile (controllerFile g1) (controllerClass g1)) w)
   | _ => writeFile (controllerPath g1) (renderFile (controllerFile g1) (controllerClass g1)) w
   end, Ok g1).
Proof.
  intros Hcrud Hread. unfold generate. rewrite Hcrud.
  unfold readFileSync. fold (controllerPath g1). rewrite Hread.
  now destruct (registryPatch g1 code).
Qed.

Lemma generate_Ok (g g1 : ControllerGen) (w w1 : World) :
  generate g w = (w1, Ok g1) ->
  (if Js.truthyS (model (config g)) then addCRUDOperations g else Ok (tt, g)) = Ok (tt, g1) /\
  exists code,
    files (writeFile (controllerPath g1) (renderFile (controllerFile g1) (controllerClass g1)) w)
      (registryFile g1) = Some code.
Proof.
  unfold generate.
  destruct (if Js.truthyS (model (config g)) then addCRUDOperations g else Ok (tt, g))
    as [[[] g']|e]; [|discriminate].
  unfold readFileSync, controllerPath.
  destruct (files (writeFile (pathJoin [path g'; className (controllerClass g') ++ ".ts"])
                     (renderFile (controllerFile g') (controllerClass g')) w) (registryFile g'))
    as [code|] eqn:Hread; [|discriminate].
  intros H.
  assert (g' = g1) as <-.
  { destruct (registryPatch g' code); now injection H. }
  split; [reflexivity|]. now exists code.
Qed.





End GenerateTwice.



(** The registry of the sample project after one run and after two. *)
Example registry_after_two_runs :
  files (fst (Sample.run "profile" "Plain" "account"
                (fst (Sample.run "profile" "Plain" "account" Sample.project))))
    "src/api/v1/import.ts" =
  Some ("import {IndexController} from " ++ dq ++ "./controller/IndexController" ++ dq ++ ";" ++ nl ++
        "import {ProfileController} from " ++ dq ++ "./controller/account/ProfileController" ++ dq ++ ";" ++ nl ++
        "///<vesta:import/>" ++ nl ++ nl ++
        "export const controllers = {" ++ nl ++
        tab ++ tab ++ "index: IndexController," ++ nl ++
        tab ++ tab ++ "profile: ProfileController," ++ nl ++
        tab ++ tab ++ "///<vesta:expressController/>" ++ nl ++
        "};" ++ nl).
Proof. vm_compute. reflexivity. Qed.

(** ** The guard of the delete handler, for any fields *)

Section OwnershipSlips.

Context {E : Externals}.

(** X2: whatever the owner-verified fields are, the guard that
    [getDeleteCode] emits is made of one and the same comparison, repeated
    once per field: the comma-joined list of the fields against
    [authUser.id]. *)
Theorem delete_guard_repeats_the_joined_fields :
  forall (g : ControllerGen),
    ownerVerifiedFields g <> [] ->
    exists before after : string,
      codeOf (getDeleteCode g) =
      Ok (before ++
          "if (!isAdmin && (!result.items.length || " ++
          Js.join " || "
            (repeat ("result.items[0]." ++ Js.join "," (ownerVerifiedFields g) ++ " !== authUser.id")
               (List.length (ownerVerifiedFields g))) ++
          ")) {" ++ after).
Proof.
  intros g Hne.
  pose (beforeOf := fun auth M : string =>
          auth ++ "const id = this.retrieveId(req);" ++ nl ++
          "        const result = await " ++ M ++ ".find<I" ++ M ++ ">(id);" ++ nl ++
          "        ").
  pose (afterOf := fun (M inst : string) (d : list string) =>
          nl ++
          "            throw new DatabaseError(Err.Code.DBNoRecord, null);" ++ nl ++
          "        }" ++ nl ++
          "        const " ++ inst ++ " = new " ++ M ++ "(result.items[0]);" ++
          Js.join (nl ++ tab ++ tab) d ++ nl ++
          "        const dResult = await " ++ inst ++ ".remove();" ++ nl ++
          "        res.json(dResult);").
  assert (forall (auth M inst guard : string) (d : list string),
            auth ++ "const id = this.retrieveId(req);" ++ nl ++
            "        const result = await " ++ M ++ ".find<I" ++ M ++ ">(id);" ++
            (nl ++
             "        if (!isAdmin && (!result.items.length || " ++ guard ++ ")) {" ++ nl ++
             "            throw new DatabaseError(Err.Code.DBNoRecord, null);" ++ nl ++
             "        }") ++ nl ++
            "        const " ++ inst ++ " = new " ++ M ++ "(result.items[0]);" ++
            Js.join (nl ++ tab ++ tab) d ++ nl ++
            "        const dResult = await " ++ inst ++ ".remove();" ++ nl ++
            "        res.json(dResult);"
            = beforeOf auth M ++ "if (!isAdmin && (!result.items.length || " ++ guard ++ ")) {" ++
              afterOf M inst d)
    as Hshape.
  { intros auth M inst guard d. unfold beforeOf, afterOf. same_text StrFacts.app_assoc. }
  unfold getDeleteCode. rewrite bind_this. cbv zeta.
  rewrite delete_owner_checks.
  assert (hasLength (repeat ("result.items[0]." ++ Js.join "," (ownerVerifiedFields g) ++ " !== authUser.id")
                       (List.length (ownerVerifiedFields g))) = true) as ->.
  { unfold hasLength. rewrite repeat_length.
    destruct (ownerVerifiedFields g); [congruence | reflexivity]. }
  destruct (getFieldsByType (pascalCase (model (config g))) FieldType.File) as [fields|];
    unfold getAuthUserCode; unfold bind, ret, addImport, modify, this; cbv beta iota;
    cbn [codeOf];
    eexists (beforeOf _ _), (afterOf _ _ _); f_equal; apply Hshape.
Qed.

End OwnershipSlips.

Lemma delete_guard_repeats_the_joined_fields_witness :
  exists before after : string,
    codeOf (@getDeleteCode Sample.lib (Sample.ready "Note" "note" "/")) =
    Ok (before ++
        "if (!isAdmin && (!result.items.length || " ++
        "result.items[0].userId,editorId !== authUser.id || result.items[0].userId,editorId !== authUser.id" ++
        ")) {" ++ after).
Proof.
  exact (@delete_guard_repeats_the_joined_fields Sample.lib (Sample.ready "Note" "note" "/")
           ltac:(discriminate)).
Defined.

Lemma update_guard_never_rejects_an_owner_witness :
  runClauses (mkRequest false 1 (fun _ => 2) (fun _ => true) true)
    [AuthBinding; Construct; ForceOwner ["userId"]; Validate; Lookup; RecordGuard ["userId"];
     Persist; Redact ""; Respond]
    (fun _ => 2) =
  Updated (instanceValidated (mkRequest false 1 (fun _ => 2) (fun _ => true) true) ["userId"]).
Proof.
  exact (proj2 (proj2 (@update_guard_never_rejects_an_owner Sample.lib
                         (Sample.ready "Account" "account" "/")
                         (Sample.ready "Account" "account" "/") ""
                         (mkRequest false 1 (fun _ => 2) (fun _ => true) true)
                         ltac:(discriminate) eq_refl eq_refl eq_refl))).
Defined.

(** * Further properties of the generator *)

(** ** The routing path and the access-control identifier *)

(** One more slash in a run of slashes does not show after collapsing. *)
Lemma collapse_extra_slash (x y : string) :
  Js.collapseSlashes (x ++ "/" ++ "/" ++ y) = Js.collapseSlashes (x ++ "/" ++ y).
Proof.
  induction x as [|a x IH].
  - reflexivity.
  - cbn [String.append] in *.
    assert (exists d t1 t2, x ++ String "/" (String "/" y) = String d t1 /\
                            x ++ String "/" y = String d t2) as [d [t1 [t2 [H1 H2]]]].
    { destruct x as [|b x']; cbn [String.append]; eauto. }
    rewrite H1, H2 in *. rewrite !collapse_cons. now rewrite IH.
Qed.

Lemma withLeadingSlash_slash (r : string) :
  withLeadingSlash ("/" ++ r) = "/" ++ r.
Proof. reflexivity. Qed.

Section RoutingSlashes.

Context {E : Externals}.

(** The routing path does not depend on a slash in front of the route base
    or behind it: [account], [/account], [account/] and [/account/] are
    routed alike. *)
Theorem routing_path_ignores_outer_slashes :
  forall (m nm r v : string),
    normalizeRoutingPath (mkConfig m nm ("/" ++ r) v) = normalizeRoutingPath (mkConfig m nm r v) /\
    normalizeRoutingPath (mkConfig m nm (r ++ "/") v) = normalizeRoutingPath (mkConfig m nm r v).
Proof.
  intros m nm r v. rewrite !normalizeRoutingPath_spec. cbn [route name]. split.
  - unfold withLeadingSlash. cbn [Js.firstCharIs String.append].
    rewrite Ascii.eqb_refl.
    destruct r as [|c r']; [reflexivity|]. cbn [Js.firstCharIs].
    destruct (Ascii.eqb "/" c) eqn:Hc; [|reflexivity].
    apply Ascii.eqb_eq in Hc. subst c. reflexivity.
  - destruct r as [|c r']; [reflexivity|].
    assert (withLeadingSlash (String c r' ++ "/") = withLeadingSlash (String c r') ++ "/") as ->.
    { unfold withLeadingSlash. cbn [String.append Js.firstCharIs].
      now destruct (Ascii.eqb "/" c). }
    rewrite StrFacts.app_assoc. apply collapse_extra_slash.
Qed.

End RoutingSlashes.

(** The routing paths of four spellings of the same route base. *)
Example account_spellings :
  map (fun r => @normalizeRoutingPath Sample.lib (mkConfig "User" "profile" r "v1"))
      ["account"; "/account"; "account/"; "/account/"; "//account//"]
  = ["/account/profile"; "/account/profile"; "/account/profile"; "/account/profile";
     "/account/profile"].
Proof. reflexivity. Qed.

(** *** The dotted identifier *)

Lemma dots_no_slash (s : string) : Js.noChar "/" (Js.slashRunsToDot s) = true.
Proof.
  induction s as [|c t IH]; [reflexivity|].
  cbn [Js.slashRunsToDot]. destruct (Ascii.eqb c "/") eqn:Hc.
  - destruct t as [|d t']; [reflexivity|].
    destruct (Ascii.eqb d "/"); [exact IH|].
    cbn [Js.noChar]. now rewrite IH.
  - cbn [Js.noChar]. rewrite IH, Ascii.eqb_sym, Hc. reflexivity.
Qed.

Lemma noChar_drop (c : ascii) (n : nat) (s : string) :
  Js.noChar c s = true -> Js.noChar c (Js.drop n s) = true.
Proof.
  revert s. induction n as [|n IH]; intros s H; [now destruct s|].
  destruct s as [|d t]; [reflexivity|]. cbn [Js.drop]. apply IH.
  cbn [Js.noChar] in H. now apply andb_true_iff in H as [_ H].
Qed.

Lemma dots_first (s : string) :
  Js.firstCharIs "/" s = true -> Js.firstCharIs "." (Js.slashRunsToDot s) = true.
Proof.
  induction s as [|c t IH]; [discriminate|].
  cbn [Js.firstCharIs]. intros Hc. rewrite Ascii.eqb_sym in Hc.
  cbn [Js.slashRunsToDot]. rewrite Hc.
  destruct t as [|d t']; [reflexivity|].
  destruct (Ascii.eqb d "/") eqn:Hd; [|reflexivity].
  apply IH. cbn [Js.firstCharIs]. now rewrite Ascii.eqb_sym.
Qed.

Lemma collapse_nonempty (t : string) (c : ascii) :
  Js.collapseSlashes (String c t) <> "".
Proof.
  revert c. induction t as [|d t IH]; intros c; [discriminate|].
  rewrite collapse_cons.
  destruct (Ascii.eqb c "/" && Ascii.eqb d "/"); [apply IH | discriminate].
Qed.

(** Turning runs of slashes into dots gives the same text before and after
    the runs are collapsed. *)
Lemma dots_cons (c : ascii) (t : string) :
  Js.slashRunsToDot (String c t) =
  if Ascii.eqb c "/" then
    match t with
    | String d _ => if Ascii.eqb d "/" then Js.slashRunsToDot t
                    else String "." (Js.slashRunsToDot t)
    | EmptyString => String "." EmptyString
    end
  else String c (Js.slashRunsToDot t).
Proof. reflexivity. Qed.

Lemma dots_collapse (s : string) :
  Js.slashRunsToDot (Js.collapseSlashes s) = Js.slashRunsToDot s.
Proof.
  induction s as [|c t IH]; [reflexivity|].
  destruct t as [|d t']; [reflexivity|].
  rewrite collapse_cons, (dots_cons c (String d t')).
  destruct (Ascii.eqb c "/") eqn:Hc; cbn [andb].
  - destruct (Ascii.eqb d "/") eqn:Hd; [exact IH|].
    pose proof (firstChar_collapse "/" (String d t')) as Hfirst.
    cbn [Js.firstCharIs] in Hfirst.
    rewrite <- IH.
    destruct (Js.collapseSlashes (String d t')) as [|x r] eqn:Hx;
      [now apply collapse_nonempty in Hx|].
    cbn [Js.firstCharIs] in Hfirst.
    rewrite (dots_cons c (String x r)), Hc.
    assert (Ascii.eqb x "/" = false) as ->
      by (rewrite Ascii.eqb_sym, Hfirst, Ascii.eqb_sym; exact Hd).
    reflexivity.
  - rewrite dots_cons, Hc. now rewrite IH.
Qed.

Lemma dots_plain (e : string) :
  Js.noChar "/" e = true -> Js.slashRunsToDot e = e.
Proof.
  induction e as [|c e IH]; intros H; [reflexivity|].
  cbn [Js.noChar] in H. apply andb_true_iff in H as [Hc He].
  apply negb_true_iff in Hc. rewrite Ascii.eqb_sym in Hc.
  cbn [Js.slashRunsToDot]. rewrite Hc. now rewrite IH.
Qed.

Lemma dots_plain_app (a b : string) :
  Js.noChar "/" a = true -> Js.slashRunsToDot (a ++ b) = a ++ Js.slashRunsToDot b.
Proof.
  induction a as [|c a IH]; intros H; [reflexivity|].
  cbn [Js.noChar] in H. apply andb_true_iff in H as [Hc Ha].
  apply negb_true_iff in Hc. rewrite Ascii.eqb_sym in Hc.
  cbn [String.append Js.slashRunsToDot]. rewrite Hc. now rewrite IH.
Qed.

Lemma dots_slash_plain (e : string) :
  Js.noChar "/" e = true -> Js.slashRunsToDot ("/" ++ e) = "." ++ e.
Proof.
  intros H. cbn [String.append Js.slashRunsToDot]. rewrite Ascii.eqb_refl.
  destruct e as [|c e']; [reflexivity|].
  pose proof (dots_plain _ H) as Hd.
  cbn [Js.noChar] in H. apply andb_true_iff in H as [Hc _].
  apply negb_true_iff in Hc. rewrite Ascii.eqb_sym in Hc. rewrite Hc.
  now rewrite Hd.
Qed.

Lemma collapse_slash_plain (e : string) :
  Js.noChar "/" e = true -> Js.collapseSlashes ("/" ++ e) = "/" ++ e.
Proof.
  intros H. destruct e as [|c e']; [reflexivity|].
  cbn [String.append]. rewrite collapse_cons.
  pose proof (collapse_plain _ H) as Hp.
  cbn [Js.noChar] in H. apply andb_true_iff in H as [Hc _].
  apply negb_true_iff in Hc. rewrite Ascii.eqb_sym in Hc. rewrite Hc, andb_false_r.
  now rewrite Hp.
Qed.

Lemma collapse_plain_app (a b : string) :
  Js.noChar "/" a = true ->
  Js.collapseSlashes (a ++ "/" ++ b) = a ++ Js.collapseSlashes ("/" ++ b).
Proof.
  induction a as [|c a IH]; intros H; [reflexivity|].
  cbn [Js.noChar] in H. apply andb_true_iff in H as [Hc Ha].
  apply negb_true_iff in Hc. rewrite Ascii.eqb_sym in Hc.
  cbn [String.append].
  destruct (a ++ String "/" b) as [|d t] eqn:Ht; [destruct a; discriminate|].
  rewrite collapse_cons, Hc. cbn [andb]. rewrite <- Ht.
  cbn [String.append] in IH. now rewrite IH.
Qed.

Section AclIdentifier.

Context {E : Externals}.

(** The access-control identifier that guards the routes holds no slash,
    and it is the raw path (route base with its leading slash, a slash, the
    camel-cased name) with every run of slashes turned into one dot and the
    dot in front taken off: collapsing the slashes first changes nothing. *)
Theorem acl_identifier_is_dotted :
  forall cfg : IControllerConfig,
    Js.noChar "/" (aclOf (normalizeRoutingPath cfg)) = true /\
    aclOf (normalizeRoutingPath cfg) =
    Js.slice1 (Js.slashRunsToDot (withLeadingSlash (route cfg) ++ "/" ++ camelCase (name cfg))).
Proof.
  intros cfg. split.
  - unfold aclOf.
    destruct (Js.firstCharIs "." (Js.slashRunsToDot (normalizeRoutingPath cfg))).
    + apply noChar_drop, dots_no_slash.
    + apply dots_no_slash.
  - unfold aclOf. rewrite normalizeRoutingPath_spec, dots_collapse.
    rewrite dots_first; [reflexivity|].
    unfold withLeadingSlash.
    destruct (route cfg) as [|c r]; [reflexivity|].
    cbn [Js.firstCharIs]. now destruct (Ascii.eqb "/" c) eqn:Hc.
Qed.

(** For a route base and a name without slashes the routing path is
    [/route/name] and the access-control identifier is [route.name]; with
    the empty route base they are [/name] and [name]. *)
Theorem plain_route_gives_dotted_identifier :
  forall cfg : IControllerConfig,
    Js.noChar "/" (route cfg) = true ->
    Js.noChar "/" (camelCase (name cfg)) = true ->
    normalizeRoutingPath cfg =
      (if Js.truthyS (route cfg) then "/" ++ route cfg ++ "/" ++ camelCase (name cfg)
       else "/" ++ camelCase (name cfg)) /\
    aclOf (normalizeRoutingPath cfg) =
      (if Js.truthyS (route cfg) then route cfg ++ "." ++ camelCase (name cfg)
       else camelCase (name cfg)).
Proof.
  intros cfg Hr He.
  assert (normalizeRoutingPath cfg =
            (if Js.truthyS (route cfg) then "/" ++ route cfg ++ "/" ++ camelCase (name cfg)
             else "/" ++ camelCase (name cfg))) as Hpath.
  { rewrite normalizeRoutingPath_spec. unfold withLeadingSlash.
    destruct (route cfg) as [|c r] eqn:Hroute.
    - cbn [Js.firstCharIs Js.truthyS String.append].
      change (String "/" (String "/" (camelCase (name cfg))))
        with ("" ++ "/" ++ "/" ++ camelCase (name cfg)).
      rewrite collapse_extra_slash. now apply collapse_slash_plain.
    - cbn [Js.firstCharIs Js.truthyS].
      pose proof Hr as Hr'. cbn [Js.noChar] in Hr'.
      apply andb_true_iff in Hr' as [Hc _]. apply negb_true_iff in Hc. rewrite Hc.
      rewrite StrFacts.app_assoc.
      change ("/" ++ String c r ++ "/" ++ camelCase (name cfg))
        with (String "/" (String c (r ++ "/" ++ camelCase (name cfg)))).
      rewrite collapse_cons. rewrite (Ascii.eqb_sym c "/"), Hc, andb_false_r.
      change (String c (r ++ "/" ++ camelCase (name cfg)))
        with (String c r ++ "/" ++ camelCase (name cfg)).
      rewrite (collapse_plain_app (String c r)) by exact Hr.
      now rewrite collapse_slash_plain. }
  split; [exact Hpath|].
  rewrite Hpath. unfold aclOf.
  destruct (route cfg) as [|c r] eqn:Hroute; cbn [Js.truthyS].
  - rewrite dots_slash_plain by exact He. reflexivity.
  - pose proof Hr as Hr'. cbn [Js.noChar] in Hr'.
    apply andb_true_iff in Hr' as [Hc _]. apply negb_true_iff in Hc.
    change ("/" ++ String c r ++ "/" ++ camelCase (name cfg))
      with (String "/" (String c (r ++ "/" ++ camelCase (name cfg)))).
    rewrite dots_cons, Ascii.eqb_refl, (Ascii.eqb_sym c "/"), Hc.
    change (String c (r ++ "/" ++ camelCase (name cfg)))
      with (String c r ++ "/" ++ camelCase (name cfg)).
    rewrite (dots_plain_app (String c r)) by exact Hr.
    rewrite dots_slash_plain by exact He. reflexivity.
Qed.

End AclIdentifier.

Lemma plain_route_gives_dotted_identifier_witness :
  @normalizeRoutingPath Sample.lib (mkConfig "User" "profile" "account" "v1") = "/account/profile" /\
  aclOf (@normalizeRoutingPath Sample.lib (mkConfig "User" "profile" "account" "v1"))
  = "account.profile".
Proof.
  exact (@plain_route_gives_dotted_identifier Sample.lib
           (mkConfig "User" "profile" "account" "v1") eq_refl eq_refl).
Defined.

(** A route base of several segments, and the default route base. *)
Example dotted_identifiers :
  aclOf (@normalizeRoutingPath Sample.lib (mkConfig "User" "profile" "/admin//account/" "v1"))
  = "admin.account.profile" /\
  aclOf (@normalizeRoutingPath Sample.lib (mkConfig "User" "profile" "/" "v1")) = "profile".
Proof. split; reflexivity. Qed.

(** ** Generation only adds *)

Lemma methodGrows_refl (m : MethodGen) : methodGrows m m.
Proof.
  repeat split; exists []; now rewrite app_nil_r.
Qed.

Lemma methodGrows_trans (a b c : MethodGen) :
  methodGrows a b -> methodGrows b c -> methodGrows a c.
Proof.
  intros (Hn & Ha & Hs & [ps Hp] & [cs Hc]) (Hn' & Ha' & Hs' & [ps' Hp'] & [cs' Hc']).
  repeat split; try congruence.
  - exists (ps ++ ps')%list. now rewrite Hp', Hp, <- List.app_assoc.
  - exists (cs ++ cs')%list. now rewrite Hc', Hc, <- List.app_assoc.
Qed.

Lemma Forall2_methodGrows_refl (ms : list MethodGen) : Forall2 methodGrows ms ms.
Proof. induction ms; constructor; [apply methodGrows_refl | assumption]. Qed.

Lemma Forall2_methodGrows_trans (xs ys zs : list MethodGen) :
  Forall2 methodGrows xs ys -> Forall2 methodGrows ys zs -> Forall2 methodGrows xs zs.
Proof.
  intros H. revert zs. induction H as [|x y xs ys Hxy _ IH]; intros zs Hz.
  - inversion Hz. constructor.
  - inversion Hz as [|y' z ys' zs' Hyz Hrest]; subst. constructor.
    + eapply methodGrows_trans; eassumption.
    + now apply IH.
Qed.

Lemma methodsGrow_refl (ms : list MethodGen) : methodsGrow ms ms.
Proof.
  exists ms, []. split; [now rewrite app_nil_r | apply Forall2_methodGrows_refl].
Qed.

Lemma methodsGrow_trans (xs ys zs : list MethodGen) :
  methodsGrow xs ys -> methodsGrow ys zs -> methodsGrow xs zs.
Proof.
  intros (o1 & n1 & -> & H1) (o2 & n2 & -> & H2).
  apply Forall2_app_inv_l in H2 as (o2a & o2b & Ha & Hb & ->).
  exists o2a, (o2b ++ n2)%list. split; [now rewrite List.app_assoc|].
  eapply Forall2_methodGrows_trans; eassumption.
Qed.

(** Adding a method keeps the others as they are. *)
Lemma methodsGrow_add (ms : list MethodGen) (m : MethodGen) :
  methodsGrow ms (ms ++ [m]).
Proof. exists ms, [m]. split; [reflexivity | apply Forall2_methodGrows_refl]. Qed.

(** Updating one method by a growing change keeps the others as they are. *)
Lemma methodsGrow_updateAt (i : nat) (f : MethodGen -> MethodGen) (ms : list MethodGen) :
  (forall m, methodGrows m (f m)) -> methodsGrow ms (updateAt i f ms).
Proof.
  intros Hf. exists (updateAt i f ms), []. split; [now rewrite app_nil_r|].
  revert i. induction ms as [|m ms IH]; intros i; [destruct i; constructor|].
  destruct i as [|i]; cbn [updateAt]; constructor;
    auto using methodGrows_refl, Forall2_methodGrows_refl.
Qed.

Lemma methodGrows_addParameter (p : MethodParameter) (m : MethodGen) :
  methodGrows m (MethodGen_addParameter p m).
Proof.
  repeat split; [now exists [p] | exists []; cbn; now rewrite app_nil_r].
Qed.

Lemma methodGrows_appendContent (code : string) (m : MethodGen) :
  methodGrows m (MethodGen_appendContent code m).
Proof.
  repeat split; [exists []; cbn; now rewrite app_nil_r | now exists [code]].
Qed.

Lemma extends_refl (g : ControllerGen) : extends g g.
Proof.
  repeat split; [exists []; now rewrite app_nil_r | apply methodsGrow_refl].
Qed.

Lemma extends_trans (a b c : ControllerGen) : extends a b -> extends b c -> extends a c.
Proof.
  intros (H1 & H2 & H3 & H4 & H5 & H6 & H7 & H8 & H9 & H10 & H11 & [m Him] & Hms)
         (K1 & K2 & K3 & K4 & K5 & K6 & K7 & K8 & K9 & K10 & K11 & [m' Him'] & Hms').
  repeat split; try congruence.
  - exists (m ++ m')%list. now rewrite Him', Him, <- List.app_assoc.
  - eapply methodsGrow_trans; eassumption.
Qed.

Section OnlyExtends.

Context {E : Externals}.

Lemma onlyExtends_ret {A : Type} (a : A) : onlyExtends (ret a).
Proof. intros g x g' H. injection H as _ <-. apply extends_refl. Qed.

Lemma onlyExtends_throw {A : Type} (e : JsError) : onlyExtends (@throw A e).
Proof. intros g x g' H. discriminate. Qed.

Lemma onlyExtends_bind {A B : Type} (m : GenM A) (k : A -> GenM B) :
  onlyExtends m -> (forall a, onlyExtends (k a)) -> onlyExtends (bind m k).
Proof.
  intros Hm Hk g b g' H. unfold bind in H.
  destruct (m g) as [[a g1]|e] eqn:Hmg; [|discriminate].
  eapply extends_trans; [eapply Hm | eapply Hk]; eassumption.
Qed.

Lemma onlyExtends_this {A : Type} (k : ControllerGen -> GenM A) :
  (forall s, onlyExtends (k s)) -> onlyExtends (bind this k).
Proof. intros Hk g a g' H. exact (Hk g g a g' H). Qed.

Lemma onlyExtends_modify (f : ControllerGen -> ControllerGen) :
  (forall g, extends g (f g)) -> onlyExtends (modify f).
Proof. intros Hf g a g' H. injection H as _ <-. apply Hf. Qed.

Lemma onlyExtends_addImport (names : list string) (from : string) :
  onlyExtends (addImport names from).
Proof.
  apply onlyExtends_modify. intros g.
  repeat split; [now exists [(names, from)] | apply methodsGrow_refl].
Qed.

Lemma onlyExtends_forDownM {A : Type} (n : nat) (body : nat -> GenM (list A)) :
  (forall i, onlyExtends (body i)) -> onlyExtends (forDownM n body).
Proof.
  intros Hb. induction n as [|n IH]; [apply onlyExtends_ret|].
  cbn [forDownM]. apply onlyExtends_bind; [apply Hb|]. intros xs.
  apply onlyExtends_bind; [exact IH|]. intros ys. apply onlyExtends_ret.
Qed.

Lemma onlyExtends_setSecurity (rel : option IModelFields) (owner conf : list string) :
  onlyExtends (modify (setSecurity rel owner conf)).
Proof.
  apply onlyExtends_modify. intros g.
  repeat split; [exists []; now rewrite app_nil_r | apply methodsGrow_refl].
Qed.

Lemma onlyExtends_appendContent (method : nat) (code : string) :
  onlyExtends (appendContent method code).
Proof.
  apply onlyExtends_modify. intros g.
  repeat split; [exists []; now rewrite app_nil_r|].
  apply methodsGrow_updateAt, methodGrows_appendContent.
Qed.

Lemma onlyExtends_addResponseMethod (name : string) :
  onlyExtends (addResponseMethod name).
Proof.
  intros g a g' H.
  unfold addResponseMethod, bind, this, modify, ret, ClassGen_addMethod in H.
  cbv beta iota zeta in H. injection H as _ <-.
  repeat split; [exists []; now rewrite app_nil_r|].
  cbn [controllerClass setControllerClass ClassGen_updateMethod methods].
  eapply methodsGrow_trans; [apply methodsGrow_add|].
  eapply methodsGrow_trans; [apply methodsGrow_updateAt, methodGrows_addParameter|].
  eapply methodsGrow_trans; [apply methodsGrow_updateAt, methodGrows_addParameter|].
  apply methodsGrow_updateAt, methodGrows_addParameter.
Qed.

(** The steps of which the handler-body methods are made. *)
Ltac only_extends :=
  repeat lazymatch goal with
    | |- onlyExtends (ret _) => apply onlyExtends_ret
    | |- onlyExtends (throw _) => apply onlyExtends_throw
    | |- onlyExtends (addImport _ _) => apply onlyExtends_addImport
    | |- onlyExtends (modify (setSecurity _ _ _)) => apply onlyExtends_setSecurity
    | |- onlyExtends (appendContent _ _) => apply onlyExtends_appendContent
    | |- onlyExtends (addResponseMethod _) => apply onlyExtends_addResponseMethod
    | |- onlyExtends (forDownM _ _) => apply onlyExtends_forDownM; intros ?
    | |- onlyExtends (bind this _) => apply onlyExtends_this; intros ?; cbv zeta
    | |- onlyExtends (bind _ _) => apply onlyExtends_bind; [|intros ?]
    | |- onlyExtends (match ?x with _ => _ end) => destruct x
    | |- onlyExtends _ => assumption
    end.

Lemma onlyExtends_getAuthUserCode : onlyExtends getAuthUserCode.
Proof. unfold getAuthUserCode. only_extends. Qed.

Lemma onlyExtends_getConfFieldRemovingCode (singleRecord : bool) :
  onlyExtends (getConfFieldRemovingCode singleRecord).
Proof. unfold getConfFieldRemovingCode. only_extends. Qed.

Lemma onlyExtends_getCountCode : onlyExtends getCountCode.
Proof. unfold getCountCode. only_extends. Qed.

Lemma onlyExtends_getQueryCode (isSingle : bool) : onlyExtends (getQueryCode isSingle).
Proof.
  pose proof onlyExtends_getAuthUserCode.
  pose proof (onlyExtends_getConfFieldRemovingCode true).
  pose proof (onlyExtends_getConfFieldRemovingCode false).
  destruct isSingle; cbn [getQueryCode];
    [unfold getQueryCodeForSingleInstance | unfold getQueryCodeForMultiInstance];
    only_extends.
Qed.

Lemma onlyExtends_getInsertCode : onlyExtends getInsertCode.
Proof.
  pose proof onlyExtends_getAuthUserCode.
  pose proof (onlyExtends_getConfFieldRemovingCode true).
  unfold getInsertCode. only_extends.
Qed.

Lemma onlyExtends_getUpdateCode : onlyExtends getUpdateCode.
Proof.
  pose proof onlyExtends_getAuthUserCode.
  pose proof (onlyExtends_getConfFieldRemovingCode true).
  unfold getUpdateCode. only_extends.
Qed.

Lemma onlyExtends_getDeleteCode : onlyExtends getDeleteCode.
Proof.
  pose proof onlyExtends_getAuthUserCode.
  unfold getDeleteCode. only_extends.
Qed.

Lemma onlyExtends_getUploadCode : onlyExtends getUploadCode.
Proof. unfold getUploadCode. only_extends. Qed.

Lemma onlyExtends_addCRUDOperations : onlyExtends addCRUDOperations.
Proof.
  pose proof onlyExtends_getCountCode.
  pose proof (onlyExtends_getQueryCode true).
  pose proof (onlyExtends_getQueryCode false).
  pose proof onlyExtends_getInsertCode.
  pose proof onlyExtends_getUpdateCode.
  pose proof onlyExtends_getDeleteCode.
  pose proof onlyExtends_getUploadCode.
  unfold addCRUDOperations. only_extends.
Qed.

(** Whenever [addCRUDOperations] returns, it has only added to the
    generator object: the configuration, the paths, the routing path, the
    file fields and the name, export flag and parent of the class are the
    ones it found, every import made before is still there in its place, and
    every method is still there with its name, its parameters and its
    statements, in their order, possibly followed by new ones. *)
Theorem generation_only_adds :
  forall (g g' : ControllerGen),
    addCRUDOperations g = Ok (tt, g') -> extends g g'.
Proof. intros g g' H. exact (onlyExtends_addCRUDOperations g tt g' H). Qed.

End OnlyExtends.

Lemma generation_only_adds_witness :
  extends (fst (@ControllerGen_new Sample.lib (mkConfig "Post" "profile" "account" "v1") Sample.project))
          (Runs.crud "Post" "profile" "account").
Proof.
  apply (@generation_only_adds Sample.lib). vm_compute. reflexivity.
Defined.

(** ** What [generate] and [init] write *)

Section Writes.

Context {E : Externals}.

Lemma extends_paths (g g' : ControllerGen) :
  extends g g' -> controllerPath g' = controllerPath g /\ registryFile g' = registryFile g.
Proof.
  intros (_ & Hv & Hp & _ & _ & _ & _ & Hn & _).
  unfold controllerPath, registryFile. now rewrite Hv, Hp, Hn.
Qed.

(** The generator object that [generate] goes on with is the one it got,
    extended. *)
Lemma crud_or_not_extends (g g' : ControllerGen) :
  (if Js.truthyS (model (config g)) then addCRUDOperations g else Ok (tt, g)) = Ok (tt, g') ->
  extends g g'.
Proof.
  destruct (Js.truthyS (model (config g))).
  - intros H. exact (onlyExtends_addCRUDOperations g tt g' H).
  - intros H. injection H as <-. apply extends_refl.
Qed.

(** [generate] writes the controller file and the registry file and nothing
    else: every other path holds what it held, no directory is created and no
    error is logged, whether [generate] returns or throws. *)
Theorem generate_writes_two_files_at_most :
  forall (g : ControllerGen) (w : World) (p : string),
    p <> controllerPath g ->
    p <> registryFile g ->
    files (fst (generate g w)) p = files w p /\
    dirs (fst (generate g w)) = dirs w /\
    errors (fst (generate g w)) = errors w.
Proof.
  intros g w p Hc Hr. unfold generate.
  destruct (if Js.truthyS (model (config g)) then addCRUDOperations g else Ok (tt, g))
    as [[[] g']|e] eqn:Hcrud; [|now repeat split].
  destruct (extends_paths g g' (crud_or_not_extends g g' Hcrud)) as [Hcp Hrf].
  fold (controllerPath g'). rewrite Hcp, Hrf. unfold readFileSync.
  destruct (files (writeFile (controllerPath g) (renderFile (controllerFile g') (controllerClass g')) w)
              (registryFile g)) as [code|].
  - destruct (registryPatch g' code); cbn [fst];
      rewrite ?files_writeFile_other by assumption; now repeat split.
  - cbn [fst]. rewrite files_writeFile_other by assumption. now repeat split.
Qed.

(** In a project without the registry file [src/api/<version>/import.ts],
    a command line that passes validation ends in the exception of
    [readFileSync]; by then the controller directory has been created and
    the controller file written, and they stay. *)
Theorem init_without_registry :
  forall (argParser : ArgParser) (w : World) (nm m : string) (g' : ControllerGen),
    argName argParser = Some nm ->
    Js.matchesNameRegexI nm = true ->
    argModel argParser = Some (AStr m) ->
    m <> "true" ->
    let g0 := fst (ControllerGen_new
                     (mkConfig m nm (getOr (argRoute argParser) "/")
                        (getOr (argVersion argParser) "v1")) w) in
    (if Js.truthyS m then addCRUDOperations g0 else Ok (tt, g0)) = Ok (tt, g') ->
    files w (registryFile g0) = None ->
    controllerPath g0 <> registryFile g0 ->
    snd (init argParser w) = Threw (ENOENT (registryFile g0)) /\
    files (fst (init argParser w)) (controllerPath g0)
    = Some (renderFile (controllerFile g') (controllerClass g')) /\
    dirs (fst (init argParser w)) = (dirs w ++ [path g0])%list /\
    errors (fst (init argParser w)) = errors w.
Proof.
  intros argParser w nm m g' Hname Hok Hmodel Hm g0 Hcrud Hreg Hpaths.
  assert (config g0 = mkConfig m nm (getOr (argRoute argParser) "/")
                        (getOr (argVersion argParser) "v1")) as Hcfg
    by apply ControllerGen_new_fields.
  assert (extends g0 g') as Hext
    by (apply crud_or_not_extends; rewrite Hcfg; exact Hcrud).
  destruct (extends_paths g0 g' Hext) as [Hcp Hrf].
  assert (exists w0, ControllerGen_new
                       (mkConfig m nm (getOr (argRoute argParser) "/")
                          (getOr (argVersion argParser) "v1")) w = (g0, w0) /\
                     files w0 = files w /\ dirs w0 = (dirs w ++ [path g0])%list /\
                     errors w0 = errors w) as (w0 & Hnew & Hf & Hd & He).
  { subst g0. unfold ControllerGen_new, ClassGen_addMethod. cbv beta iota zeta.
    eexists. split; [reflexivity|]. now repeat split. }
  clearbody g0.
  unfold init. rewrite Hname, Hmodel, Hok. cbn [getOr].
  destruct nm as [|c nm']; [discriminate|]. cbn [Js.truthyS negb orb].
  destruct (String.eqb_spec m "true") as [|_]; [contradiction|].
  rewrite Hnew.
  unfold generate. rewrite Hcfg. cbn [model]. rewrite Hcrud.
  fold (controllerPath g'). rewrite Hcp, Hrf. unfold readFileSync.
  rewrite files_writeFile_other by congruence.
  rewrite Hf, Hreg. cbn [fst snd].
  rewrite files_writeFile_same. now repeat split.
Qed.

(** A [--model] flag without a value (parsed as [true]), or with the text
    [true], aborts with the model error once the name has passed: nothing
    is constructed, created or written.  A model that is in fact called
    [true] cannot be generated. *)
Theorem model_flag_without_value_aborts :
  forall (argParser : ArgParser) (w : World) (nm : string),
    argName argParser = Some nm ->
    Js.matchesNameRegexI nm = true ->
    argModel argParser = Some ATrue \/ argModel argParser = Some (AStr "true") ->
    init argParser w = (Log_error modelError w, Aborted) /\
    files (fst (init argParser w)) = files w /\
    dirs (fst (init argParser w)) = dirs w /\
    errors (fst (init argParser w)) = (errors w ++ [modelError])%list.
Proof.
  intros argParser w nm Hname Hok Hmodel.
  assert (init argParser w = (Log_error modelError w, Aborted)) as Hinit.
  { unfold init. rewrite Hname, Hok.
    destruct nm as [|c nm']; [discriminate|]. cbn [Js.truthyS negb orb].
    destruct Hmodel as [-> | ->]; reflexivity. }
  rewrite Hinit. now repeat split.
Qed.


End Writes.

Lemma generate_writes_two_files_at_most_witness :
  files (fst (@generate Sample.lib
                (fst (@ControllerGen_new Sample.lib (mkConfig "Post" "profile" "account" "v1") Sample.project))
                Sample.project)) "package.json"
  = files Sample.project "package.json".
Proof.
  exact (proj1 (@generate_writes_two_files_at_most Sample.lib
                  (fst (@ControllerGen_new Sample.lib (mkConfig "Post" "profile" "account" "v1") Sample.project))
                  Sample.project "package.json"
                  ltac:(vm_compute; discriminate) ltac:(vm_compute; discriminate))).
Defined.

Lemma init_without_registry_witness :
  snd (@init Sample.lib (Sample.commandLine (Some "profile") (Some (AStr "Plain")) (Some "account"))
         Runs.emptyProject)
  = Threw (ENOENT "src/api/v1/import.ts") /\
  dirs (fst (@init Sample.lib (Sample.commandLine (Some "profile") (Some (AStr "Plain")) (Some "account"))
               Runs.emptyProject))
  = ["src/api/v1/controller/account"].
Proof.
  destruct (@init_without_registry Sample.lib
              (Sample.commandLine (Some "profile") (Some (AStr "Plain")) (Some "account"))
              Runs.emptyProject "profile" "Plain" (Runs.crud "Plain" "profile" "account")
              eq_refl eq_refl eq_refl ltac:(discriminate)
              ltac:(vm_compute; reflexivity) eq_refl ltac:(vm_compute; discriminate))
    as (H1 & _ & H3 & _).
  split; [exact H1 | exact H3].
Defined.

Lemma model_flag_without_value_aborts_witness :
  @init Sample.lib (Sample.commandLine (Some "profile") (Some ATrue) None) Sample.project
  = (Log_error modelError Sample.project, Aborted).
Proof.
  exact (proj1 (@model_flag_without_value_aborts Sample.lib
                  (Sample.commandLine (Some "profile") (Some ATrue) None) Sample.project
                  "profile" eq_refl eq_refl (or_introl eq_refl))).
Defined.


(** The bare controller of the sample project and the registry after it. *)
Example bare_controller_is_registered :
  files (fst (Sample.run "simple" "" "/" Sample.project)) "src/api/v1/controller/SimpleController.ts"
  = Some ("class SimpleController {" ++ nl ++ nl ++ "}") /\
  Js.find ("simple: SimpleController,")
    (match files (fst (Sample.run "simple" "" "/" Sample.project)) "src/api/v1/import.ts" with
     | Some text => text
     | None => ""
     end) <> None.
Proof. split; [vm_compute; reflexivity | vm_compute; discriminate]. Qed.

(** ** What the handler-body methods return and import *)

Lemma addImports_nil (g : ControllerGen) : addImports [] g = g.
Proof.
  unfold addImports. rewrite app_nil_r. destruct g as [? ? ? ? [? ?] ? ? ? ? ? ? ?].
  reflexivity.
Qed.

Lemma addImports_app (l l' : list ImportCall) (g : ControllerGen) :
  addImports l' (addImports l g) = addImports (l ++ l') g.
Proof. unfold addImports. cbn. now rewrite List.app_assoc. Qed.

Lemma base_addImports (l : list ImportCall) (g : ControllerGen) :
  base (addImports l g) = base g.
Proof. reflexivity. Qed.

(** The fields that make the base, one by one. *)
Lemma base_all (g s : ControllerGen) :
  base s = base g ->
  config s = config g /\ apiVersion s = apiVersion g /\
  confidentialFields s = confidentialFields g /\ filesFields s = filesFields g /\
  ownerVerifiedFields s = ownerVerifiedFields g /\ path s = path g /\
  rawName s = rawName g /\ relationsFields s = relationsFields g /\
  routeMethod s = routeMethod g /\ routingPath s = routingPath g.
Proof. unfold base. intros H. injection H. intros. repeat split; assumption. Qed.

(** Read the fields of [s] as those of [g]. *)
Ltac on_base Hs :=
  let c := fresh in let v := fresh in let cf := fresh in let ff := fresh in
  let ov := fresh in let p := fresh in let rn := fresh in let rf := fresh in
  let rm := fresh in let rp := fresh in
  destruct (base_all _ _ Hs) as (c & v & cf & ff & ov & p & rn & rf & rm & rp);
  try rewrite c; try rewrite v; try rewrite cf; try rewrite ff; try rewrite ov;
  try rewrite p; try rewrite rn; try rewrite rf; try rewrite rm; try rewrite rp;
  clear c v cf ff ov p rn rf rm rp.

Lemma forDown_flat {A : Type} (l : list string) (F : string -> list A) :
  Js.forDown (List.length l) (fun i => F (Js.at_ l i)) = flat_map F (rev l).
Proof.
  induction l as [|x l IH] using rev_ind; [reflexivity|].
  rewrite length_app, Nat.add_comm. cbn [List.length Nat.add Js.forDown].
  rewrite rev_app_distr. cbn [rev List.app flat_map].
  unfold Js.at_ at 1. rewrite nth_middle. f_equal.
  rewrite <- IH. apply forDown_ext. intros i Hi.
  unfold Js.at_. now rewrite app_nth1.
Qed.

Section Emits.

Context {E : Externals}.

Lemma emits_ret {A : Type} (a : A) (g : ControllerGen) : emits (ret a) g a [].
Proof. intros s _. unfold ret. now rewrite addImports_nil. Qed.

Lemma emits_addImport (names : list string) (from : string) (g : ControllerGen) :
  emits (addImport names from) g tt [(names, from)].
Proof. intros s _. reflexivity. Qed.

Lemma emits_bind {A B : Type} (m : GenM A) (k : A -> GenM B) (g : ControllerGen)
  (a : A) (b : B) (l l' : list ImportCall) :
  emits m g a l -> emits (k a) g b l' -> emits (bind m k) g b (l ++ l').
Proof.
  intros Hm Hk s Hs. unfold bind. rewrite (Hm s Hs).
  rewrite (Hk (addImports l s)) by (rewrite base_addImports; exact Hs).
  now rewrite addImports_app.
Qed.

(** A step that requests no import after one that does. *)
Lemma emits_then {A B : Type} (m : GenM A) (k : A -> GenM B) (g : ControllerGen)
  (a : A) (b : B) (l : list ImportCall) :
  emits m g a l -> emits (k a) g b [] -> emits (bind m k) g b l.
Proof.
  intros Hm Hk. rewrite <- (app_nil_r l). eapply emits_bind; [exact Hm | exact Hk].
Qed.

Lemma emits_this {A : Type} (k : ControllerGen -> GenM A) (g : ControllerGen)
  (a : A) (l : list ImportCall) :
  (forall s, base s = base g -> k s = k g) -> emits (k g) g a l -> emits (bind this k) g a l.
Proof.
  intros Hk Hg s Hs. unfold bind, this. rewrite (Hk s Hs). now apply Hg.
Qed.

Lemma emits_forDownM {A : Type} (n : nat) (body : nat -> GenM (list A)) (g : ControllerGen)
  (f : nat -> list A) (imps : nat -> list ImportCall) :
  (forall i, i < n -> emits (body i) g (f i) (imps i)) ->
  emits (forDownM n body) g (Js.forDown n f) (Js.forDown n imps).
Proof.
  induction n as [|n IH]; intros H; [apply emits_ret|].
  cbn [forDownM Js.forDown].
  eapply emits_bind; [apply H; lia|].
  rewrite <- (app_nil_r (Js.forDown n imps)).
  eapply emits_bind; [apply IH; intros i Hi; apply H; lia | apply emits_ret].
Qed.

Lemma hasLength_false {A : Type} (l : list A) : hasLength l = false -> l = [].
Proof. now destruct l. Qed.

Lemma redaction_text (singleRecord : bool) (removers : list string) :
  (if hasLength removers then
     if singleRecord then
       nl ++ tab ++ tab ++ Js.join (nl ++ tab ++ tab) removers
     else
       nl ++ tab ++ tab ++ "for (let i = result.items.length; i--;) {" ++ nl ++
       "            " ++ Js.join (nl ++ tab ++ tab ++ tab) removers ++ nl ++
       "        }"
   else "") = redaction singleRecord removers.
Proof. now destruct removers. Qed.

(** The redaction clause of a model whose relation fields are known: one
    statement for every confidential field of every related model, and one
    import for every related model that has such a field. *)
Lemma emits_getConfFieldRemovingCode (singleRecord : bool) (g : ControllerGen) :
  relationsKnown (model (config g)) (relationsFields g) = true ->
  emits (getConfFieldRemovingCode singleRecord) g
    (redaction singleRecord
       (relationRemovers (model (config g)) (if singleRecord then "0" else "i") (relationKeys g)))
    (relationImports (model (config g)) (path g) (relationKeys g)).
Proof.
  intros Hknown. unfold getConfFieldRemovingCode.
  apply emits_this.
  { intros s Hs. cbv zeta. rewrite !own_removers_empty. on_base Hs. reflexivity. }
  cbv zeta. rewrite own_removers_empty. cbn [List.app].
  unfold relationKeys, relationsKnown in *.
  destruct (relationsFields g) as [fields|];
    [|apply (emits_then _ _ _ []); [apply emits_ret | rewrite redaction_text; apply emits_ret]].
  set (index := if singleRecord then "0" else "i").
  set (keys := Object_keys fields) in *.
  pose (F := fun k : string =>
          match relation (getFieldMeta (model (config g)) k) with
          | Some r =>
              map (fun c => "delete (result.items[" ++ index ++ "]." ++ k ++ " as I" ++
                            relModel r ++ ")." ++ c ++ ";")
                  (rev (getConfidentialFields (relModel r)))
          | None => []
          end).
  pose (G := fun k : string =>
          match relation (getFieldMeta (model (config g)) k) with
          | Some r => if hasLength (getConfidentialFields (relModel r))
                      then [interfaceImport (path g) r] else []
          | None => []
          end).
  change (relationRemovers (model (config g)) index keys) with (flat_map F (rev keys)).
  change (relationImports (model (config g)) (path g) keys) with (flat_map G (rev keys)).
  apply (emits_then _ _ _ (flat_map F (rev keys)));
    [|rewrite redaction_text; apply emits_ret].
  rewrite <- (forDown_flat keys F), <- (forDown_flat keys G).
  apply emits_forDownM. intros i Hi.
  rewrite forallb_forall in Hknown. specialize (Hknown _ (at_in _ _ Hi)).
  unfold F, G.
  destruct (relation (getFieldMeta (model (config g)) (Js.at_ keys i))) as [r|];
    [|discriminate].
  rewrite (forDown_at (getConfidentialFields (relModel r))
             (fun c => "delete (result.items[" ++ index ++ "]." ++ Js.at_ keys i ++ " as I" ++
                       relModel r ++ ")." ++ c ++ ";")).
  destruct (hasLength (getConfidentialFields (relModel r))) eqn:Hconf.
  - eapply emits_then; [apply emits_addImport | apply emits_ret].
  - rewrite (hasLength_false _ Hconf). apply emits_ret.
Qed.

End Emits.

(** ** Redaction of related models *)

Lemma concat_empty_cons (x : string) (l : list string) :
  String.concat "" (x :: l) = x ++ String.concat "" l.
Proof. destruct l; cbn [String.concat]; [now rewrite StrFacts.app_nil_r | reflexivity]. Qed.

Lemma concat_empty_app (xs ys : list string) :
  String.concat "" (xs ++ ys) = String.concat "" xs ++ String.concat "" ys.
Proof.
  induction xs as [|x xs IH]; [reflexivity|].
  cbn [List.app]. rewrite !concat_empty_cons, IH. now rewrite StrFacts.app_assoc.
Qed.

Section RelatedRedaction.

Context {E : Externals}.

(** For a model whose relation fields the schema provider knows, the
    redaction clause deletes every confidential field of every related
    model, from item 0 of a single-record result and from every item of a
    collection in a loop, and the interface of every related model with such a
    field is imported. *)
Theorem related_confidential_fields_are_deleted :
  forall (g : ControllerGen) (singleRecord : bool),
    relationsKnown (model (config g)) (relationsFields g) = true ->
    getConfFieldRemovingCode singleRecord g =
      Ok (redaction singleRecord
            (relationRemovers (model (config g)) (if singleRecord then "0" else "i")
               (relationKeys g)),
          addImports (relationImports (model (config g)) (path g) (relationKeys g)) g) /\
    (forall (k : string) (r : IRelation) (c : string),
        In k (relationKeys g) ->
        relation (getFieldMeta (model (config g)) k) = Some r ->
        In c (getConfidentialFields (relModel r)) ->
        In ("delete (result.items[" ++ (if singleRecord then "0" else "i") ++ "]." ++ k ++
            " as I" ++ relModel r ++ ")." ++ c ++ ";")
           (relationRemovers (model (config g)) (if singleRecord then "0" else "i")
              (relationKeys g)) /\
        In (interfaceImport (path g) r)
           (relationImports (model (config g)) (path g) (relationKeys g))).
Proof.
  intros g singleRecord Hknown. split.
  - now apply emits_getConfFieldRemovingCode.
  - intros k r c Hk Hr Hc. split.
    + unfold relationRemovers. apply in_flat_map. exists k.
      split; [rewrite <- in_rev; exact Hk|].
      rewrite Hr. apply in_map_iff. exists c. split; [reflexivity|].
      rewrite <- in_rev. exact Hc.
    + unfold relationImports. apply in_flat_map. exists k.
      split; [rewrite <- in_rev; exact Hk|].
      rewrite Hr. destruct (getConfidentialFields (relModel r)); [contradiction|].
      now left.
Qed.

Lemma removers_target_result (M index : string) (keys : list string) :
  Forall (fun stmt => Js.startsWith ("delete (result.items[" ++ index ++ "].") stmt = true)
    (relationRemovers M index keys).
Proof.
  apply Forall_forall. intros stmt Hin. unfold relationRemovers in Hin.
  apply in_flat_map in Hin as [k [_ Hin]].
  destruct (relation (getFieldMeta M k)) as [r|]; [|contradiction].
  apply in_map_iff in Hin as [c [<- _]].
  assert ("delete (result.items[" ++ index ++ "]." ++ k ++ " as I" ++ relModel r ++ ")." ++ c ++ ";"
          = ("delete (result.items[" ++ index ++ "].") ++
            (k ++ " as I" ++ relModel r ++ ")." ++ c ++ ";")) as ->
    by same_text StrFacts.app_assoc.
  apply StrFacts.startsWith_app.
Qed.

(** The update handler applies its redaction statements to [result], the
    record it looked up before the update, and responds with [uResult], the
    outcome of the update, which no statement touches; the create handler
    applies them to [result] and responds with [result]. *)
Theorem update_redacts_result_and_sends_uResult :
  forall g : ControllerGen,
    relationsKnown (model (config g)) (relationsFields g) = true ->
    let M := pascalCase (model (config g)) in
    let inst := camelCase M in
    let removers := relationRemovers (model (config g)) "0" (relationKeys g) in
    (exists before : string,
        codeOf (getUpdateCode g) =
        Ok (before ++ nl ++
            "        const uResult = await " ++ inst ++ ".update<I" ++ M ++ ">();" ++
            redaction true removers ++ nl ++
            "        res.json(uResult);")) /\
    (exists before : string,
        codeOf (getInsertCode g) =
        Ok (before ++ nl ++
            "        const result = await " ++ inst ++ ".insert<I" ++ M ++ ">();" ++
            redaction true removers ++ nl ++
            "        res.json(result);")) /\
    Forall (fun stmt => Js.startsWith "delete (result.items[0]." stmt = true) removers.
Proof.
  intros g Hknown M inst removers.
  pose proof (emits_getConfFieldRemovingCode true g Hknown g eq_refl) as Hconf.
  fold removers in Hconf.
  split; [|split].
  - rewrite (getUpdateCode_clauses g _ _ Hconf). cbn [codeOf]. fold M inst.
    assert (forall cs, renderClauses M inst (cs ++ [Persist; Redact (redaction true removers); Respond])
                       = renderClauses M inst cs ++ nl ++
                         "        const uResult = await " ++ inst ++ ".update<I" ++ M ++ ">();" ++
                         redaction true removers ++ nl ++ "        res.json(uResult);") as Hend.
    { intros cs. unfold renderClauses. rewrite map_app, concat_empty_app. f_equal.
      cbn [map clauseText]. rewrite !concat_empty_cons. cbn [String.concat].
      rewrite StrFacts.app_nil_r. now rewrite !StrFacts.app_assoc. }
    destruct (ownerVerifiedFields g) as [|x l]; cbn [updateClauses].
    + exists (renderClauses M inst [Construct; Validate; Lookup; RecordGuard []]).
      now rewrite <- Hend.
    + exists (renderClauses M inst
                [AuthBinding; Construct; ForceOwner (rev (x :: l)); Validate; Lookup;
                 RecordGuard (rev (x :: l))]).
      now rewrite <- Hend.
  - unfold getInsertCode, getAuthUserCode, bind, ret, this. rewrite Hconf.
    cbv zeta. cbn [codeOf]. fold M inst.
    match goal with
    | |- exists before, Ok (?auth ++ "const " ++ inst ++ " = new " ++ M ++ "(req.body);" ++ ?assigns ++ _) = _ =>
        exists (auth ++ "const " ++ inst ++ " = new " ++ M ++ "(req.body);" ++ assigns ++ nl ++
                "        const validationError = " ++ inst ++ ".validate();" ++ nl ++
                "        if (validationError) {" ++ nl ++
                "            throw new ValidationError(validationError);" ++ nl ++
                "        }")
    end.
    f_equal. same_text StrFacts.app_assoc.
  - exact (removers_target_result (model (config g)) "0" (relationKeys g)).
Qed.

End RelatedRedaction.

Lemma related_confidential_fields_are_deleted_witness :
  @getConfFieldRemovingCode Sample.lib false (Sample.ready "Post" "post" "account") =
  Ok (nl ++ tab ++ tab ++ "for (let i = result.items.length; i--;) {" ++ nl ++
      "            delete (result.items[i].author as IUser).password;" ++ nl ++
      "        }",
      addImports [(["IUser"], "../../../../cmn/models/User")] (Sample.ready "Post" "post" "account")).
Proof.
  exact (proj1 (@related_confidential_fields_are_deleted Sample.lib
                  (Sample.ready "Post" "post" "account") false eq_refl)).
Defined.

Lemma update_redacts_result_and_sends_uResult_witness :
  exists before : string,
    codeOf (@getUpdateCode Sample.lib (Sample.ready "Post" "post" "account")) =
    Ok (before ++ nl ++
        "        const uResult = await post.update<IPost>();" ++ nl ++ tab ++ tab ++
        "delete (result.items[0].author as IUser).password;" ++ nl ++
        "        res.json(uResult);").
Proof.
  exact (proj1 (@update_redacts_result_and_sends_uResult Sample.lib
                  (Sample.ready "Post" "post" "account") eq_refl)).
Defined.

(** ** Owner-verified fields in the list and create handlers *)

Section OwnerClauses.

Context {E : Externals}.

(** For a model with owner-verified fields the list handler binds the
    authenticated user and, for a request that is not an administrator's,
    restricts the query before running it: the filter holds one entry
    [field: authUser.id] for every owner-verified field, from the last to the
    first; the redaction then runs over every item found. *)
Theorem list_handler_filters_by_every_owner_field :
  forall g : ControllerGen,
    ownerVerifiedFields g <> [] ->
    relationsKnown (model (config g)) (relationsFields g) = true ->
    let M := pascalCase (model (config g)) in
    codeOf (getQueryCodeForMultiInstance g) =
    Ok ("const authUser = this.getUserFromSession(req);" ++ nl ++
        "        const isAdmin = this.isAdmin(authUser);" ++ nl ++ tab ++ tab ++
        "const query = this.query2vql(" ++ M ++ ", req.query);" ++ nl ++ tab ++ tab ++
        "if (!isAdmin) {" ++ nl ++
        "            query.filter({" ++
        Js.join ", " (map (fun f => f ++ ": authUser.id") (rev (ownerVerifiedFields g))) ++
        "});" ++ nl ++
        "        }" ++ nl ++
        "        const result = await " ++ M ++ ".find<I" ++ M ++ ">(query);" ++
        redaction false (relationRemovers (model (config g)) "i" (relationKeys g)) ++ nl ++
        "        res.json(result);").
Proof.
  intros g Hne Hknown M.
  pose proof (emits_getConfFieldRemovingCode false g Hknown g eq_refl) as Hconf.
  unfold getQueryCodeForMultiInstance, getAuthUserCode, bind, ret, this.
  rewrite Hconf. cbv zeta. cbn [codeOf]. fold M.
  rewrite (forDown_at (ownerVerifiedFields g) (fun f => f ++ ": authUser.id")).
  rewrite hasLength_map, hasLength_rev.
  assert (hasLength (ownerVerifiedFields g) = true) as ->
    by (destruct (ownerVerifiedFields g); [congruence | reflexivity]).
  f_equal. same_text StrFacts.app_assoc.
Qed.

(** For a model with owner-verified fields the create handler binds the
    authenticated user, builds the instance from the body and, for a request
    that is not an administrator's, assigns the user's id to every
    owner-verified field, from the last to the first, before it validates
    and inserts the instance. *)
Theorem create_handler_forces_every_owner_field :
  forall g : ControllerGen,
    ownerVerifiedFields g <> [] ->
    relationsKnown (model (config g)) (relationsFields g) = true ->
    let M := pascalCase (model (config g)) in
    let inst := camelCase M in
    codeOf (getInsertCode g) =
    Ok ("const authUser = this.getUserFromSession(req);" ++ nl ++
        "        const isAdmin = this.isAdmin(authUser);" ++ nl ++ tab ++ tab ++
        "const " ++ inst ++ " = new " ++ M ++ "(req.body);" ++ nl ++ tab ++ tab ++
        "if (!isAdmin) {" ++ nl ++
        "            " ++
        Js.join (nl ++ tab ++ tab)
          (map (fun f => inst ++ "." ++ f ++ " = authUser.id;") (rev (ownerVerifiedFields g))) ++
        nl ++
        "        }" ++ nl ++
        "        const validationError = " ++ inst ++ ".validate();" ++ nl ++
        "        if (validationError) {" ++ nl ++
        "            throw new ValidationError(validationError);" ++ nl ++
        "        }" ++ nl ++
        "        const result = await " ++ inst ++ ".insert<I" ++ M ++ ">();" ++
        redaction true (relationRemovers (model (config g)) "0" (relationKeys g)) ++ nl ++
        "        res.json(result);").
Proof.
  intros g Hne Hknown M inst.
  pose proof (emits_getConfFieldRemovingCode true g Hknown g eq_refl) as Hconf.
  unfold getInsertCode, getAuthUserCode, bind, ret, this.
  rewrite Hconf. cbv zeta. cbn [codeOf]. fold M inst.
  rewrite (forDown_at (ownerVerifiedFields g) (fun f => inst ++ "." ++ f ++ " = authUser.id;")).
  rewrite hasLength_map, hasLength_rev.
  assert (hasLength (ownerVerifiedFields g) = true) as ->
    by (destruct (ownerVerifiedFields g); [congruence | reflexivity]).
  f_equal. same_text StrFacts.app_assoc.
Qed.

End OwnerClauses.

Lemma list_handler_filters_by_every_owner_field_witness :
  codeOf (@getQueryCodeForMultiInstance Sample.lib (Sample.ready "Note" "note" "notes")) =
  Ok ("const authUser = this.getUserFromSession(req);" ++ nl ++
      "        const isAdmin = this.isAdmin(authUser);" ++ nl ++ tab ++ tab ++
      "const query = this.query2vql(Note, req.query);" ++ nl ++ tab ++ tab ++
      "if (!isAdmin) {" ++ nl ++
      "            query.filter({editorId: authUser.id, userId: authUser.id});" ++ nl ++
      "        }" ++ nl ++
      "        const result = await Note.find<INote>(query);" ++ nl ++
      "        res.json(result);").
Proof.
  exact (@list_handler_filters_by_every_owner_field Sample.lib
           (Sample.ready "Note" "note" "notes") ltac:(discriminate) eq_refl).
Defined.

Lemma create_handler_forces_every_owner_field_witness :
  codeOf (@getInsertCode Sample.lib (Sample.ready "Note" "note" "notes")) =
  Ok ("const authUser = this.getUserFromSession(req);" ++ nl ++
      "        const isAdmin = this.isAdmin(authUser);" ++ nl ++ tab ++ tab ++
      "const note = new Note(req.body);" ++ nl ++ tab ++ tab ++
      "if (!isAdmin) {" ++ nl ++
      "            note.editorId = authUser.id;" ++ nl ++ tab ++ tab ++
      "note.userId = authUser.id;" ++ nl ++
      "        }" ++ nl ++
      "        const validationError = note.validate();" ++ nl ++
      "        if (validationError) {" ++ nl ++
      "            throw new ValidationError(validationError);" ++ nl ++
      "        }" ++ nl ++
      "        const result = await note.insert<INote>();" ++ nl ++
      "        res.json(result);").
Proof.
  exact (@create_handler_forces_every_owner_field Sample.lib
           (Sample.ready "Note" "note" "notes") ltac:(discriminate) eq_refl).
Defined.

(** ** The imports of the handler-body methods *)

Section Requests.

Context {E : Externals}.

Lemma requests_ret {A : Type} (a : A) (g : ControllerGen) : requests (ret a) g [].
Proof. exists a. apply emits_ret. Qed.

Lemma requests_addImport (names : list string) (from : string) (g : ControllerGen) :
  requests (addImport names from) g [(names, from)].
Proof. exists tt. apply emits_addImport. Qed.

Lemma requests_bind {A B : Type} (m : GenM A) (k : A -> GenM B) (g : ControllerGen)
  (l l' : list ImportCall) :
  requests m g l -> (forall a, requests (k a) g l') -> requests (bind m k) g (l ++ l').
Proof.
  intros [a Ha] Hk. destruct (Hk a) as [b Hb]. exists b. eapply emits_bind; eassumption.
Qed.

Lemma requests_pure {A B : Type} (m : GenM A) (k : A -> GenM B) (g : ControllerGen)
  (l : list ImportCall) :
  requests m g l -> (forall a, requests (k a) g []) -> requests (bind m k) g l.
Proof. intros Hm Hk. rewrite <- (app_nil_r l). now apply requests_bind. Qed.

Lemma requests_skip {A B : Type} (m : GenM A) (k : A -> GenM B) (g : ControllerGen)
  (l : list ImportCall) :
  requests m g [] -> (forall a, requests (k a) g l) -> requests (bind m k) g l.
Proof. intros Hm Hk. change l with ([] ++ l)%list. now apply requests_bind. Qed.

Lemma requests_this {A : Type} (k : ControllerGen -> GenM A) (g : ControllerGen)
  (l : list ImportCall) :
  (forall s, base s = base g -> k s = k g) -> requests (k g) g l ->
  requests (bind this k) g l.
Proof. intros Hk [a Ha]. exists a. now apply emits_this. Qed.

Lemma requests_forDownM {A : Type} (n : nat) (body : nat -> GenM (list A)) (g : ControllerGen)
  (imps : nat -> list ImportCall) :
  (forall i, i < n -> requests (body i) g (imps i)) ->
  requests (forDownM n body) g (Js.forDown n imps).
Proof.
  induction n as [|n IH]; intros H; [apply requests_ret|].
  cbn [forDownM Js.forDown].
  apply requests_bind; [apply H; lia|]. intros xs.
  apply requests_pure; [apply IH; intros i Hi; apply H; lia|].
  intros ys. apply requests_ret.
Qed.

Lemma requests_getAuthUserCode (g : ControllerGen) : requests getAuthUserCode g [].
Proof.
  apply requests_this; [|apply requests_ret].
  intros s Hs. cbv beta. on_base Hs. reflexivity.
Qed.

Lemma requests_getCountCode (g : ControllerGen) : requests getCountCode g [].
Proof.
  apply requests_this; [|apply requests_ret].
  intros s Hs. cbv beta zeta. on_base Hs. reflexivity.
Qed.

Lemma requests_getConfFieldRemovingCode (singleRecord : bool) (g : ControllerGen) :
  relationsKnown (model (config g)) (relationsFields g) = true ->
  requests (getConfFieldRemovingCode singleRecord) g
    (relationImports (model (config g)) (path g) (relationKeys g)).
Proof. intros Hknown. eexists. now apply emits_getConfFieldRemovingCode. Qed.

Lemma requests_getQueryCodeForSingleInstance (g : ControllerGen) :
  relationsKnown (model (config g)) (relationsFields g) = true ->
  requests getQueryCodeForSingleInstance g
    (ownerImports (model (config g)) (path g) (ownerVerifiedFields g) ++
     relationImports (model (config g)) (path g) (relationKeys g)).
Proof.
  intros Hknown. unfold getQueryCodeForSingleInstance.
  apply requests_this.
  { intros s Hs. cbv beta zeta. on_base Hs. reflexivity. }
  cbv zeta. apply requests_bind.
  - pose (G := fun f : string =>
              match relation (getFieldMeta (model (config g)) f) with
              | Some r => [interfaceImport (path g) r]
              | None => []
              end).
    change (ownerImports (model (config g)) (path g) (ownerVerifiedFields g))
      with (flat_map G (rev (ownerVerifiedFields g))).
    rewrite <- (forDown_flat (ownerVerifiedFields g) G).
    apply requests_forDownM. intros i Hi. unfold G.
    destruct (relation (getFieldMeta (model (config g)) (Js.at_ (ownerVerifiedFields g) i)))
      as [r|]; [|apply requests_ret].
    apply requests_pure; [apply requests_addImport | intros _; apply requests_ret].
  - intros checks. apply requests_skip; [apply requests_getAuthUserCode|].
    intros auth. apply requests_pure; [now apply requests_getConfFieldRemovingCode|].
    intros conf. apply requests_ret.
Qed.

Lemma requests_getQueryCodeForMultiInstance (g : ControllerGen) :
  relationsKnown (model (config g)) (relationsFields g) = true ->
  requests getQueryCodeForMultiInstance g
    (relationImports (model (config g)) (path g) (relationKeys g)).
Proof.
  intros Hknown. unfold getQueryCodeForMultiInstance.
  apply requests_this.
  { intros s Hs. cbv beta zeta. on_base Hs. reflexivity. }
  cbv zeta. apply requests_skip; [apply requests_getAuthUserCode|].
  intros auth. apply requests_pure; [now apply requests_getConfFieldRemovingCode|].
  intros conf. apply requests_ret.
Qed.

Lemma requests_getInsertCode (g : ControllerGen) :
  relationsKnown (model (config g)) (relationsFields g) = true ->
  requests getInsertCode g (relationImports (model (config g)) (path g) (relationKeys g)).
Proof.
  intros Hknown. unfold getInsertCode.
  apply requests_this.
  { intros s Hs. cbv beta zeta. on_base Hs. reflexivity. }
  cbv zeta. apply requests_skip; [apply requests_getAuthUserCode|].
  intros auth. apply requests_pure; [now apply requests_getConfFieldRemovingCode|].
  intros conf. apply requests_ret.
Qed.

Lemma requests_getUpdateCode (g : ControllerGen) :
  relationsKnown (model (config g)) (relationsFields g) = true ->
  requests getUpdateCode g (relationImports (model (config g)) (path g) (relationKeys g)).
Proof.
  intros Hknown. unfold getUpdateCode.
  apply requests_this.
  { intros s Hs. cbv beta zeta. on_base Hs. reflexivity. }
  cbv zeta. apply requests_skip; [apply requests_getAuthUserCode|].
  intros auth. apply requests_pure; [now apply requests_getConfFieldRemovingCode|].
  intros conf. apply requests_ret.
Qed.

Lemma requests_getDeleteCode (g : ControllerGen) :
  requests getDeleteCode g
    (match getFieldsByType (pascalCase (model (config g))) FieldType.File with
     | Some _ => [(["LogLevel"], "@vesta/services")]
     | None => []
     end).
Proof.
  unfold getDeleteCode.
  apply requests_this.
  { intros s Hs. cbv beta zeta. on_base Hs. reflexivity. }
  cbv zeta. apply requests_pure.
  - destruct (getFieldsByType (pascalCase (model (config g))) FieldType.File);
      [|apply requests_ret].
    apply requests_pure; [apply requests_addImport | intros _; apply requests_ret].
  - intros code. apply requests_skip; [apply requests_getAuthUserCode|].
    intros auth. apply requests_ret.
Qed.

Lemma requests_getUploadCode (g : ControllerGen) (fields : IModelFields) :
  filesFields g = Some fields ->
  requests getUploadCode g
    [(["FileUploader"], genRelativePath (path g) "src/helpers/FileUploader")].
Proof.
  intros Hfiles. unfold getUploadCode.
  apply requests_this.
  { intros s Hs. cbv beta zeta. on_base Hs. reflexivity. }
  cbv zeta. apply requests_pure; [apply requests_addImport|].
  intros _. rewrite Hfiles. apply requests_ret.
Qed.

End Requests.

(** ** Assembling the controller class *)

Lemma updateAt_last {A : Type} (f : A -> A) (l : list A) (x : A) :
  updateAt (List.length l) f (l ++ [x]) = (l ++ [f x])%list.
Proof. induction l as [|y l IH]; cbn; [reflexivity | now rewrite IH]. Qed.

Section Assembling.

Context {E : Externals}.

Lemma addImports_assembled (l : list ImportCall) (g : ControllerGen) (imps : list ImportCall)
  (lines : list string) (hs : list MethodGen) :
  addImports l (assembled g imps lines hs) = assembled g (imps ++ l) lines hs.
Proof. unfold assembled, addImports. cbn. now rewrite List.app_assoc. Qed.

(** A new handler method goes behind the others. *)
Lemma step_addResponseMethod {B : Type} (name : string) (k : nat -> GenM B)
  (g : ControllerGen) (imps : list ImportCall) (lines : list string) (hs : list MethodGen) :
  bind (addResponseMethod name) k (assembled g imps lines hs)
  = k (S (List.length hs)) (assembled g imps lines (hs ++ [handlerMethod name []])).
Proof.
  unfold addResponseMethod, bind, this, modify, ret, ClassGen_addMethod.
  cbv beta iota zeta.
  cbn [assembled controllerClass setControllerClass methods List.length
       ClassGen_updateMethod className exported parentClass].
  f_equal. unfold ClassGen_updateMethod.
  cbn [methods className exported parentClass List.app updateAt].
  rewrite !updateAt_last. reflexivity.
Qed.

(** A handler-body method returns its text and requests its imports. *)
Lemma step_emits {A B : Type} (m : GenM A) (k : A -> GenM B) (g : ControllerGen) (a : A)
  (l imps : list ImportCall) (lines : list string) (hs : list MethodGen) :
  emits m g a l ->
  bind m k (assembled g imps lines hs) = k a (assembled g (imps ++ l) lines hs).
Proof.
  intros Hm. unfold bind. rewrite (Hm (assembled g imps lines hs) eq_refl).
  now rewrite addImports_assembled.
Qed.

(** The text goes into the handler method just added. *)
Lemma step_appendContent_handler {B : Type} (name code : string) (k : unit -> GenM B)
  (g : ControllerGen) (imps : list ImportCall) (lines : list string) (hs : list MethodGen) :
  bind (appendContent (S (List.length hs)) code) k
    (assembled g imps lines (hs ++ [handlerMethod name []]))
  = k tt (assembled g imps lines (hs ++ [handlerMethod name [code]])).
Proof.
  unfold appendContent, bind, modify. f_equal.
  unfold assembled, ClassGen_updateMethod.
  cbn [setControllerClass controllerClass methods className exported parentClass updateAt
       addImports setControllerFile].
  rewrite updateAt_last. reflexivity.
Qed.

(** The registration goes to the end of the [route] method. *)
Lemma step_appendContent_route {B : Type} (line : string) (k : unit -> GenM B)
  (g : ControllerGen) (imps : list ImportCall) (lines : list string) (hs : list MethodGen) :
  bind (appendContent 0 line) k (assembled g imps lines hs)
  = k tt (assembled g imps (lines ++ [line]) hs).
Proof. reflexivity. Qed.

Lemma last_appendContent_route (line : string) (g : ControllerGen) (imps : list ImportCall)
  (lines : list string) (hs : list MethodGen) :
  appendContent 0 line (assembled g imps lines hs)
  = Ok (tt, assembled g imps (lines ++ [line]) hs).
Proof. reflexivity. Qed.

Lemma ok_assembled_eq (g : ControllerGen) (imps imps' : list ImportCall) (lines : list string)
  (hs hs' : list MethodGen) :
  imps = imps' -> hs = hs' ->
  @Ok (unit * ControllerGen) (tt, assembled g imps lines hs)
  = Ok (tt, assembled g imps' lines hs').
Proof. now intros -> ->. Qed.

Lemma emits_code {A : Type} (m : GenM A) (g : ControllerGen) (a : A) (l : list ImportCall) :
  emits m g a l -> codeOf (m g) = Ok a.
Proof. intros H. now rewrite (H g eq_refl). Qed.

End Assembling.

(** One handler: its method, its body, its registration. *)
Ltac handler_step H :=
  rewrite step_addResponseMethod; cbv beta;
  rewrite (step_emits _ _ _ _ _ _ _ _ H); cbv beta;
  rewrite step_appendContent_handler;
  rewrite step_appendContent_route.

Section Assembled.

Context {E : Externals}.

(** [addCRUDOperations], run on a generator object whose class holds the
    empty [route] method in front: the generator object it leaves behind,
    in full. *)
Lemma crud_assembled (g0 : ControllerGen) :
  routeMethod g0 = 0 ->
  methods (controllerClass g0) = [routeMethodOf []] ->
  let g1 := setSecurity (getFieldsByType (model (config g0)) FieldType.Relation)
              (getOwnerVerifiedFields (model (config g0)))
              (getConfidentialFields (model (config g0))) g0 in
  relationsKnown (model (config g0)) (getFieldsByType (model (config g0)) FieldType.Relation)
  = true ->
  exists (lines bodies : list string),
    addCRUDOperations g0 =
      Ok (tt, assembled g1 (crudImports g1) lines
                (map (fun hb => handlerMethod (fst (fst hb)) [snd hb])
                   (combine (handlerTable g1) bodies))) /\
    Forall2 (fun h b => codeOf (snd h g1) = Ok b) (handlerTable g1) bodies /\
    List.length lines = List.length bodies.
Proof.
  intros Hroute Hms g1 Hknown.
  assert (relationsKnown (model (config g1)) (relationsFields g1) = true) as Hk by exact Hknown.
  destruct (requests_getCountCode g1) as [c1 H1].
  destruct (requests_getQueryCodeForSingleInstance g1 Hk) as [c2 H2].
  destruct (requests_getQueryCodeForMultiInstance g1 Hk) as [c3 H3].
  destruct (requests_getInsertCode g1 Hk) as [c4 H4].
  destruct (requests_getUpdateCode g1 Hk) as [c5 H5].
  destruct (requests_getDeleteCode g1) as [c6 H6].
  assert (emits (getQueryCode true) g1 c2 _) as H2' by exact H2.
  assert (emits (getQueryCode false) g1 c3 _) as H3' by exact H3.
  assert (forall n1 f1 n2 f2 n3 f3,
             setControllerFile
               (TsFileGen_addImport n3 f3
                  (TsFileGen_addImport n2 f2
                     (TsFileGen_addImport n1 f1 (controllerFile g1)))) g1
             = assembled g1 [(n1, f1); (n2, f2); (n3, f3)] [] []) as Hstart.
  { intros n1 f1 n2 f2 n3 f3.
    unfold assembled, addImports, TsFileGen_addImport.
    subst g1. destruct g0 as [cfg v cf [n e p ms] [fn im] ff ov pa rn rf rm rp].
    cbn in *. subst ms. now rewrite <- !List.app_assoc. }
  destruct (filesFields g0) as [fields|] eqn:Hfiles.
  - destruct (requests_getUploadCode g1 fields Hfiles) as [c7 H7].
    eexists _, [c1; c2; c3; c4; c5; c6; c7]. split; [|split].
    + unfold addCRUDOperations. rewrite bind_this. cbv zeta.
      rewrite bind_modify, !bind_addImport. fold g1.
      cbn [controllerFile setControllerFile].
      rewrite Hroute, Hfiles.
      rewrite !setControllerFile_twice, Hstart.
      handler_step H1. handler_step H2'. handler_step H3'.
      handler_step H4. handler_step H5. handler_step H6.
      rewrite step_addResponseMethod; cbv beta.
      rewrite (step_emits _ _ _ _ _ _ _ _ H7); cbv beta.
      rewrite step_appendContent_handler.
      rewrite last_appendContent_route.
      apply ok_assembled_eq.
      * unfold crudImports. cbv zeta.
        change (filesFields g1) with (filesFields g0). rewrite Hfiles.
        change (config g1) with (config g0). change (path g1) with (path g0).
        rewrite <- !List.app_assoc. reflexivity.
      * unfold handlerTable. cbv zeta.
        change (filesFields g1) with (filesFields g0). rewrite Hfiles.
        reflexivity.
    + unfold handlerTable. cbv zeta.
      change (filesFields g1) with (filesFields g0). rewrite Hfiles.
      cbn [List.app].
      repeat constructor; cbn [snd]; eapply emits_code; eassumption.
    + reflexivity.
  - eexists _, [c1; c2; c3; c4; c5; c6]. split; [|split].
    + unfold addCRUDOperations. rewrite bind_this. cbv zeta.
      rewrite bind_modify, !bind_addImport. fold g1.
      cbn [controllerFile setControllerFile].
      rewrite Hroute, Hfiles.
      rewrite !setControllerFile_twice, Hstart.
      handler_step H1. handler_step H2'. handler_step H3'.
      handler_step H4. handler_step H5.
      rewrite step_addResponseMethod; cbv beta.
      rewrite (step_emits _ _ _ _ _ _ _ _ H6); cbv beta.
      rewrite step_appendContent_handler.
      rewrite step_appendContent_route.
      unfold ret.
      apply ok_assembled_eq.
      * unfold crudImports. cbv zeta.
        change (filesFields g1) with (filesFields g0). rewrite Hfiles.
        change (config g1) with (config g0). change (path g1) with (path g0).
        rewrite <- !List.app_assoc, ?app_nil_r. reflexivity.
      * unfold handlerTable. cbv zeta.
        change (filesFields g1) with (filesFields g0). rewrite Hfiles.
        reflexivity.
    + unfold handlerTable. cbv zeta.
      change (filesFields g1) with (filesFields g0). rewrite Hfiles.
      cbn [List.app].
      repeat constructor; cbn [snd]; eapply emits_code; eassumption.
    + reflexivity.
Qed.

End Assembled.

Section AssembledController.

Context {E : Externals}.

(** The generator object as the constructor leaves it, read as an assembled
    one. *)
Lemma ControllerGen_new_class (cfg : IControllerConfig) (w : World) :
  let g0 := fst (ControllerGen_new cfg w) in
  routeMethod g0 = 0 /\
  methods (controllerClass g0) = [routeMethodOf []] /\
  className (controllerClass g0) = pascalCase (camelCase (name cfg)) ++ "Controller" /\
  exported (controllerClass g0) = true /\
  parentClass (controllerClass g0) = Some "BaseController" /\
  config g0 = cfg /\
  imports (controllerFile g0) =
    (match filesFields g0 with
     | Some _ => [(["join"], "path")]
     | None => []
     end ++
     [ (["NextFunction"; "Response"; "Router"], "express");
       (["BaseController"; "IExtRequest"], genRelativePath (path g0) "src/api/BaseController") ])%list.
Proof.
  unfold ControllerGen_new, ClassGen_addMethod. cbv beta iota zeta.
  cbn [fst routeMethod controllerClass methods className exported parentClass config
       filesFields path controllerFile ClassGen_updateMethod List.length List.app updateAt].
  repeat split.
  destruct (if Js.truthyS (model cfg) then getFieldsByType (model cfg) FieldType.File else None);
    reflexivity.
Qed.

Lemma handler_names {P : string * GenM string -> string -> Prop}
  (table : list (string * GenM string)) (bodies : list string) :
  Forall2 P table bodies ->
  map methodName (map (fun hb => handlerMethod (fst (fst hb)) [snd hb]) (combine table bodies))
  = map fst table.
Proof.
  induction 1 as [|h b table bodies _ _ IH]; [reflexivity|].
  cbn [combine map fst snd handlerMethod methodName]. now rewrite IH.
Qed.

(** The class that [addCRUDOperations] assembles for a model whose relation
    fields are known: the [route] method in front, then one handler method
    for every entry of the handler table, in its order; each is private and
    asynchronous, takes the request, the response and the continuation, and
    holds one statement, the text that the method of the generator named in
    the table returns; the [route] method holds one registration for each. *)
Theorem controller_class_is_assembled :
  forall (cfg : IControllerConfig) (w : World),
    relationsKnown (model cfg) (getFieldsByType (model cfg) FieldType.Relation) = true ->
    let g0 := fst (ControllerGen_new cfg w) in
    let g1 := setSecurity (getFieldsByType (model cfg) FieldType.Relation)
                (getOwnerVerifiedFields (model cfg)) (getConfidentialFields (model cfg)) g0 in
    exists (g' : ControllerGen) (bodies : list string),
      addCRUDOperations g0 = Ok (tt, g') /\
      Forall2 (fun h b => codeOf (snd h g1) = Ok b) (handlerTable g1) bodies /\
      methods (controllerClass g') =
        routeMethodOf (routeContent g') ::
        map (fun hb => handlerMethod (fst (fst hb)) [snd hb]) (combine (handlerTable g1) bodies) /\
      List.length (routeContent g') = List.length bodies /\
      map methodName (methods (controllerClass g')) = "route" :: map fst (handlerTable g1) /\
      className (controllerClass g') = pascalCase (camelCase (name cfg)) ++ "Controller" /\
      exported (controllerClass g') = true /\
      parentClass (controllerClass g') = Some "BaseController".
Proof.
  intros cfg w Hknown g0 g1.
  destruct (ControllerGen_new_class cfg w) as (Hroute & Hms & Hname & Hexp & Hparent & Hcfg & _).
  fold g0 in Hroute, Hms, Hname, Hexp, Hparent, Hcfg.
  assert (relationsKnown (model (config g0))
            (getFieldsByType (model (config g0)) FieldType.Relation) = true) as Hk
    by (rewrite Hcfg; exact Hknown).
  destruct (crud_assembled g0 Hroute Hms Hk) as (lines & bodies & Hrun & Hbodies & Hlen).
  rewrite Hcfg in Hrun, Hbodies. fold g1 in Hrun, Hbodies.
  eexists _, bodies. split; [exact Hrun|]. split; [exact Hbodies|].
  unfold routeContent, assembled.
  cbn [controllerClass setControllerClass methods routeMethod addImports setControllerFile
       className exported parentClass].
  change (routeMethod g1) with (routeMethod g0). rewrite Hroute.
  cbn [nth_error routeMethodOf content map methodName].
  rewrite (handler_names _ _ Hbodies).
  repeat split; assumption.
Qed.

Lemma interface_import_name (names : list string) (from M p : string)
  (keys owner : list string) :
  (forall m, names <> ["I" ++ m]) ->
  ~ In (names, from) (relationImports M p keys) /\ ~ In (names, from) (ownerImports M p owner).
Proof.
  intros Hnames. split; intros Hin; apply in_flat_map in Hin as [k [_ Hin]];
    destruct (relation (getFieldMeta M k)) as [r|]; try contradiction.
  - destruct (hasLength (getConfidentialFields (relModel r))); [|contradiction].
    destruct Hin as [Heq|[]]. injection Heq as Heq _. now apply (Hnames (relModel r)).
  - destruct Hin as [Heq|[]]. injection Heq as Heq _. now apply (Hnames (relModel r)).
Qed.

(** The imports of the controller that [addCRUDOperations] leaves behind:
    those of the constructor, then the three of the model, then those of the
    handlers in their order (the interfaces of related models once for the
    owner check and once for each of the four redaction clauses).  [join] and
    [FileUploader], which the upload handler uses, are imported exactly when
    the constructor found File-typed fields. *)
Theorem controller_imports_are_assembled :
  forall (cfg : IControllerConfig) (w : World),
    relationsKnown (model cfg) (getFieldsByType (model cfg) FieldType.Relation) = true ->
    let g0 := fst (ControllerGen_new cfg w) in
    let g1 := setSecurity (getFieldsByType (model cfg) FieldType.Relation)
                (getOwnerVerifiedFields (model cfg)) (getConfidentialFields (model cfg)) g0 in
    exists g' : ControllerGen,
      addCRUDOperations g0 = Ok (tt, g') /\
      imports (controllerFile g') = (imports (controllerFile g0) ++ crudImports g1)%list /\
      (In (["FileUploader"], genRelativePath (path g0) "src/helpers/FileUploader")
          (imports (controllerFile g')) <-> filesFields g0 <> None) /\
      (In (["join"], "path") (imports (controllerFile g')) <-> filesFields g0 <> None).
Proof.
  intros cfg w Hknown g0 g1.
  destruct (ControllerGen_new_class cfg w) as (Hroute & Hms & _ & _ & _ & Hcfg & Himports).
  fold g0 in Hroute, Hms, Hcfg, Himports.
  assert (relationsKnown (model (config g0))
            (getFieldsByType (model (config g0)) FieldType.Relation) = true) as Hk
    by (rewrite Hcfg; exact Hknown).
  destruct (crud_assembled g0 Hroute Hms Hk) as (lines & bodies & Hrun & _ & _).
  rewrite Hcfg in Hrun. fold g1 in Hrun.
  eexists. split; [exact Hrun|].
  assert (imports (controllerFile (assembled g1 (crudImports g1) lines
            (map (fun hb => handlerMethod (fst (fst hb)) [snd hb])
               (combine (handlerTable g1) bodies))))
          = (imports (controllerFile g0) ++ crudImports g1)%list) as Himp by reflexivity.
  split; [exact Himp|].
  rewrite Himp, Himports. unfold crudImports. cbv zeta.
  change (filesFields g1) with (filesFields g0).
  change (path g1) with (path g0). change (config g1) with (config g0).
  rewrite Hcfg.
  set (related := relationImports (model cfg) (path g0) (relationKeys g1)).
  set (owners := ownerImports (model cfg) (path g0) (ownerVerifiedFields g1)).
  assert (forall names from, (forall m, names <> ["I" ++ m]) ->
            ~ In (names, from) related /\ ~ In (names, from) owners) as Hnot
    by (intros names from Hn; apply interface_import_name; exact Hn).
  assert (forall m : string, ["FileUploader"] <> ["I" ++ m]) as HnF by (intros m; discriminate).
  assert (forall m : string, ["join"] <> ["I" ++ m]) as HnJ by (intros m; discriminate).
  split; split.
  - intros Hin. rewrite !in_app_iff in Hin.
    destruct (filesFields g0); [discriminate|]. exfalso.
    destruct (Hnot _ (genRelativePath (path g0) "src/helpers/FileUploader") HnF) as [Hr Ho].
    cbn [In] in Hin.
    destruct (getFieldsByType (pascalCase (model cfg)) FieldType.File); cbn [In] in Hin;
      intuition (try discriminate; try contradiction).
  - intros Hfiles. rewrite !in_app_iff.
    destruct (filesFields g0); [|congruence]. cbn [In]. tauto.
  - intros Hin. rewrite !in_app_iff in Hin.
    destruct (filesFields g0); [discriminate|]. exfalso.
    destruct (Hnot _ "path" HnJ) as [Hr Ho].
    cbn [In] in Hin.
    destruct (getFieldsByType (pascalCase (model cfg)) FieldType.File); cbn [In] in Hin;
      intuition (try discriminate; try contradiction).
  - intros Hfiles. rewrite !in_app_iff.
    destruct (filesFields g0); [|congruence]. cbn [In]. tauto.
Qed.

End AssembledController.

Lemma controller_class_is_assembled_witness :
  exists g' : ControllerGen,
    @addCRUDOperations Sample.lib
      (fst (@ControllerGen_new Sample.lib (mkConfig "Post" "profile" "account" "v1") Sample.project))
    = Ok (tt, g') /\
    map methodName (methods (controllerClass g')) =
      ["route"; "getPostCount"; "getPost"; "getPosts"; "addPost"; "updatePost"; "removePost";
       "upload"].
Proof.
  destruct (@controller_class_is_assembled Sample.lib
              (mkConfig "Post" "profile" "account" "v1") Sample.project eq_refl)
    as (g' & bodies & Hrun & _ & _ & _ & Hnames & _).
  exists g'. split; [exact Hrun | exact Hnames].
Defined.

Lemma controller_imports_are_assembled_witness :
  exists g' : ControllerGen,
    @addCRUDOperations Sample.lib
      (fst (@ControllerGen_new Sample.lib (mkConfig "Post" "profile" "account" "v1") Sample.project))
    = Ok (tt, g') /\
    imports (controllerFile g') =
      [ (["join"], "path");
        (["NextFunction"; "Response"; "Router"], "express");
        (["BaseController"; "IExtRequest"], "../../../BaseController");
        (["Err"; "DatabaseError"; "ValidationError"], "@vesta/core");
        (["Post"; "IPost"], "../../../../cmn/models/Post");
        (["AclAction"], "@vesta/services");
        (["IUser"], "../../../../cmn/models/User");
        (["IUser"], "../../../../cmn/models/User");
        (["IUser"], "../../../../cmn/models/User");
        (["IUser"], "../../../../cmn/models/User");
        (["IUser"], "../../../../cmn/models/User");
        (["LogLevel"], "@vesta/services");
        (["FileUploader"], "../../../../helpers/FileUploader") ].
Proof.
  destruct (@controller_imports_are_assembled Sample.lib
              (mkConfig "Post" "profile" "account" "v1") Sample.project eq_refl)
    as (g' & Hrun & Himports & _).
  exists g'. split; [exact Hrun|]. rewrite Himports. vm_compute. reflexivity.
Defined.

(** ** The detail handler and the count handler *)

Section DetailAndCount.

Context {E : Externals}.

Lemma emits_getAuthUserCode (g : ControllerGen) :
  emits getAuthUserCode g
    (if hasLength (ownerVerifiedFields g)
     then "const authUser = this.getUserFromSession(req);" ++ nl ++
          "        const isAdmin = this.isAdmin(authUser);" ++ nl ++ tab ++ tab
     else "") [].
Proof.
  apply emits_this; [|apply emits_ret].
  intros s Hs. cbv beta. on_base Hs. reflexivity.
Qed.

(** The comparison that the detail handler makes for the owner-verified
    field [f]: it names the comma-joined list of all the fields, [joined]. *)
Lemma emits_ownerChecks (g : ControllerGen) :
  let joined := Js.join "," (ownerVerifiedFields g) in
  emits
    (forDownM (List.length (ownerVerifiedFields g)) (fun i =>
       match relation (getFieldMeta (model (config g)) (Js.at_ (ownerVerifiedFields g) i)) with
       | Some r =>
           addImport ["I" ++ relModel r]
             (genRelativePath (path g) ("src/cmn/models" ++ extPathOf r ++ "/" ++ relModel r)) ;;;
           ret ["(result.items[0]." ++ Js.arrayToString (ownerVerifiedFields g) ++
                " as I" ++ relModel r ++ ").id !== authUser.id"]
       | None =>
           ret ["result.items[0]." ++ Js.arrayToString (ownerVerifiedFields g) ++ " !== authUser.id"]
       end)) g
    (map (fun f =>
            match relation (getFieldMeta (model (config g)) f) with
            | Some r => "(result.items[0]." ++ joined ++ " as I" ++ relModel r ++ ").id !== authUser.id"
            | None => "result.items[0]." ++ joined ++ " !== authUser.id"
            end) (rev (ownerVerifiedFields g)))
    (ownerImports (model (config g)) (path g) (ownerVerifiedFields g)).
Proof.
  intros joined.
  pose (C := fun f : string =>
          match relation (getFieldMeta (model (config g)) f) with
          | Some r => "(result.items[0]." ++ joined ++ " as I" ++ relModel r ++ ").id !== authUser.id"
          | None => "result.items[0]." ++ joined ++ " !== authUser.id"
          end).
  pose (G := fun f : string =>
          match relation (getFieldMeta (model (config g)) f) with
          | Some r => [interfaceImport (path g) r]
          | None => []
          end).
  change (ownerImports (model (config g)) (path g) (ownerVerifiedFields g))
    with (flat_map G (rev (ownerVerifiedFields g))).
  change (map _ (rev (ownerVerifiedFields g))) with (map C (rev (ownerVerifiedFields g))).
  rewrite <- (forDown_at (ownerVerifiedFields g) C).
  rewrite <- (forDown_flat (ownerVerifiedFields g) G).
  apply emits_forDownM. intros i Hi. unfold C, G.
  destruct (relation (getFieldMeta (model (config g)) (Js.at_ (ownerVerifiedFields g) i)))
    as [r|]; [|apply emits_ret].
  eapply emits_then; [apply emits_addImport | apply emits_ret].
Qed.

(** The detail handler of a model with owner-verified fields whose relation
    fields are known: it binds the authenticated user, looks the record up
    with every relation field loaded, and throws when no record was found or,
    for a request that is not an administrator's, when one of its comparisons
    holds.  There is one comparison for every owner-verified field, from the
    last to the first, and each of them names the comma-joined list of all
    the fields where the field was meant; for a field that is a relation the
    comparison reads the [id] of the related record. *)
Theorem detail_guard_repeats_the_joined_fields :
  forall g : ControllerGen,
    ownerVerifiedFields g <> [] ->
    relationsKnown (model (config g)) (relationsFields g) = true ->
    let M := pascalCase (model (config g)) in
    let joined := Js.join "," (ownerVerifiedFields g) in
    codeOf (getQueryCodeForSingleInstance g) =
    Ok ("const authUser = this.getUserFromSession(req);" ++ nl ++
        "        const isAdmin = this.isAdmin(authUser);" ++ nl ++ tab ++ tab ++
        "const id = this.retrieveId(req);" ++ nl ++
        "        const result = await " ++ M ++ ".find<I" ++ M ++ ">(id" ++
        match relationsFields g with
        | Some fields =>
            ", { relations: [" ++ dq ++ Js.join (dq ++ ", " ++ dq) (Object_keys fields) ++ dq ++ "] }"
        | None => ""
        end ++ ");" ++ nl ++
        "        if (!result.items.length || (!isAdmin && (" ++
        Js.join " || "
          (map (fun f =>
                  match relation (getFieldMeta (model (config g)) f) with
                  | Some r => "(result.items[0]." ++ joined ++ " as I" ++ relModel r ++
                              ").id !== authUser.id"
                  | None => "result.items[0]." ++ joined ++ " !== authUser.id"
                  end) (rev (ownerVerifiedFields g))) ++
        "))) {" ++ nl ++
        "            throw new DatabaseError(Err.Code.DBNoRecord, null);" ++ nl ++
        "        }" ++
        redaction true (relationRemovers (model (config g)) "0" (relationKeys g)) ++ nl ++
        "        res.json(result);").
Proof.
  intros g Hne Hknown M joined.
  pose proof (emits_ownerChecks g) as Hchecks. cbv zeta in Hchecks. fold joined in Hchecks.
  pose proof (emits_getAuthUserCode g) as Hauth.
  pose proof (emits_getConfFieldRemovingCode true g Hknown) as Hconf.
  unfold getQueryCodeForSingleInstance. rewrite bind_this. cbv zeta.
  rewrite (bind_run _ _ _ _ _ (Hchecks g eq_refl)).
  set (s1 := addImports (ownerImports (model (config g)) (path g) (ownerVerifiedFields g)) g).
  rewrite (bind_run _ _ _ _ _ (Hauth s1 eq_refl)).
  rewrite (bind_run _ _ _ _ _ (Hconf (addImports [] s1) eq_refl)).
  unfold ret. cbn [codeOf]. fold M.
  rewrite hasLength_map, hasLength_rev.
  assert (hasLength (ownerVerifiedFields g) = true) as ->
    by (destruct (ownerVerifiedFields g); [congruence | reflexivity]).
  f_equal. same_text StrFacts.app_assoc.
Qed.

(** The count handler is the same for every security profile: it binds no
    authenticated user and counts with the query as it came, also for a model
    whose list handler restricts the query to the records of the user. *)
Theorem count_handler_ignores_ownership :
  forall (g : ControllerGen) (rel : option IModelFields) (owner conf : list string),
    codeOf (getCountCode (setSecurity rel owner conf g)) =
    Ok ("const query = this.query2vql(" ++ pascalCase (model (config g)) ++
        ", req.query, true);" ++ nl ++
        "        const result = await " ++ pascalCase (model (config g)) ++
        ".count<I" ++ pascalCase (model (config g)) ++ ">(query);" ++ nl ++
        "        res.json(result);").
Proof. reflexivity. Qed.

End DetailAndCount.

Lemma detail_guard_repeats_the_joined_fields_witness :
  codeOf (@getQueryCodeForSingleInstance Sample.lib (Sample.ready "Post" "post" "account")) =
  Ok ("const authUser = this.getUserFromSession(req);" ++ nl ++
      "        const isAdmin = this.isAdmin(authUser);" ++ nl ++ tab ++ tab ++
      "const id = this.retrieveId(req);" ++ nl ++
      "        const result = await Post.find<IPost>(id, { relations: [" ++ dq ++ "author" ++ dq ++ "] });" ++ nl ++
      "        if (!result.items.length || (!isAdmin && ((result.items[0].author as IUser).id !== authUser.id))) {" ++ nl ++
      "            throw new DatabaseError(Err.Code.DBNoRecord, null);" ++ nl ++
      "        }" ++ nl ++ tab ++ tab ++
      "delete (result.items[0].author as IUser).password;" ++ nl ++
      "        res.json(result);").
Proof.
  exact (@detail_guard_repeats_the_joined_fields Sample.lib
           (Sample.ready "Post" "post" "account") ltac:(discriminate) eq_refl).
Defined.

(** ** File fields in the upload handler and the delete handler *)


Lemma occurs_here (p b : string) : occursIn p (p ++ b).
Proof. now exists "", b. Qed.

Lemma occurs_skip (p x s : string) : occursIn p s -> occursIn p (x ++ s).
Proof. intros [a [b ->]]. exists (x ++ a), b. now rewrite StrFacts.app_assoc. Qed.

Lemma occurs_left (p s x : string) : occursIn p s -> occursIn p (s ++ x).
Proof. intros [a [b ->]]. exists a, (b ++ x). now rewrite !StrFacts.app_assoc. Qed.

Lemma occurs_trans (p q s : string) : occursIn p q -> occursIn q s -> occursIn p s.
Proof. intros Hpq [a [b ->]]. now apply occurs_skip, occurs_left. Qed.

Lemma occurs_find (p s : string) : occursIn p s -> Js.find p s <> None.
Proof.
  intros [a [b ->]]. destruct (StrFacts.find_occurs p a b) as [i [Hi _]]. congruence.
Qed.


Lemma flat_map_ext_in {A B : Type} (f g : A -> list B) (l : list A) :
  (forall a, In a l -> f a = g a) -> flat_map f l = flat_map g l.
Proof.
  induction l as [|x l IH]; intros H; [reflexivity|].
  cbn [flat_map]. rewrite (H x) by now left.
  rewrite IH; [reflexivity|]. intros a Ha. apply H. now right.
Qed.



Section FileFields.

Context {E : Externals}.

(** Counting up over the indices of an array visits its elements in their
    order. *)
Lemma forUp_at {A : Type} (l : list string) (F : string -> A) :
  forUp (List.length l) (fun i => [F (Js.at_ l i)]) = map F l.
Proof.
  unfold forUp. induction l as [|x l IH] using rev_ind; [reflexivity|].
  rewrite length_app, seq_app, flat_map_app, map_app. cbn [List.length seq flat_map Nat.add map].
  unfold Js.at_ at 2. rewrite nth_middle, app_nil_r. f_equal.
  rewrite <- IH. apply flat_map_ext_in. intros i Hi. apply in_seq in Hi.
  unfold Js.at_. rewrite app_nth1 by lia. reflexivity.
Qed.

(** The upload handler treats every File-typed field.  With exactly one
    field it replaces the name on the record and then awaits the deletion of
    the old file; otherwise it has one block for every field, in the order of
    declaration, which queues the deletion of the old file when a new one was
    uploaded, and awaits all the deletions together.  The record is updated
    after that. *)
Theorem upload_handler_handles_every_file_field :
  forall (g : ControllerGen) (fields : IModelFields),
    filesFields g = Some fields ->
    let M := pascalCase (model (config g)) in
    let inst := camelCase M in
    exists before : string,
      codeOf (getUploadCode g) =
      Ok (before ++
          match Object_keys fields with
          | [f] =>
              "const oldFileName = " ++ inst ++ "." ++ f ++ ";" ++ nl ++
              "        " ++ inst ++ "." ++ f ++ " = upl." ++ f ++ ";" ++ nl ++
              "        if (oldFileName) {" ++ nl ++
              "            await FileUploader.checkAndDeleteFile(`${destDirectory}/${oldFileName}`);" ++ nl ++
              "        }"
          | keys =>
              "const delList: Array<Promise<string>> = [];" ++
              String.concat ""
                (map (fun f =>
                        nl ++
                        "        if (upl." ++ f ++ ") {" ++ nl ++
                        "            const old" ++ pascalCase f ++ " = " ++ inst ++ "." ++ f ++ ";" ++ nl ++
                        "            delList.push(FileUploader.checkAndDeleteFile(`${destDirectory}/${old" ++
                        pascalCase f ++ "}`)" ++ nl ++
                        "                .then(() => " ++ inst ++ "." ++ f ++ " = upl." ++ f ++
                        " as string));" ++ nl ++
                        "        }") keys) ++
              nl ++
              "        await Promise.all(delList);"
          end ++ nl ++
          "        const uResult = await " ++ inst ++ ".update();" ++ nl ++
          "        res.json(uResult);").
Proof.
  intros g fields Hfiles M inst.
  unfold getUploadCode, bind, this, addImport, modify, ret.
  cbn [filesFields setControllerFile config]. rewrite Hfiles. cbn [codeOf]. fold M inst.
  exists ("const id = this.retrieveId(req);" ++ nl ++
          "        const destDirectory = join(this.config.dir.upload, " ++ dq ++ inst ++ dq ++ ");" ++ nl ++
          "        const result = await " ++ M ++ ".find<I" ++ M ++ ">(id);" ++ nl ++
          "        if (result.items.length !== 1) {" ++ nl ++
          "            throw new Err(Err.Code.DBRecordCount, " ++ dq ++ M ++ " not found" ++ dq ++ ");" ++ nl ++
          "        }" ++ nl ++
          "        const " ++ inst ++ " = new " ++ M ++ "(result.items[0]);" ++ nl ++
          "        const uploader = new FileUploader<I" ++ M ++ ">(true);" ++ nl ++
          "        await uploader.parse(req);" ++ nl ++
          "        const upl = await uploader.upload(destDirectory);" ++ nl ++
          "        ").
  f_equal.
  pose (F := fun f : string =>
          nl ++
          "        if (upl." ++ f ++ ") {" ++ nl ++
          "            const " ++ ("old" ++ pascalCase f) ++ " = " ++ inst ++ "." ++ f ++ ";" ++ nl ++
          "            delList.push(FileUploader.checkAndDeleteFile(`${destDirectory}/${" ++
          ("old" ++ pascalCase f) ++ "}`)" ++ nl ++
          "                .then(() => " ++ inst ++ "." ++ f ++ " = upl." ++ f ++
          " as string));" ++ nl ++
          "        }").
  pose (F' := fun f : string =>
          nl ++
          "        if (upl." ++ f ++ ") {" ++ nl ++
          "            const old" ++ pascalCase f ++ " = " ++ inst ++ "." ++ f ++ ";" ++ nl ++
          "            delList.push(FileUploader.checkAndDeleteFile(`${destDirectory}/${old" ++
          pascalCase f ++ "}`)" ++ nl ++
          "                .then(() => " ++ inst ++ "." ++ f ++ " = upl." ++ f ++
          " as string));" ++ nl ++
          "        }").
  assert (forall f, F f = F' f) as Hext
    by (intros f; unfold F, F'; same_text StrFacts.app_assoc).
  change (forUp (List.length (Object_keys fields)) _)
    with (forUp (List.length (Object_keys fields)) (fun i => [F (Js.at_ (Object_keys fields) i)])).
  rewrite (forUp_at (Object_keys fields) F), (map_ext F F' Hext).
  change (map (fun f : string => _) ?l) with (map F' l).
  clearbody F'. clear F Hext.
  destruct (Object_keys fields) as [|f [|f' keys]].
  - cbn [List.length Nat.eqb map String.concat]. same_text StrFacts.app_assoc.
  - cbn [List.length Nat.eqb Js.at_ nth]. same_text StrFacts.app_assoc.
  - cbn [List.length Nat.eqb].
    generalize (String.concat "" (map F' (f :: f' :: keys))). intros blocks.
    same_text StrFacts.app_assoc.
Qed.


End FileFields.

Lemma upload_handler_handles_every_file_field_witness :
  exists before : string,
    codeOf (@getUploadCode Sample.lib (Sample.ready "Post" "post" "account")) =
    Ok (before ++
        "const oldFileName = post.image;" ++ nl ++
        "        post.image = upl.image;" ++ nl ++
        "        if (oldFileName) {" ++ nl ++
        "            await FileUploader.checkAndDeleteFile(`${destDirectory}/${oldFileName}`);" ++ nl ++
        "        }" ++ nl ++
        "        const uResult = await post.update();" ++ nl ++
        "        res.json(uResult);").
Proof.
  exact (@upload_handler_handles_every_file_field Sample.lib
           (Sample.ready "Post" "post" "account")
           [("image", mkField "image" FieldType.File)] eq_refl).
Defined.


(** The upload handler of [Album], with its three File-typed fields: one
    block for each, and none of them in a [try]. *)
Example album_upload_blocks :
  map (fun f => Js.find ("if (upl." ++ f ++ ") {")
                 (Sample.textOf (@getUploadCode Sample.lib (Sample.ready "Album" "album" "media"))))
      ["cover"; "back"; "photos"]
  = [Some 536; Some 767; Some 992] /\
  Js.find "try" (Sample.textOf (@getUploadCode Sample.lib (Sample.ready "Album" "album" "media")))
  = None.
Proof. vm_compute. split; reflexivity. Qed.

(** ** The registration patcher: the first run *)

Section FirstPatch.

Context {E : Externals}.

(** A registry that holds the import marker before the controller marker
    and does not hold the import statement of the controller yet is
    rewritten: the text written holds the import statement, and it holds the
    property binding on the line before a controller marker; patching that
    text again writes nothing. *)
Theorem first_patch_registers_the_controller :
  forall (g : ControllerGen) (code : string) (i j : nat),
    plainInsertions g = true ->
    Js.find Placeholder_Import code = Some i ->
    Js.find Placeholder_ExpressController code = Some j ->
    i < j ->
    (Js.indexOf code (importCodeOf g) < 0)%Z ->
    exists code1 : string,
      registryPatch g code = PatchWritten code1 /\
      (0 <= Js.indexOf code1 (importCodeOf g))%Z /\
      (0 <= Js.indexOf code1
              (embedCodeOf g ++ nl ++ tab ++ tab ++ Placeholder_ExpressController))%Z /\
      (registryPatch g code1 = PatchAlreadyImported \/ registryPatch g code1 = PatchSkipped).
Proof.
  intros g code i j Hplain Hi Hj Hij Habsent.
  assert (exists code1, registryPatch g code = PatchWritten code1) as [code1 Hpatch].
  { unfold registryPatch, Js.search, Js.indexOf at 1. rewrite Hj.
    assert (Js.truthyZ (Z.of_nat j) = true) as ->
      by (unfold Js.truthyZ; apply negb_true_iff, Z.eqb_neq; lia).
    apply Z.leb_gt in Habsent. rewrite Habsent. eauto. }
  exists code1. split; [exact Hpatch|].
  pose proof (registryPatch_inserts_import g code code1 i Hplain Hi Hpatch) as Himport.
  split; [exact Himport|]. split; [|now apply registryPatch_present].
  destruct (registryPatch_written g code code1 Hpatch) as [_ ->].
  unfold plainInsertions in Hplain.
  apply andb_true_iff in Hplain as [Hplain _].
  apply andb_true_iff in Hplain as [Hplain _].
  apply andb_true_iff in Hplain as [Hp1 Hp2].
  rewrite <- (StrFacts.app_assoc (importCodeOf g) nl Placeholder_Import) in Hp1 |- *.
  rewrite (StrFacts.replace_inserts code Placeholder_Import (importCodeOf g ++ nl) i Hp1 Hi).
  (* the controller marker is still there after the import was inserted *)
  destruct (StrFacts.find_Some _ _ _ Hj) as [Hsplit Hlen].
  pose proof (PatchFacts.insert_keeps Placeholder_ExpressController (Js.take j code)
                (Js.drop (j + String.length Placeholder_ExpressController) code)
                (importCodeOf g ++ nl) i) as Hkeeps.
  rewrite <- Hsplit in Hkeeps.
  specialize (Hkeeps ltac:(left; rewrite Hlen; lia)).
  set (code' := Js.take i code ++ (importCodeOf g ++ nl) ++ Js.drop i code) in *.
  unfold Js.indexOf in Hkeeps.
  destruct (Js.find Placeholder_ExpressController code') as [j2|] eqn:Hj2; [|lia].
  unfold Js.replace. rewrite Hj2.
  rewrite StrFacts.expand_plain by exact Hp2.
  apply PatchFacts.indexOf_occurs.
Qed.

End FirstPatch.

Lemma first_patch_registers_the_controller_witness :
  exists code1 : string,
    @registryPatch Sample.lib (Sample.ready "Plain" "profile" "account") Sample.registry
    = PatchWritten code1 /\
    (0 <= Js.indexOf code1
            ("import {ProfileController} from " ++ dq ++ "./controller/account/ProfileController" ++ dq ++ ";"))%Z /\
    (0 <= Js.indexOf code1
            ("profile: ProfileController," ++ nl ++ tab ++ tab ++ "///<vesta:expressController/>"))%Z.
Proof.
  destruct (@first_patch_registers_the_controller Sample.lib
              (Sample.ready "Plain" "profile" "account") Sample.registry 62 139
              eq_refl ltac:(vm_compute; reflexivity) ltac:(vm_compute; reflexivity)
              ltac:(lia) ltac:(vm_compute; reflexivity))
    as (code1 & H1 & H2 & H3 & _).
  exists code1. split; [exact H1|]. split; [exact H2 | exact H3].
Defined.

(** ** What a run leaves behind *)

Section Runs.

Context {E : Externals}.

(** A run that returns has created the controller directory and written the
    controller file: the class rendered, in the directory
    [src/api/<version>/controller/<route>], under the Pascal-cased name
    followed by [Controller.ts]; the registry file is there, and no error was
    logged. *)
Theorem successful_run_writes_the_controller :
  forall (argParser : ArgParser) (w w1 : World) (g1 : ControllerGen),
    init argParser w = (w1, Generated g1) ->
    controllerPath g1 <> registryFile g1 ->
    files w1 (controllerPath g1) = Some (renderFile (controllerFile g1) (controllerClass g1)) /\
    files w1 (registryFile g1) <> None /\
    dirs w1 = (dirs w ++ [path g1])%list /\
    errors w1 = errors w /\
    path g1 = pathJoin ["src/api"; getOr (argVersion argParser) "v1"; "controller";
                        getOr (argRoute argParser) "/"] /\
    exists nm : string,
      argName argParser = Some nm /\
      controllerPath g1 = pathJoin [path g1; pascalCase (camelCase nm) ++ "Controller.ts"].
Proof.
  intros argParser w w1 g1 Hinit Hpaths.
  unfold init in Hinit.
  destruct (argName argParser) as [nm|] eqn:Hname; [|discriminate].
  destruct (negb (Js.truthyS nm) || negb (Js.matchesNameRegexI nm)); [discriminate|].
  destruct (getOr (argModel argParser) ANull) as [| |m]; try discriminate.
  destruct (String.eqb m "true"); [discriminate|].
  set (cfg := mkConfig m nm (getOr (argRoute argParser) "/") (getOr (argVersion argParser) "v1")) in *.
  destruct (ControllerGen_new_fields cfg w) as (Hcfg & _ & _ & _ & _ & Hclass & Hversion & Hpath).
  assert (files (snd (ControllerGen_new cfg w)) = files w /\
          dirs (snd (ControllerGen_new cfg w)) = (dirs w ++ [path (fst (ControllerGen_new cfg w))])%list /\
          errors (snd (ControllerGen_new cfg w)) = errors w) as (Hf & Hd & He).
  { unfold ControllerGen_new, ClassGen_addMethod. cbv beta iota zeta. now repeat split. }
  destruct (ControllerGen_new cfg w) as [g0 w0]. cbn [fst snd] in *.
  destruct (generate g0 w0) as [w2 [g2|e]] eqn:Hgen; [|discriminate].
  injection Hinit as -> ->.
  destruct (generate_Ok g0 g1 w0 w1 Hgen) as [Hcrud [code Hread]].
  pose proof (crud_or_not_extends g0 g1 Hcrud) as Hext.
  destruct Hext as (_ & _ & Hp & _ & _ & _ & _ & Hn & _).
  rewrite (generate_run g0 g1 w0 code Hcrud Hread) in Hgen.
  injection Hgen as <-.
  assert (forall text, dirs (writeFile (controllerPath g1) text w0) = dirs w0 /\
                       errors (writeFile (controllerPath g1) text w0) = errors w0) as Hw
    by (intros; now split).
  repeat split.
  - destruct (registryPatch g1 code);
      rewrite ?files_writeFile_other by exact Hpaths; apply files_writeFile_same.
  - destruct (registryPatch g1 code);
      rewrite ?files_writeFile_same; try discriminate; rewrite Hread; discriminate.
  - destruct (registryPatch g1 code); cbn [dirs writeFile]; now rewrite Hd, Hp.
  - destruct (registryPatch g1 code); cbn [errors writeFile]; exact He.
  - now rewrite Hp, Hpath.
  - exists nm. split; [reflexivity|]. unfold controllerPath.
    rewrite Hn, Hclass, StrFacts.app_assoc. reflexivity.
Qed.

(** The registration of a controller depends on its name, its route and the
    version, not on the model: two generations that agree on these write the
    same controller file, the second over the first, look for the same
    import statement and the same property binding, and patch every registry
    text in the same way. *)
Theorem same_name_same_registration :
  forall (cfg cfg' : IControllerConfig) (w0 w0' w w' w1 w1' : World) (g1 g1' : ControllerGen),
    name cfg = name cfg' ->
    route cfg = route cfg' ->
    version cfg = version cfg' ->
    generate (fst (ControllerGen_new cfg w0)) w = (w1, Ok g1) ->
    generate (fst (ControllerGen_new cfg' w0')) w' = (w1', Ok g1') ->
    controllerPath g1 = controllerPath g1' /\
    registryFile g1 = registryFile g1' /\
    importCodeOf g1 = importCodeOf g1' /\
    embedCodeOf g1 = embedCodeOf g1' /\
    forall code : string, registryPatch g1 code = registryPatch g1' code.
Proof.
  intros cfg cfg' w0 w0' w w' w1 w1' g1 g1' Hname Hroute Hversion Hgen Hgen'.
  destruct (generate_Ok _ _ _ _ Hgen) as [Hcrud _].
  destruct (generate_Ok _ _ _ _ Hgen') as [Hcrud' _].
  pose proof (crud_or_not_extends _ _ Hcrud) as (Hc & Hv & Hp & _ & _ & _ & _ & Hn & _).
  pose proof (crud_or_not_extends _ _ Hcrud') as (Hc' & Hv' & Hp' & _ & _ & _ & _ & Hn' & _).
  destruct (ControllerGen_new_fields cfg w0) as (Hcfg & _ & _ & _ & _ & Hclass & Hver & Hpath).
  destruct (ControllerGen_new_fields cfg' w0') as (Hcfg' & _ & _ & _ & _ & Hclass' & Hver' & Hpath').
  assert (className (controllerClass g1) = className (controllerClass g1')) as Hsame_n
    by (rewrite Hn, Hn', Hclass, Hclass', Hname; reflexivity).
  assert (path g1 = path g1') as Hsame_p
    by (rewrite Hp, Hp', Hpath, Hpath', Hroute, Hversion; reflexivity).
  assert (apiVersion g1 = apiVersion g1') as Hsame_v
    by (rewrite Hv, Hv', Hver, Hver', Hversion; reflexivity).
  assert (name (config g1) = name (config g1')) as Hsame_name
    by (rewrite Hc, Hc', Hcfg, Hcfg', Hname; reflexivity).
  assert (importCodeOf g1 = importCodeOf g1') as Himp
    by (unfold importCodeOf; now rewrite Hsame_n, Hsame_p, Hsame_v).
  assert (embedCodeOf g1 = embedCodeOf g1') as Hemb
    by (unfold embedCodeOf; now rewrite Hsame_n, Hsame_name).
  repeat split; try assumption.
  - unfold controllerPath. now rewrite Hsame_n, Hsame_p.
  - unfold registryFile. now rewrite Hsame_v.
  - intros code. unfold registryPatch. now rewrite Himp, Hemb.
Qed.

End Runs.

Lemma successful_run_writes_the_controller_witness :
  files (fst (Sample.run "profile" "Post" "account" Sample.project))
    "src/api/v1/controller/account/ProfileController.ts"
  = Some (@renderFile Sample.lib
            (controllerFile (Sample.generatedBy (Sample.run "profile" "Post" "account" Sample.project)))
            (controllerClass (Sample.generatedBy (Sample.run "profile" "Post" "account" Sample.project)))) /\
  dirs (fst (Sample.run "profile" "Post" "account" Sample.project))
  = ["src/api/v1/controller/account"].
Proof.
  destruct (@successful_run_writes_the_controller Sample.lib
              (Sample.commandLine (Some "profile") (Some (AStr "Post")) (Some "account"))
              Sample.project
              (fst (Sample.run "profile" "Post" "account" Sample.project))
              (Sample.generatedBy (Sample.run "profile" "Post" "account" Sample.project))
              ltac:(vm_compute; reflexivity) ltac:(vm_compute; discriminate))
    as (H1 & _ & H3 & _).
  split; [exact H1 | exact H3].
Defined.

Lemma same_name_same_registration_witness :
  files (fst (Sample.run "profile" "Plain" "account"
                (fst (Sample.run "profile" "Post" "account" Sample.project))))
    "src/api/v1/import.ts"
  = files (fst (Sample.run "profile" "Post" "account" Sample.project)) "src/api/v1/import.ts" /\
  @registryPatch Sample.lib
    (Sample.generatedBy (Sample.run "profile" "Post" "account" Sample.project)) Sample.registry
  = @registryPatch Sample.lib
      (Sample.generatedBy (Sample.run "profile" "Plain" "account" Sample.project)) Sample.registry.
Proof.
  split; [vm_compute; reflexivity|].
  apply (@same_name_same_registration Sample.lib
           (mkConfig "Post" "profile" "account" "v1") (mkConfig "Plain" "profile" "account" "v1")
           Sample.project Sample.project
           (snd (@ControllerGen_new Sample.lib (mkConfig "Post" "profile" "account" "v1") Sample.project))
           (snd (@ControllerGen_new Sample.lib (mkConfig "Plain" "profile" "account" "v1") Sample.project))
           (fst (Sample.run "profile" "Post" "account" Sample.project))
           (fst (Sample.run "profile" "Plain" "account" Sample.project))
           _ _ eq_refl eq_refl eq_refl);
    vm_compute; reflexivity.
Defined.

(** ** A relation field without relation metadata *)

Section UnknownRelation.

Context {E : Externals}.

(** A method that throws [e] on every generator object with the base of
    [g]. *)
Lemma forDownM_throws {A : Type} (n : nat) (body : nat -> GenM (list A)) (g : ControllerGen)
  (e : JsError) :
  (forall i, i < n ->
     (forall s, base s = base g -> body i s = Throw e) \/ exists l, requests (body i) g l) ->
  (exists i, i < n /\ forall s, base s = base g -> body i s = Throw e) ->
  forall s, base s = base g -> forDownM n body s = Throw e.
Proof.
  induction n as [|n IH]; intros Hall [i [Hi Hthrows]] s Hs; [lia|].
  cbn [forDownM]. unfold bind at 1.
  destruct (Hall n (Nat.lt_succ_diag_r n)) as [Hn | [l [a Ha]]].
  - now rewrite (Hn s Hs).
  - pose proof (Ha s Hs) as Hrun. rewrite Hrun.
    assert (i < n) as Hlt.
    { destruct (Nat.eq_dec i n) as [->|]; [|lia].
      rewrite (Hthrows s Hs) in Hrun. discriminate. }
    unfold bind. rewrite IH; [reflexivity | | eauto | exact Hs].
    intros j Hj. apply Hall. lia.
Qed.

Lemma getConfFieldRemovingCode_throws (singleRecord : bool) (g : ControllerGen) :
  relationsKnown (model (config g)) (relationsFields g) = false ->
  forall s, base s = base g ->
    getConfFieldRemovingCode singleRecord s = Throw (TypeError "meta.relation is undefined").
Proof.
  intros Hknown s Hs. unfold getConfFieldRemovingCode. rewrite bind_this. cbv zeta.
  on_base Hs. unfold relationsKnown in Hknown.
  destruct (relationsFields g) as [fields|]; [|discriminate].
  unfold bind at 1.
  rewrite (forDownM_throws _ _ g (TypeError "meta.relation is undefined")); [reflexivity | | | exact Hs].
  - intros i Hi.
    destruct (relation (getFieldMeta (model (config g)) (Js.at_ (Object_keys fields) i)))
      as [r|]; [right | now left].
    destruct (hasLength (getConfidentialFields (relModel r))).
    + eexists. apply requests_pure; [apply requests_addImport | intros _; apply requests_ret].
    + eexists. apply requests_ret.
  - assert (exists k, In k (Object_keys fields) /\
                      relation (getFieldMeta (model (config g)) k) = None) as [k [Hin Hk]].
    { destruct (forallb _ (Object_keys fields)) eqn:Hall; [discriminate|].
      clear Hknown. induction (Object_keys fields) as [|x l IH]; [discriminate|].
      cbn [forallb] in Hall.
      destruct (relation (getFieldMeta (model (config g)) x)) eqn:Hx.
      - destruct (IH Hall) as [k [Hin Hk]]. exists k. split; [now right | exact Hk].
      - exists x. split; [now left | exact Hx]. }
    apply In_nth with (d := "undefined") in Hin as [i [Hi Hnth]].
    exists i. split; [exact Hi|]. intros s' _. unfold Js.at_. rewrite Hnth, Hk. reflexivity.
Qed.

Lemma getQueryCodeForSingleInstance_throws (g : ControllerGen) :
  relationsKnown (model (config g)) (relationsFields g) = false ->
  forall s, base s = base g ->
    getQueryCodeForSingleInstance s = Throw (TypeError "meta.relation is undefined").
Proof.
  intros Hknown s Hs.
  pose proof (emits_ownerChecks g) as Hchecks. cbv zeta in Hchecks.
  unfold getQueryCodeForSingleInstance. rewrite bind_this. cbv zeta. on_base Hs.
  rewrite (bind_run _ _ _ _ _ (Hchecks s Hs)).
  set (s1 := addImports (ownerImports (model (config g)) (path g) (ownerVerifiedFields g)) s).
  rewrite (bind_run _ _ _ _ _ (emits_getAuthUserCode g s1 Hs)).
  unfold bind.
  now rewrite (getConfFieldRemovingCode_throws true g Hknown (addImports [] s1) Hs).
Qed.

(** When the schema provider lists a relation field for which it has no
    relation metadata, the handlers cannot be synthesized: [generate] throws
    the TypeError of [meta.relation.path] while it adds the detail handler, and
    nothing has been written by then. *)
Theorem unknown_relation_aborts_generation :
  forall (cfg : IControllerConfig) (w0 w : World),
    model cfg <> "" ->
    relationsKnown (model cfg) (getFieldsByType (model cfg) FieldType.Relation) = false ->
    generate (fst (ControllerGen_new cfg w0)) w
    = (w, Throw (TypeError "meta.relation is undefined")).
Proof.
  intros cfg w0 w Hmodel Hknown.
  destruct (ControllerGen_new_class cfg w0) as (Hroute & Hms & _ & _ & _ & Hcfg & _).
  remember (fst (ControllerGen_new cfg w0)) as g0 eqn:Hg0. clear Hg0.
  set (g1 := setSecurity (getFieldsByType (model (config g0)) FieldType.Relation)
               (getOwnerVerifiedFields (model (config g0)))
               (getConfidentialFields (model (config g0))) g0).
  assert (relationsKnown (model (config g1)) (relationsFields g1) = false) as Hk
    by (cbn; rewrite Hcfg; exact Hknown).
  destruct (requests_getCountCode g1) as [c1 H1].
  assert (forall n1 f1 n2 f2 n3 f3,
             setControllerFile
               (TsFileGen_addImport n3 f3
                  (TsFileGen_addImport n2 f2
                     (TsFileGen_addImport n1 f1 (controllerFile g1)))) g1
             = assembled g1 [(n1, f1); (n2, f2); (n3, f3)] [] []) as Hstart.
  { intros n1 f1 n2 f2 n3 f3.
    unfold assembled, addImports, TsFileGen_addImport.
    subst g1. destruct g0 as [c v cf [n e p ms] [fn im] ff ov pa rn rf rm rp].
    cbn in *. subst ms. now rewrite <- !List.app_assoc. }
  unfold generate. rewrite Hcfg.
  assert (Js.truthyS (model cfg) = true) as ->
    by (destruct (model cfg); [congruence | reflexivity]).
  assert (addCRUDOperations g0 = Throw (TypeError "meta.relation is undefined")) as ->;
    [|reflexivity].
  unfold addCRUDOperations. rewrite bind_this. cbv zeta.
  rewrite bind_modify, !bind_addImport. fold g1.
  cbn [controllerFile setControllerFile].
  rewrite Hroute, !setControllerFile_twice, Hstart.
  handler_step H1.
  rewrite step_addResponseMethod. cbv beta.
  unfold bind at 1. unfold getQueryCode.
  match goal with
  | |- context [getQueryCodeForSingleInstance ?s] =>
      rewrite (getQueryCodeForSingleInstance_throws g1 Hk s eq_refl)
  end.
  reflexivity.
Qed.

End UnknownRelation.

(** A schema provider that lists a relation field and knows no relation for
    it. *)
Lemma unknown_relation_aborts_generation_witness :
  @generate
    (Sample.externals [("Broken", [Sample.mkDecl "owner" FieldType.Relation false None false false])])
    (fst (@ControllerGen_new
            (Sample.externals [("Broken", [Sample.mkDecl "owner" FieldType.Relation false None false false])])
            (mkConfig "Broken" "broken" "/" "v1") Sample.project))
    Sample.project
  = (Sample.project, Throw (TypeError "meta.relation is undefined")).
Proof.
  exact (@unknown_relation_aborts_generation
           (Sample.externals [("Broken", [Sample.mkDecl "owner" FieldType.Relation false None false false])])
           (mkConfig "Broken" "broken" "/" "v1") Sample.project Sample.project
           ltac:(discriminate) eq_refl).
Defined.

(** * The command-line entry point *)

Module CliFacts.

Lemma matchName_two (a b : ascii) (rest : string) :
  Js.isAsciiLetter a = true -> Cli.isNameChar b = true ->
  Cli.matchName (String a (String b rest)) <> None.
Proof.
  intros Ha Hb. cbn [Cli.matchName Cli.spanWhile]. rewrite Ha, Hb. discriminate.
Qed.

Lemma matchName_inv (s : string) :
  Cli.matchName s <> None ->
  exists a b rest, s = String a (String b rest) /\
                   Js.isAsciiLetter a = true /\ Cli.isNameChar b = true.
Proof.
  destruct s as [|a [|b rest]]; cbn [Cli.matchName Cli.spanWhile].
  - congruence.
  - destruct (Js.isAsciiLetter a); congruence.
  - destruct (Js.isAsciiLetter a) eqn:Ha; [|congruence].
    destruct (Cli.isNameChar b) eqn:Hb; [|congruence].
    intros _. now exists a, b, rest.
Qed.

Lemma split_plain (a : string) : Js.noChar "/" a = true -> Cli.split a = [a].
Proof.
  induction a as [|c a IH]; intros H; [reflexivity|].
  cbn [Js.noChar] in H. apply andb_true_iff in H as [Hc Ha].
  apply negb_true_iff in Hc. rewrite Ascii.eqb_sym in Hc.
  cbn [Cli.split]. now rewrite Hc, (IH Ha).
Qed.

Lemma split_app (a b : string) :
  Js.noChar "/" a = true -> Cli.split (a ++ "/" ++ b) = a :: Cli.split b.
Proof.
  induction a as [|c a IH]; intros H; [reflexivity|].
  cbn [Js.noChar] in H. apply andb_true_iff in H as [Hc Ha].
  apply negb_true_iff in Hc. rewrite Ascii.eqb_sym in Hc.
  cbn [String.append Cli.split]. rewrite Hc.
  cbn [String.append] in IH. now rewrite (IH Ha).
Qed.

End CliFacts.

(** The name check of the command line looks at the first two characters
    only: a name passes exactly when it starts with a letter followed by a
    letter, a digit, a dash or an underscore.  So a name of one letter is
    refused, and a name that passes still passes with any text behind it. *)
Theorem cli_name_check_reads_two_characters :
  forall s : string,
    (Cli.matchName s <> None <->
     exists a b rest, s = String a (String b rest) /\
                      Js.isAsciiLetter a = true /\ Cli.isNameChar b = true) /\
    (forall t : string, Cli.matchName s <> None -> Cli.matchName (s ++ t) <> None) /\
    (forall c : ascii, Cli.matchName (String c "") = None).
Proof.
  intros s. split; [|split].
  - split; [apply CliFacts.matchName_inv|].
    intros (a & b & rest & -> & Ha & Hb). now apply CliFacts.matchName_two.
  - intros t H. apply CliFacts.matchName_inv in H as (a & b & rest & -> & Ha & Hb).
    cbn [String.append]. now apply CliFacts.matchName_two.
  - intros c. cbn. now destruct (Js.isAsciiLetter c).
Qed.

Section CliCommands.

Variable toLowerCase : string -> string.
Variable camelCase : string -> string.

(** [generateCode] checks the name before it looks at the type: without a
    name that passes the check it reports the invalid name for every type,
    known or not; without any argument it throws.  An unknown type is
    reported, in lower case, only once the name has passed. *)
Theorem generateCode_checks_the_name_first :
  forall (type : string) (rest : list string) (clientSide : bool),
    Cli.generateCode toLowerCase [] clientSide = Cli.ThrowsTypeError /\
    (match nth_error rest 0 with
     | Some name => Cli.matchName name = None
     | None => True
     end ->
     Cli.generateCode toLowerCase (type :: rest) clientSide
     = Cli.LogsError "Please enter a valid name") /\
    (forall name, nth_error rest 0 = Some name -> Cli.matchName name <> None ->
       existsb (String.eqb (toLowerCase type))
         ["controller"; "model"; "directive"; "filter"; "service"; "form"; "sass"] = false ->
       Cli.generateCode toLowerCase (type :: rest) clientSide
       = Cli.LogsError ("Invalid generator option " ++ toLowerCase type)).
Proof.
  intros type rest clientSide. split; [reflexivity|]. split.
  - intros H. cbn [Cli.generateCode].
    destruct (nth_error rest 0) as [name|]; [|reflexivity].
    rewrite H. now rewrite orb_true_r.
  - intros name Hname Hok Htype. cbn [Cli.generateCode]. rewrite Hname.
    assert (Js.truthyS name = true) as ->
      by (destruct name; [now cbn in Hok | reflexivity]).
    destruct (Cli.matchName name); [|congruence]. cbn [negb orb].
    cbn [existsb] in Htype. rewrite !orb_false_iff in Htype.
    destruct Htype as (-> & -> & -> & -> & -> & -> & -> & _). reflexivity.
Qed.

(** [createProject] reads the text before the first slash as the category
    and the text between the first and the second slash as the name; what
    follows a second slash is dropped.  Without a slash, or with nothing
    behind the first one, the whole text is the name and the category is
    empty. *)
Theorem createProject_reads_two_segments :
  forall category name rest : string,
    Js.noChar "/" category = true ->
    Js.noChar "/" name = true ->
    name <> "" ->
    Cli.createProject camelCase (category ++ "/" ++ name) =
      (match Cli.matchName name with
       | Some _ => Cli.RequestsProject (camelCase name) category
       | None => Cli.LogsError "projectName may only contains [letters, numbers, dash, underscore]"
       end) /\
    Cli.createProject camelCase (category ++ "/" ++ name ++ "/" ++ rest)
    = Cli.createProject camelCase (category ++ "/" ++ name) /\
    Cli.createProject camelCase name = Cli.createProject camelCase ("/" ++ name) /\
    Cli.createProject camelCase (name ++ "/") = Cli.createProject camelCase name.
Proof.
  intros category name rest Hc Hn Hne.
  assert (Js.truthyS name = true) as Htruthy by (destruct name; [congruence | reflexivity]).
  assert (Cli.createProject camelCase (category ++ "/" ++ name) =
          match Cli.matchName name with
          | Some _ => Cli.RequestsProject (camelCase name) category
          | None => Cli.LogsError "projectName may only contains [letters, numbers, dash, underscore]"
          end) as Htwo.
  { unfold Cli.createProject. rewrite (CliFacts.split_app category name Hc).
    rewrite (CliFacts.split_plain name Hn). cbn [nth nth_error]. now rewrite Htruthy. }
  split; [exact Htwo|]. split; [|split].
  - rewrite Htwo. unfold Cli.createProject.
    rewrite (CliFacts.split_app category (name ++ "/" ++ rest) Hc).
    rewrite (CliFacts.split_app name rest Hn). cbn [nth nth_error]. now rewrite Htruthy.
  - unfold Cli.createProject at 1. rewrite (CliFacts.split_plain name Hn).
    cbn [nth nth_error].
    unfold Cli.createProject. change ("/" ++ name) with ("" ++ "/" ++ name).
    rewrite (CliFacts.split_app "" name eq_refl).
    rewrite (CliFacts.split_plain name Hn). cbn [nth nth_error]. now rewrite Htruthy.
  - unfold Cli.createProject. change (name ++ "/") with (name ++ "/" ++ "").
    rewrite (CliFacts.split_app name "" Hn), (CliFacts.split_plain name Hn).
    reflexivity.
Qed.

End CliCommands.

Lemma generateCode_checks_the_name_first_witness :
  Cli.generateCode (fun s => s) ["nosuchtype"; "x"] false
  = Cli.LogsError "Please enter a valid name".
Proof.
  exact (proj1 (proj2 (generateCode_checks_the_name_first (fun s => s) "nosuchtype" ["x"] false))
           eq_refl).
Defined.

Lemma createProject_reads_two_segments_witness :
  Cli.createProject (fun s => s) "api/shop/extra"
  = Cli.createProject (fun s => s) "api/shop".
Proof.
  exact (proj1 (proj2 (createProject_reads_two_segments (fun s => s) "api" "shop" "extra"
                         eq_refl eq_refl ltac:(discriminate)))).
Defined.

(** Names that pass the check although they hold other characters, and
    names that do not. *)
Example cli_names :
  map (fun s => match Cli.matchName s with Some _ => true | None => false end)
      ["ab"; "a"; "a1"; "a-"; "ab c!"; "1ab"; "_ab"; ""]
  = [true; false; true; true; true; false; false; false].
Proof. reflexivity. Qed.

(** * Texts that a template cannot hold *)

Module TemplateFacts.

Import Template.

Lemma snoc_inj (a b : string) (c d : ascii) :
  a ++ String c "" = b ++ String d "" -> a = b /\ c = d.
Proof.
  revert b. induction a as [|x a IH]; intros [|y b] H; cbn in H.
  - injection H as ->. now split.
  - injection H as -> H. destruct b; discriminate.
  - injection H as -> H. destruct a; discriminate.
  - injection H as -> H. destruct (IH b H) as [-> ->]. now split.
Qed.

Lemma snoc_cases (b : string) : b = "" \/ exists b' c, b = b' ++ String c "".
Proof.
  induction b as [|x b IH]; [now left | right].
  destruct IH as [-> | (b' & c & ->)]; [now exists "", x | now exists (String x b'), c].
Qed.

Lemma take_snoc (k : nat) (p : string) :
  k < String.length p ->
  exists d, String.get k p = Some d /\ Js.take (S k) p = Js.take k p ++ String d "".
Proof.
  revert k. induction p as [|x p IH]; intros k Hk; cbn in Hk; [lia|].
  destruct k as [|k].
  - exists x. split; [reflexivity|]. cbn. now destruct p.
  - destruct (IH k) as [d [Hd Ht]]; [lia|]. exists d. split; [exact Hd|].
    change (Js.take (S (S k)) (String x p)) with (String x (Js.take (S k) p)).
    rewrite Ht. reflexivity.
Qed.

Lemma take_all (p : string) : Js.take (String.length p) p = p.
Proof. induction p as [|x p IH]; cbn; [reflexivity | now rewrite IH]. Qed.

Lemma take_zero (p : string) : Js.take 0 p = "".
Proof. now destruct p. Qed.

Lemma get_drop (j m : nat) (p : string) :
  String.get (j + m) p = String.get m (Js.drop j p).
Proof.
  revert p. induction j as [|j IH]; intros p; [now destruct p|].
  destruct p as [|x p]; cbn; [now destruct m | apply IH].
Qed.

Lemma identRun_stop (s : string) (c : ascii) :
  String.get (identRun s) s = Some c -> isIdentifierChar c = false.
Proof.
  induction s as [|x s IH]; cbn; [discriminate|].
  destruct (isIdentifierChar x) eqn:Hx; cbn.
  - exact IH.
  - intros H. injection H as <-. exact Hx.
Qed.

Lemma render_app (ps qs : list Piece) : render (ps ++ qs) = render ps ++ render qs.
Proof.
  induction ps as [|p ps IH]; cbn [List.app render]; [reflexivity|].
  now rewrite IH, StrFacts.app_assoc.
Qed.

Lemma render_flat_map {A : Type} (block : A -> list Piece) (keys : list A) :
  render (flat_map block keys) = String.concat "" (map (fun k => render (block k)) keys).
Proof.
  induction keys as [|k keys IH]; [reflexivity|].
  cbn [flat_map map]. rewrite render_app, IH.
  destruct keys; cbn [map String.concat]; [now rewrite StrFacts.app_nil_r | reflexivity].
Qed.

Lemma within_incl (small large : list nat) :
  within small large = true -> incl small large.
Proof.
  unfold within. intros H k Hk. rewrite forallb_forall in H.
  specialize (H k Hk). apply existsb_exists in H as [x [Hx Heq]].
  apply Nat.eqb_eq in Heq. now subst.
Qed.

Section Matching.

Variable pat : string.

Lemma covers_start : covers pat [0] "".
Proof.
  split.
  - intros k a Hk H. left.
    assert (String.length (a ++ Js.take k pat) = 0) as Hlen by now rewrite <- H.
    rewrite StrFacts.length_app in Hlen.
    destruct k as [|k]; [reflexivity|].
    destruct (take_snoc k pat) as [d [_ Ht]]; [lia|].
    rewrite Ht, StrFacts.length_app in Hlen. cbn in Hlen. lia.
  - intros [a [b H]]. left.
    assert (String.length (a ++ pat ++ b) = 0) as Hlen by now rewrite <- H.
    rewrite !StrFacts.length_app in Hlen. lia.
Qed.

Lemma covers_mono (S T : list nat) (w : string) :
  covers pat S w -> incl S T -> covers pat T w.
Proof.
  intros [Hk Hocc] Hincl. split.
  - intros k a Hle H. apply Hincl. now apply (Hk k a).
  - intros H. apply Hincl. now apply Hocc.
Qed.

Lemma in_advance (c : ascii) (S : list nat) (x : nat) :
  In x (advance pat c S) <->
  x = 0 \/ (x = String.length pat /\ In x S) \/
  exists k, x = Datatypes.S k /\ In k S /\ String.get k pat = Some c.
Proof.
  unfold advance. rewrite nodup_In. cbn [In]. rewrite in_app_iff, in_map_iff.
  split.
  - intros [<- | [H | [k [<- Hk]]]].
    + now left.
    + right. left.
      destruct (existsb (Nat.eqb (String.length pat)) S) eqn:Hex; [|contradiction].
      destruct H as [<- | []]. split; [reflexivity|].
      apply existsb_exists in Hex as [y [Hy Heq]]. apply Nat.eqb_eq in Heq. now subst.
    + right. right. exists k. apply filter_In in Hk as [Hin Hget].
      split; [reflexivity|]. split; [exact Hin|].
      destruct (String.get k pat) as [d|]; [|discriminate].
      apply Ascii.eqb_eq in Hget. now subst.
  - intros [-> | [[-> Hin] | [k [-> [Hin Hget]]]]].
    + now left.
    + right. left.
      assert (existsb (Nat.eqb (String.length pat)) S = true) as ->.
      { apply existsb_exists. exists (String.length pat). split; [exact Hin | apply Nat.eqb_refl]. }
      now left.
    + right. right. exists k. split; [reflexivity|]. apply filter_In. split; [exact Hin|].
      rewrite Hget. apply Ascii.eqb_refl.
Qed.

Lemma covers_advance (c : ascii) (S : list nat) (w : string) :
  covers pat S w -> covers pat (advance pat c S) (w ++ String c "").
Proof.
  intros [Hk Hocc].
  assert (forall k a, k <= String.length pat -> w ++ String c "" = a ++ Js.take k pat ->
                      In k (advance pat c S)) as Hpart.
  { intros k a Hle Heq. apply in_advance. destruct k as [|k]; [now left|]. right. right.
    destruct (take_snoc k pat) as [d [Hd Ht]]; [lia|].
    rewrite Ht, <- StrFacts.app_assoc in Heq. apply snoc_inj in Heq as [Hw ->].
    exists k. split; [reflexivity|]. split; [|exact Hd].
    apply (Hk k a); [lia | exact Hw]. }
  split; [exact Hpart|].
  intros [a [b Heq]]. destruct (snoc_cases b) as [-> | (b' & c' & ->)].
  - apply (Hpart (String.length pat) a); [lia|].
    rewrite take_all, Heq. now rewrite StrFacts.app_nil_r.
  - apply in_advance. right. left. split; [reflexivity|]. apply Hocc.
    exists a, b'.
    assert (w ++ String c "" = (a ++ pat ++ b') ++ String c' "") as H
      by (rewrite Heq; now rewrite !StrFacts.app_assoc).
    now apply snoc_inj in H as [-> _].
Qed.

Lemma covers_text (s : string) :
  forall (S : list nat) (w : string),
    covers pat S w -> covers pat (advanceText pat s S) (w ++ s).
Proof.
  induction s as [|c s IH]; intros S w H; cbn [advanceText].
  - now rewrite StrFacts.app_nil_r.
  - replace (w ++ String c s) with ((w ++ String c "") ++ s)
      by (now rewrite StrFacts.app_assoc).
    apply IH. now apply covers_advance.
Qed.

Lemma in_skipName (S : list nat) (k : nat) :
  In k (skipName pat S) <->
  exists j, In j S /\ j <= k <= j + identRun (Js.drop j pat).
Proof.
  unfold skipName. rewrite nodup_In, in_flat_map. split.
  - intros [j [Hj Hk]]. apply in_seq in Hk. exists j. split; [exact Hj | lia].
  - intros [j [Hj Hk]]. exists j. split; [exact Hj|]. apply in_seq. lia.
Qed.

Lemma covers_name_more (S : list nat) (s : string) :
  forall w : string,
    isIdentifier s = true ->
    covers pat (skipName pat S) w -> covers pat (skipName pat S) (w ++ s).
Proof.
  induction s as [|c s IH]; intros w Hs H.
  - now rewrite StrFacts.app_nil_r.
  - cbn [isIdentifier] in Hs. apply andb_true_iff in Hs as [Hc Hs].
    replace (w ++ String c s) with ((w ++ String c "") ++ s)
      by (now rewrite StrFacts.app_assoc).
    apply IH; [exact Hs|].
    apply covers_mono with (S := advance pat c (skipName pat S));
      [now apply covers_advance|].
    intros x Hx. apply in_advance in Hx as [-> | [[_ Hin] | [k [-> [Hin Hget]]]]].
    + apply (proj1 H 0 w); [lia|]. now rewrite take_zero, StrFacts.app_nil_r.
    + exact Hin.
    + apply in_skipName in Hin as [j [Hj Hk]]. apply in_skipName.
      exists j. split; [exact Hj|].
      assert (k <> j + identRun (Js.drop j pat)) as Hneq.
      { intros ->. rewrite get_drop in Hget. apply identRun_stop in Hget. congruence. }
      lia.
Qed.

Lemma covers_name (S : list nat) (s w : string) :
  isIdentifier s = true ->
  covers pat S w -> covers pat (skipName pat S) (w ++ s).
Proof.
  intros Hs H. apply covers_name_more; [exact Hs|].
  apply covers_mono with (S := S); [exact H|].
  intros j Hj. apply in_skipName. exists j. split; [exact Hj | lia].
Qed.

Lemma covers_run (ps : list Piece) :
  forall (S : list nat) (w : string),
    plainNames ps ->
    covers pat S w -> covers pat (run pat ps S) (w ++ render ps).
Proof.
  induction ps as [|p ps IH]; intros S w Hnames H; cbn [run render].
  - now rewrite StrFacts.app_nil_r.
  - inversion Hnames as [|p' ps' Hp Hps]; subst.
    rewrite <- StrFacts.app_assoc.
    destruct p as [s|s]; cbn [pieceText]; apply IH; try exact Hps.
    + now apply covers_text.
    + now apply covers_name.
Qed.

(** A part of the template that leads from the partial states back into
    them keeps a text free of [pat]. *)
Lemma covers_part (ps : list Piece) (w : string) :
  plainNames ps ->
  within (run pat ps (partial pat)) (partial pat) = true ->
  covers pat (partial pat) w -> covers pat (partial pat) (w ++ render ps).
Proof.
  intros Hnames Hin H.
  apply covers_mono with (S := run pat ps (partial pat)).
  - now apply covers_run.
  - now apply within_incl.
Qed.

Lemma covers_blocks {A : Type} (block : A -> list Piece) (keys : list A) :
  (forall k, In k keys -> plainNames (block k)) ->
  (forall k, within (run pat (block k) (partial pat)) (partial pat) = true) ->
  forall w : string,
    covers pat (partial pat) w -> covers pat (partial pat) (w ++ render (flat_map block keys)).
Proof.
  intros Hnames Hin. induction keys as [|k keys IH]; intros w H; cbn [flat_map].
  - now rewrite StrFacts.app_nil_r.
  - rewrite render_app, <- StrFacts.app_assoc. apply IH.
    + intros k' Hk'. apply Hnames. now right.
    + apply covers_part; [apply Hnames; now left | apply Hin | exact H].
Qed.

Lemma covers_absent (S : list nat) (w : string) :
  covers pat S w -> reached pat S = false -> Js.find pat w = None.
Proof.
  intros [_ Hocc] Hreached. destruct (Js.find pat w) as [i|] eqn:Hfind; [|reflexivity].
  exfalso. destruct (StrFacts.find_Some _ _ _ Hfind) as [Hsplit _].
  assert (In (String.length pat) S) as Hin by (apply Hocc; eexists _, _; exact Hsplit).
  unfold reached in Hreached.
  assert (existsb (Nat.eqb (String.length pat)) S = true) as Htrue.
  { apply existsb_exists. exists (String.length pat). split; [exact Hin | apply Nat.eqb_refl]. }
  congruence.
Qed.

End Matching.

End TemplateFacts.

(** ** The upload handler and the security profile (C9) *)

Section UploadSecurity.

Context {E : Externals}.

(** The text of the upload handler is its template, with the names of the
    model and of its File-typed fields put in. *)
Lemma getUploadCode_template (g : ControllerGen) (fields : IModelFields) :
  filesFields g = Some fields ->
  codeOf (getUploadCode g) =
  Ok (Template.render
        (uploadPieces (pascalCase (model (config g)))
           (camelCase (pascalCase (model (config g)))) (Object_keys fields))).
Proof.
  intros Hfiles. unfold getUploadCode, bind, this, addImport, modify, ret.
  cbn [filesFields setControllerFile config]. rewrite Hfiles. cbn [codeOf].
  set (M := pascalCase (model (config g))). set (inst := camelCase M).
  f_equal.
  pose (F := fun f : string =>
          nl ++
          "        if (upl." ++ f ++ ") {" ++ nl ++
          "            const " ++ ("old" ++ pascalCase f) ++ " = " ++ inst ++ "." ++ f ++ ";" ++ nl ++
          "            delList.push(FileUploader.checkAndDeleteFile(`${destDirectory}/${" ++
          ("old" ++ pascalCase f) ++ "}`)" ++ nl ++
          "                .then(() => " ++ inst ++ "." ++ f ++ " = upl." ++ f ++
          " as string));" ++ nl ++
          "        }").
  assert (forall f, F f = Template.render (uploadBlock inst f)) as Hext
    by (intros f; unfold F, uploadBlock; cbn [Template.render Template.pieceText];
        same_text StrFacts.app_assoc).
  change (forUp (List.length (Object_keys fields)) _)
    with (forUp (List.length (Object_keys fields)) (fun i => [F (Js.at_ (Object_keys fields) i)])).
  rewrite (forUp_at (Object_keys fields) F), (map_ext _ _ Hext).
  clear F Hext. unfold uploadPieces. rewrite !TemplateFacts.render_app.
  destruct (Object_keys fields) as [|f [|f' keys]].
  - cbn [List.length Nat.eqb map String.concat uploadFiles flat_map List.app].
    unfold uploadHead, uploadTail. cbn [Template.render Template.pieceText].
    same_text StrFacts.app_assoc.
  - cbn [List.length Nat.eqb Js.at_ nth uploadFiles].
    unfold uploadHead, uploadTail. cbn [Template.render Template.pieceText].
    same_text StrFacts.app_assoc.
  - cbn [List.length Nat.eqb]. unfold uploadFiles.
    cbn [Template.render Template.pieceText].
    rewrite TemplateFacts.render_app, TemplateFacts.render_flat_map.
    generalize (String.concat ""
                  (map (fun k => Template.render (uploadBlock inst k)) (f :: f' :: keys))).
    intros blocks. unfold uploadHead, uploadTail. cbn [Template.render Template.pieceText].
    same_text StrFacts.app_assoc.
Qed.

Lemma plainNames_uploadHead (M inst : string) :
  Template.isIdentifier M = true -> Template.isIdentifier inst = true ->
  Template.plainNames (uploadHead M inst).
Proof. intros HM Hinst. unfold uploadHead. repeat constructor; assumption. Qed.

Lemma plainNames_uploadTail (inst : string) :
  Template.isIdentifier inst = true -> Template.plainNames (uploadTail inst).
Proof. intros Hinst. unfold uploadTail. repeat constructor; assumption. Qed.

Lemma plainNames_uploadBlock (inst f : string) :
  Template.isIdentifier inst = true ->
  Template.isIdentifier f = true -> Template.isIdentifier (pascalCase f) = true ->
  Template.plainNames (uploadBlock inst f).
Proof. intros Hinst Hf Hp. unfold uploadBlock. repeat constructor; assumption. Qed.

(** A text that the parts of the template cannot complete, whatever the
    names are, does not occur in the handler. *)
Lemma upload_absent (pat M inst : string) (fileNames : list string) :
  (forall a b, Template.within (Template.run pat (uploadHead a b) [0]) (Template.partial pat) = true) ->
  (forall a f, Template.reached pat
                 (Template.run pat (uploadFiles a [f] ++ uploadTail a) (Template.partial pat)) = false) ->
  Template.within
    (Template.run pat [Template.Lit "const delList: Array<Promise<string>> = [];"]
       (Template.partial pat)) (Template.partial pat) = true ->
  (forall a f, Template.within (Template.run pat (uploadBlock a f) (Template.partial pat))
                 (Template.partial pat) = true) ->
  (forall a, Template.reached pat
               (Template.run pat
                  (Template.Lit (nl ++ "        await Promise.all(delList);") :: uploadTail a)
                  (Template.partial pat)) = false) ->
  Template.isIdentifier M = true ->
  Template.isIdentifier inst = true ->
  Forall (fun f => Template.isIdentifier f = true /\ Template.isIdentifier (pascalCase f) = true)
    fileNames ->
  Js.find pat (Template.render (uploadPieces M inst fileNames)) = None.
Proof.
  intros Chead Csingle Cfirst Cblock Clast HM Hinst Hfields.
  assert (Template.covers pat (Template.partial pat) (Template.render (uploadHead M inst))) as Hhead.
  { apply TemplateFacts.covers_mono with (S := Template.run pat (uploadHead M inst) [0]).
    - apply (TemplateFacts.covers_run pat (uploadHead M inst) [0] "").
      + now apply plainNames_uploadHead.
      + apply TemplateFacts.covers_start.
    - apply TemplateFacts.within_incl, Chead. }
  assert (forall keys,
             Forall (fun f => Template.isIdentifier f = true /\
                              Template.isIdentifier (pascalCase f) = true) keys ->
             Js.find pat
               (Template.render
                  (uploadHead M inst ++
                   (Template.Lit "const delList: Array<Promise<string>> = [];" ::
                    flat_map (uploadBlock inst) keys ++
                    [Template.Lit (nl ++ "        await Promise.all(delList);")]) ++
                   uploadTail inst)) = None) as Hmulti.
  { intros keys Hkeys.
    replace (uploadHead M inst ++
             (Template.Lit "const delList: Array<Promise<string>> = [];" ::
              flat_map (uploadBlock inst) keys ++
              [Template.Lit (nl ++ "        await Promise.all(delList);")]) ++
             uploadTail inst)%list
      with (uploadHead M inst ++
            [Template.Lit "const delList: Array<Promise<string>> = [];"] ++
            flat_map (uploadBlock inst) keys ++
            (Template.Lit (nl ++ "        await Promise.all(delList);") :: uploadTail inst))%list
      by (cbn [List.app]; now rewrite <- app_assoc).
    rewrite !TemplateFacts.render_app, <- !StrFacts.app_assoc.
    apply TemplateFacts.covers_absent
      with (S := Template.run pat
                   (Template.Lit (nl ++ "        await Promise.all(delList);") :: uploadTail inst)
                   (Template.partial pat)); [|apply Clast].
    apply TemplateFacts.covers_run.
    { constructor; [exact I | now apply plainNames_uploadTail]. }
    apply TemplateFacts.covers_blocks.
    { intros k Hk. rewrite Forall_forall in Hkeys. destruct (Hkeys k Hk) as [Hf Hp].
      now apply plainNames_uploadBlock. }
    { intros k. apply Cblock. }
    apply TemplateFacts.covers_part; [repeat constructor | exact Cfirst | exact Hhead]. }
  unfold uploadPieces.
  destruct fileNames as [|f [|f' keys]].
  - exact (Hmulti [] Hfields).
  - rewrite TemplateFacts.render_app.
    apply TemplateFacts.covers_absent
      with (S := Template.run pat (uploadFiles inst [f] ++ uploadTail inst) (Template.partial pat));
      [|apply Csingle].
    apply TemplateFacts.covers_run; [|exact Hhead].
    inversion Hfields as [|x l [Hf _] _]; subst.
    unfold uploadFiles, uploadTail. cbn [List.app]. repeat constructor; assumption.
  - exact (Hmulti (f :: f' :: keys) Hfields).
Qed.

(** C9: the text of the upload handler is determined by the model name and
    the File-typed fields alone: two generators that agree on these, and
    differ in their confidential and owner-verified fields (or in anything
    else), get the same handler text.  That text is the template of the
    upload handler, and it holds none of the security clauses of the other
    handlers whenever the names put into it are identifiers: no binding of
    the authenticated user, no test for an administrator, no comparison with
    the user's id, no redaction statement. *)
Theorem C9_upload_body_ignores_security_profile :
  forall (g1 g2 : ControllerGen) (fields : IModelFields),
    model (config g1) = model (config g2) ->
    filesFields g1 = Some fields ->
    filesFields g2 = Some fields ->
    exists code : string,
      codeOf (getUploadCode g1) = Ok code /\ codeOf (getUploadCode g2) = Ok code /\
      code = Template.render
               (uploadPieces (pascalCase (model (config g1)))
                  (camelCase (pascalCase (model (config g1)))) (Object_keys fields)) /\
      (Template.isIdentifier (pascalCase (model (config g1))) = true ->
       Template.isIdentifier (camelCase (pascalCase (model (config g1)))) = true ->
       Forall (fun f => Template.isIdentifier f = true /\
                        Template.isIdentifier (pascalCase f) = true) (Object_keys fields) ->
       Forall (fun clause => Js.find clause code = None) securityClauses).
Proof.
  intros g1 g2 fields Hmodel H1 H2.
  eexists. split; [exact (getUploadCode_template g1 fields H1)|].
  split; [rewrite Hmodel; exact (getUploadCode_template g2 fields H2)|].
  split; [reflexivity|].
  intros HM Hinst Hfields. unfold securityClauses.
  repeat (apply Forall_cons;
          [apply upload_absent;
           [intros; vm_compute; reflexivity .. | exact HM | exact Hinst | exact Hfields]|]).
  apply Forall_nil.
Qed.

End UploadSecurity.

Lemma C9_upload_body_ignores_security_profile_witness :
  exists code : string,
    codeOf (@getUploadCode Sample.lib (Sample.ready "Post" "post" "/")) = Ok code /\
    codeOf (@getUploadCode Sample.lib
              (setSecurity None ["title"] ["title"; "image"] (Sample.ready "Post" "post" "/")))
    = Ok code /\
    Forall (fun clause => Js.find clause code = None) securityClauses.
Proof.
  destruct (@C9_upload_body_ignores_security_profile Sample.lib
              (Sample.ready "Post" "post" "/")
              (setSecurity None ["title"] ["title"; "image"] (Sample.ready "Post" "post" "/"))
              [("image", mkField "image" FieldType.File)]
              eq_refl eq_refl eq_refl) as (code & H1 & H2 & _ & Hfree).
  exists code. split; [exact H1|]. split; [exact H2|].
  apply Hfree; [reflexivity | reflexivity | repeat constructor].
Defined.

(** Where the security clauses stand in the handlers of [Post], whose
    [author] is owner-verified and whose related [User] has a confidential
    field: in the detail, list, create, update and delete handlers, and not
    in the upload handler.  The statement that deletes a field of the record
    itself stands nowhere. *)
Example security_clauses_in_the_handlers_of_post :
  map (fun h : GenM string =>
         map (fun clause =>
                match Js.find clause (Sample.textOf (h (Sample.ready "Post" "post" "/"))) with
                | Some _ => true
                | None => false
                end) securityClauses)
      [ @getQueryCodeForSingleInstance Sample.lib; @getQueryCodeForMultiInstance Sample.lib;
        @getInsertCode Sample.lib; @getUpdateCode Sample.lib; @getDeleteCode Sample.lib;
        @getUploadCode Sample.lib ]
  = [ [true; true; true; true; false; true];
      [true; true; true; false; false; true];
      [true; true; true; false; false; true];
      [true; true; true; true; false; true];
      [true; true; true; true; false; false];
      [false; false; false; false; false; false] ].
Proof. vm_compute. reflexivity. Qed.
